(** * Movie recommender: a shallow embedding of [utils.py], [search.py] and
    the response validation of [ai_chatbot.py].

    Conventions of the embedding.
    - Python exceptions are values of [exn]; a computation that may raise
      returns [result A]; [try ... except] is a [match] on the result.
    - A pandas DataFrame is the list of its rows in positional order, with the
      default index [0 .. n-1], so that an index label is a row position.
    - Text is [string] (bytes); lower-casing folds the ASCII letters only.
    - A similarity score is modelled twice: as a real number, the cosine
      in exact arithmetic ([Sklearn]), and as the binary64 number
      scikit-learn computes, rounded after every operation ([Binary64]).
    - Streamlit calls ([st.error], [st.warning], [st.caption]) are collected
      in the list of [st_call]s a function returns next to its value; the
      Streamlit cache is left out.
    - What lies outside the program is a parameter: the answers of the movie
      database service, Python's [re] beyond patterns of ordinary characters
      and dots, the order pandas' [sort_values] gives to rows of equal key,
      and the JSON parser of the chat answer. *)

From Stdlib Require Import String Ascii List Bool Arith ZArith QArith Reals.
From Stdlib Require Import Lia Lra Sorted Permutation DecimalString SpecFloat.
Import ListNotations.

Set Implicit Arguments.
Open Scope nat_scope.

(** ** Exceptions and fallible computations *)

Inductive exn : Type :=
| IndexError
| KeyError
| TypeError
| AttributeError
| ValueError
| RequestException
| ReError.

Inductive result (A : Type) : Type :=
| Ok (a : A)
| Raise (e : exn).

Arguments Ok {A} a.
Arguments Raise {A} e.

Definition bind {A B : Type} (m : result A) (k : A -> result B) : result B :=
  match m with
  | Ok a => k a
  | Raise e => Raise e
  end.

Declare Scope result_scope.
Delimit Scope result_scope with result.
Notation "x <- m ;; k" := (bind m (fun x => k))
  (at level 61, m at next level, right associativity) : result_scope.

Fixpoint mapM {A B : Type} (f : A -> result B) (l : list A) : result (list B) :=
  match l with
  | [] => Ok []
  | a :: l' =>
      match f a with
      | Raise e => Raise e
      | Ok b =>
          match mapM f l' with
          | Raise e => Raise e
          | Ok bs => Ok (b :: bs)
          end
      end
  end.

(** [str(e)]: the message an exception carries.  Its wording belongs to the
    library that raised it; only the kind is kept here. *)
Definition exn_str (e : exn) : string :=
  match e with
  | IndexError => "IndexError"
  | KeyError => "KeyError"
  | TypeError => "TypeError"
  | AttributeError => "AttributeError"
  | ValueError => "ValueError"
  | RequestException => "RequestException"
  | ReError => "re.error"
  end.

(** ** Python built-ins *)

Module Py.

(** [list(enumerate(l))] *)
Definition enumerate {A : Type} (l : list A) : list (nat * A) :=
  combine (seq 0 (length l)) l.

(** A slice bound [i] of a sequence of length [len]: a negative bound counts
    from the end, and every bound is clamped into [0 .. len]. *)
Definition slice_index (len i : Z) : Z :=
  if (i <? 0)%Z then Z.max (i + len) 0 else Z.min i len.

(** [l[start:stop]] *)
Definition slice {A : Type} (start stop : Z) (l : list A) : list A :=
  let len := Z.of_nat (length l) in
  let lo := slice_index len start in
  let hi := slice_index len stop in
  firstn (Z.to_nat (hi - lo)) (skipn (Z.to_nat lo) l).

(** [l[i]] for a non-negative [i] *)
Definition getitem {A : Type} (l : list A) (i : nat) : result A :=
  match nth_error l i with
  | Some a => Ok a
  | None => Raise IndexError
  end.

Section Sorted.
Context {A K : Type} (key : A -> K) (leb : K -> K -> bool).

(** One step of a stable descending sort: [x], which stood before every
    element of [l], goes in front of the first element whose key is not
    greater than its own. *)
Fixpoint insert_desc (x : A) (l : list A) : list A :=
  match l with
  | [] => [x]
  | y :: l' =>
      if leb (key y) (key x) then x :: y :: l' else y :: insert_desc x l'
  end.

(** [sorted(l, reverse=True, key=key)]: descending by key, and elements
    with equal keys keep their original order (the sort is stable, also
    with [reverse=True]). *)
Definition sorted_reverse (l : list A) : list A :=
  fold_right insert_desc [] l.
End Sorted.

(** [c.lower()] on one ASCII character *)
Definition lower_ascii (c : ascii) : ascii :=
  let n := nat_of_ascii c in
  if (65 <=? n)%nat && (n <=? 90)%nat then ascii_of_nat (n + 32) else c.

(** [s.lower()] *)
Fixpoint lower (s : string) : string :=
  match s with
  | EmptyString => EmptyString
  | String c s' => String (lower_ascii c) (lower s')
  end.

(** [s.startswith(p)] *)
Fixpoint startswith (p s : string) : bool :=
  match p, s with
  | EmptyString, _ => true
  | String a p', String b s' => Ascii.eqb a b && startswith p' s'
  | String _ _, EmptyString => false
  end.

(** [p in s] *)
Fixpoint contains (p s : string) : bool :=
  startswith p s ||
  match s with
  | EmptyString => false
  | String _ s' => contains p s'
  end.

Definition is_space (c : ascii) : bool :=
  let n := nat_of_ascii c in
  (n =? 32)%nat || ((9 <=? n)%nat && (n <=? 13)%nat) ||
  ((28 <=? n)%nat && (n <=? 31)%nat).

(** [s.strip() != ""]: some character of [s] is not white space. *)
Fixpoint not_blank (s : string) : bool :=
  match s with
  | EmptyString => false
  | String c s' => negb (is_space c) || not_blank s'
  end.

End Py.

(** ** scikit-learn: cosine similarity of dense rows *)

(** The cosine in exact arithmetic; [Binary64] below repeats it with the
    rounding of the program's numbers. *)
Module Sklearn.
Local Open Scope R_scope.

Definition vector := list R.
Definition matrix := list vector.

Fixpoint dot (x y : vector) : R :=
  match x, y with
  | a :: x', b :: y' => a * b + dot x' y'
  | _, _ => 0
  end.

Definition norm (x : vector) : R := sqrt (dot x x).

(** [normalize(X)] for one row: division by the L2 norm; a row of norm zero
    is left as it is. *)
Definition normalize (x : vector) : vector :=
  if Req_dec_T (norm x) 0 then x else map (fun a => a / norm x) x.

Definition cos_sim (x y : vector) : R := dot (normalize x) (normalize y).

(** [cosine_similarity(x, Y).flatten()] for a single row [x] *)
Definition cosine_similarity (x : vector) (Y : matrix) : list R :=
  map (cos_sim x) Y.

Definition nonneg (x : vector) : Prop := Forall (fun a => 0 <= a) x.

End Sklearn.

(** ** JSON values, as [response.json()] and [json.loads] build them *)

#[warnings="-register-all"]
Inductive json : Type :=
| JNull
| JBool (b : bool)
| JInt (n : Z)
| JFloat (q : Q)
| JStr (s : string)
| JList (l : list json)
| JDict (kv : list (string * json)).

Module PyJson.

Fixpoint lookup (k : string) (kv : list (string * json)) : option json :=
  match kv with
  | [] => None
  | (k', v) :: kv' => if String.eqb k k' then Some v else lookup k kv'
  end.

(** [k in d] *)
Definition has_key (k : string) (kv : list (string * json)) : bool :=
  match lookup k kv with Some _ => true | None => false end.

(** [d.get(k, default)]: only a dict has the method. *)
Definition get (d : json) (k : string) (default : json) : result json :=
  match d with
  | JDict kv =>
      Ok match lookup k kv with Some v => v | None => default end
  | _ => Raise AttributeError
  end.

(** [d[k]] for a string key [k] *)
Definition getitem (d : json) (k : string) : result json :=
  match d with
  | JDict kv =>
      match lookup k kv with Some v => Ok v | None => Raise KeyError end
  | _ => Raise TypeError
  end.

(** The elements a [for] loop over the value goes through: the items of a
    list, the characters of a string, the keys of a dict. *)
Definition iter (v : json) : result (list json) :=
  match v with
  | JList l => Ok l
  | JStr s => Ok (map (fun c => JStr (String c EmptyString)) (list_ascii_of_string s))
  | JDict kv => Ok (map (fun p => JStr (fst p)) kv)
  | _ => Raise TypeError
  end.

(** [v[:n]] *)
Definition slice_to (n : nat) (v : json) : result json :=
  match v with
  | JList l => Ok (JList (firstn n l))
  | JStr s => Ok (JStr (substring 0 n s))
  | _ => Raise TypeError
  end.

(** Truth value of [v] in an [if]. *)
Definition truthy (v : json) : bool :=
  match v with
  | JNull => false
  | JBool b => b
  | JInt n => negb (n =? 0)%Z
  | JFloat q => negb (Qeq_bool q 0)
  | JStr s => negb (String.eqb s EmptyString)
  | JList l => match l with [] => false | _ => true end
  | JDict kv => match kv with [] => false | _ => true end
  end.

(** [prefix + v] for a string [prefix] *)
Definition str_add (prefix : string) (v : json) : result string :=
  match v with
  | JStr s => Ok (prefix ++ s)%string
  | _ => Raise TypeError
  end.

(** [v.lower()] *)
Definition lower (v : json) : result string :=
  match v with
  | JStr s => Ok (Py.lower s)
  | _ => Raise AttributeError
  end.

End PyJson.

(** ** The catalogue *)

Record movie_row : Type := MovieRow {
  movie_id : Z;
  title : string;
  tags : string
}.

Definition DataFrame := list movie_row.

Module Pandas.

(** [df[mask].index]: the positions of the rows the mask keeps. *)
Definition index_where (mask : movie_row -> bool) (df : DataFrame) : list nat :=
  map fst (filter (fun p => mask (snd p)) (Py.enumerate df)).

(** [df.iloc[i]] *)
Definition iloc (df : DataFrame) (i : nat) : result movie_row :=
  Py.getitem df i.

(** [df['title'] == movie] *)
Definition title_eq (movie : string) (r : movie_row) : bool :=
  String.eqb (title r) movie.

(** [df['title'].str.lower() == text.lower()] *)
Definition title_eq_lower (text : string) (r : movie_row) : bool :=
  String.eqb (Py.lower (title r)) (Py.lower text).

End Pandas.

(** ** Streamlit calls *)

Inductive st_call : Type :=
| st_error (msg : string)
| st_warning (msg : string)
| st_caption (msg : string).

(** ** utils.py *)

(** The two requests sent to the movie database, by the query string that
    tells them apart. *)
Inductive request : Type :=
| GetMovie (id : Z)
| GetMovieVideosCredits (id : Z).

(** What comes of [requests.get(...)] followed by [response.json()]. *)
Inductive response : Type :=
| ConnectionFailed
| TimedOut
| BodyNotJson
| BodyJson (data : json).

Record details : Type := Details {
  rating : json;
  vote_count : json;
  overview : json;
  runtime : json;
  release_date : json;
  genres : list json;
  videos : json;
  cast : list json
}.

Module Utils.
Import Sklearn.

Definition response_json (r : response) : result json :=
  match r with
  | ConnectionFailed => Raise RequestException
  | TimedOut => Raise RequestException
  | BodyNotJson => Raise ValueError
  | BodyJson data => Ok data
  end.

Definition placeholder_poster : string :=
  "https://via.placeholder.com/500x750?text=No+Image".

Definition default_details : details :=
  {| rating := JInt 0;
     vote_count := JInt 0;
     overview := JStr "No description available.";
     runtime := JInt 0;
     release_date := JStr "Unknown";
     genres := [];
     videos := JList [];
     cast := [] |}.

(** [compute_similarity_for_movie] *)
Definition compute_similarity_for_movie (movie_index : nat) (tfidf_matrix : matrix)
  : result (list R) :=
  (movie_vector <- Py.getitem tfidf_matrix movie_index ;;
   Ok (cosine_similarity movie_vector tfidf_matrix))%result.

Definition Rleb (a b : R) : bool := if Rle_dec a b then true else false.

(** The ranked (row, score) pairs [recommend] keeps:
    [sorted(list(enumerate(scores)), reverse=True, key=lambda x: x[1])[1:top_n+1]] *)
Definition distances (similarity_scores : list R) (top_n : Z) : list (nat * R) :=
  Py.slice 1 (top_n + 1)
    (Py.sorted_reverse snd Rleb (Py.enumerate similarity_scores)).

(** [p] stands before [q] in a ranking: a higher score first, and for equal
    scores the lower row first. *)
Definition ranks_before (p q : nat * R) : Prop :=
  (snd q < snd p)%R \/ (snd p = snd q /\ (fst p < fst q)%nat).

(** [rows] are the catalogue rows at the positions a ranking lists. *)
Definition rows_of (df : DataFrame) (ds : list (nat * R))
    (rows : list movie_row) : Prop :=
  Forall2 (fun p r => nth_error df (fst p) = Some r) ds rows.

Section World.
(** The movie database service, as seen through [requests.get]. *)
Variable requests_get : request -> response.

(** The [try] block of [fetch_poster] *)
Definition fetch_poster_try (id : Z) : result string :=
  (data <- response_json (requests_get (GetMovie id)) ;;
   poster_path <- PyJson.get data "poster_path" JNull ;;
   if PyJson.truthy poster_path
   then PyJson.str_add "http://image.tmdb.org/t/p/w500/" poster_path
   else Ok placeholder_poster)%result.

Definition fetch_poster (id : Z) : string :=
  match fetch_poster_try id with
  | Ok url => url
  | Raise _ => placeholder_poster
  end.

(** [[x['name'] for x in v]] *)
Definition names_of (v : json) : result (list json) :=
  (items <- PyJson.iter v ;;
   mapM (fun x => PyJson.getitem x "name") items)%result.

(** The [try] block of [fetch_movie_details] *)
Definition fetch_movie_details_try (id : Z) : result details :=
  (data <- response_json (requests_get (GetMovieVideosCredits id)) ;;
   rating_ <- PyJson.get data "vote_average" (JInt 0) ;;
   vote_count_ <- PyJson.get data "vote_count" (JInt 0) ;;
   overview_ <- PyJson.get data "overview" (JStr "No description available.") ;;
   runtime_ <- PyJson.get data "runtime" (JInt 0) ;;
   release_date_ <- PyJson.get data "release_date" (JStr "Unknown") ;;
   genres_v <- PyJson.get data "genres" (JList []) ;;
   genres_ <- names_of genres_v ;;
   videos_d <- PyJson.get data "videos" (JDict []) ;;
   videos_ <- PyJson.get videos_d "results" (JList []) ;;
   credits_d <- PyJson.get data "credits" (JDict []) ;;
   cast_v <- PyJson.get credits_d "cast" (JList []) ;;
   cast_5 <- PyJson.slice_to 5 cast_v ;;
   cast_ <- names_of cast_5 ;;
   Ok {| rating := rating_;
         vote_count := vote_count_;
         overview := overview_;
         runtime := runtime_;
         release_date := release_date_;
         genres := genres_;
         videos := videos_;
         cast := cast_ |})%result.

Definition fetch_movie_details (id : Z) : details :=
  match fetch_movie_details_try id with
  | Ok d => d
  | Raise _ => default_details
  end.

(** [fetch_multiple_posters], [fetch_multiple_details]: [executor.map]
    returns the results in the order of the ids. *)
Definition fetch_multiple_posters (movie_ids : list Z) : list string :=
  map fetch_poster movie_ids.

Definition fetch_multiple_details (movie_ids : list Z) : list details :=
  map fetch_movie_details movie_ids.

Definition recommendations : Type :=
  (list string * list string * list json * list Z)%type.

(** The [for] loop of [recommend], appending to the four lists. *)
Fixpoint recommend_loop (movies_df : DataFrame)
    (posters_list : list string) (details_list : list details)
    (movie_ids : list Z) (todo : list (nat * (nat * R)))
    (acc : recommendations) : result recommendations :=
  match todo with
  | [] => Ok acc
  | (i, (idx, score)) :: todo' =>
      let '(recommended_movies, recommended_posters,
            recommended_ratings, recommended_ids) := acc in
      (row <- Pandas.iloc movies_df idx ;;
       poster <- Py.getitem posters_list i ;;
       d <- Py.getitem details_list i ;;
       id <- Py.getitem movie_ids i ;;
       recommend_loop movies_df posters_list details_list movie_ids todo'
         (recommended_movies ++ [title row],
          recommended_posters ++ [poster],
          recommended_ratings ++ [rating d],
          recommended_ids ++ [id]))%result
  end.

(** The [try] block of [recommend] *)
Definition recommend_try (movie : string) (movies_df : DataFrame)
    (tfidf_matrix : matrix) (top_n : Z) : result recommendations :=
  (movie_index <-
     Py.getitem (Pandas.index_where (Pandas.title_eq movie) movies_df) 0 ;;
   similarity_scores <- compute_similarity_for_movie movie_index tfidf_matrix ;;
   let distances_ := distances similarity_scores top_n in
   movie_ids <-
     mapM (fun p => row <- Pandas.iloc movies_df (fst p) ;; Ok (movie_id row))
          distances_ ;;
   let details_list := fetch_multiple_details movie_ids in
   let posters_list := fetch_multiple_posters movie_ids in
   recommend_loop movies_df posters_list details_list movie_ids
     (Py.enumerate distances_) ([], [], [], []))%result.

(** [recommend]: the value returned and the Streamlit calls made. *)
Definition recommend (movie : string) (movies_df : DataFrame)
    (tfidf_matrix : matrix) (top_n : Z) : recommendations * list st_call :=
  match recommend_try movie movies_df tfidf_matrix top_n with
  | Ok r => (r, [])
  | Raise IndexError =>
      (([], [], [], []),
       [st_error ("Movie '" ++ movie ++ "' not found in database")%string])
  | Raise e =>
      (([], [], [], []),
       [st_error ("Error generating recommendations: " ++ exn_str e)%string])
  end.

(** The rows [recommend] reports, by position in the catalogue. *)
Definition recommended_rows (movie : string) (movies_df : DataFrame)
    (tfidf_matrix : matrix) (top_n : Z) : result (list nat) :=
  (movie_index <-
     Py.getitem (Pandas.index_where (Pandas.title_eq movie) movies_df) 0 ;;
   similarity_scores <- compute_similarity_for_movie movie_index tfidf_matrix ;;
   Ok (map fst (distances similarity_scores top_n)))%result.

End World.

End Utils.

(** ** Python's [re], for the patterns [str.contains] receives *)

Module Re.

(** The characters with a special meaning in a pattern. *)
Definition is_special (c : ascii) : bool :=
  existsb (Ascii.eqb c)
    (list_ascii_of_string ".^$*+?{}[]\|()").

(** No character of the text is special: as a pattern it stands for
    itself. *)
Fixpoint plain (s : string) : bool :=
  match s with
  | EmptyString => true
  | String c s' => negb (is_special c) && plain s'
  end.

Inductive token : Type :=
| Lit (c : ascii)
| AnyChar.

(** Patterns made of ordinary characters and dots.  Every other pattern is
    left to [compile_other] below. *)
Fixpoint parse (pat : string) : option (list token) :=
  match pat with
  | EmptyString => Some []
  | String c pat' =>
      if Ascii.eqb c "."%char then option_map (cons AnyChar) (parse pat')
      else if is_special c then None
      else option_map (cons (Lit c)) (parse pat')
  end.

(** One token against one character, ignoring case; a dot matches every
    character but the newline. *)
Definition token_matches (t : token) (d : ascii) : bool :=
  match t with
  | Lit c => Ascii.eqb (Py.lower_ascii c) (Py.lower_ascii d)
  | AnyChar => negb (Ascii.eqb d "010"%char)
  end.

(** The tokens match at the start of [s]. *)
Fixpoint match_here (toks : list token) (s : string) : bool :=
  match toks, s with
  | [], _ => true
  | t :: toks', String d s' => token_matches t d && match_here toks' s'
  | _ :: _, EmptyString => false
  end.

(** [pattern.search(s) is not None] *)
Fixpoint search (toks : list token) (s : string) : bool :=
  match_here toks s ||
  match s with
  | EmptyString => false
  | String _ s' => search toks s'
  end.

Section Engine.
(** [re.compile(pat, re.IGNORECASE)] for the patterns outside the dotted
    fragment: either [re.error], or the predicate "the pattern is found
    in the text". *)
Variable compile_other : string -> result (string -> bool).

(** [re.compile(pat, flags=re.IGNORECASE)] *)
Definition compile_ignorecase (pat : string) : result (string -> bool) :=
  match parse pat with
  | Some toks => Ok (search toks)
  | None => compile_other pat
  end.
End Engine.

End Re.

(** ** difflib.SequenceMatcher *)

Module Difflib.

Section Matcher.
Variables a b : list ascii.

Definition count (c : ascii) (l : list ascii) : nat :=
  length (filter (Ascii.eqb c) l).

(** The automatic junk heuristic: in a [b] of 200 elements or more, an
    element that occurs more than [len(b) // 100 + 1] times is left out
    of the index [b2j]. *)
Definition popular (c : ascii) : bool :=
  (200 <=? length b) && (length b / 100 + 1 <? count c b).

(** [j in b2j.get(a[i], [])] *)
Definition hit (i j : nat) : bool :=
  match nth_error a i, nth_error b j with
  | Some x, Some y => Ascii.eqb x y && negb (popular y)
  | _, _ => false
  end.

(** [j2len[j]] while the outer loop of [find_longest_match] is at [i]:
    the length of the run of hits that ends at [(i, j)] inside the
    window that starts at [(alo, blo)]. *)
Fixpoint run (alo blo i j : nat) {struct i} : nat :=
  if hit i j && (alo <=? i) && (blo <=? j) then
    match i, j with
    | S i', S j' => S (run alo blo i' j')
    | _, _ => 1
    end
  else 0.

Definition block : Type := (nat * nat * nat)%type.

(** The two loops of [find_longest_match]: the first longest run, in
    the order of [i], then of [j]. *)
Definition scan (alo ahi blo bhi : nat) : block :=
  fold_left
    (fun best i =>
       fold_left
         (fun (best : block) j =>
            let k := run alo blo i j in
            let '(_, _, bestsize) := best in
            if bestsize <? k then (i + 1 - k, j + 1 - k, k) else best)
         (seq blo (bhi - blo)) best)
    (seq alo (ahi - alo)) (alo, blo, 0).

Definition same (i j : nat) : bool :=
  match nth_error a i, nth_error b j with
  | Some x, Some y => Ascii.eqb x y
  | _, _ => false
  end.

(** [while besti > alo and bestj > blo and a[besti-1] == b[bestj-1]] *)
Fixpoint extend_left (fuel alo blo : nat) (m : block) : block :=
  let '(besti, bestj, bestsize) := m in
  match fuel with
  | 0 => m
  | S fuel' =>
      if (alo <? besti) && (blo <? bestj) && same (besti - 1) (bestj - 1)
      then extend_left fuel' alo blo (besti - 1, bestj - 1, bestsize + 1)
      else m
  end.

(** [while besti+bestsize < ahi and bestj+bestsize < bhi and
    a[besti+bestsize] == b[bestj+bestsize]] *)
Fixpoint extend_right (fuel ahi bhi : nat) (m : block) : block :=
  let '(besti, bestj, bestsize) := m in
  match fuel with
  | 0 => m
  | S fuel' =>
      if (besti + bestsize <? ahi) && (bestj + bestsize <? bhi)
         && same (besti + bestsize) (bestj + bestsize)
      then extend_right fuel' ahi bhi (besti, bestj, bestsize + 1)
      else m
  end.

(** [find_longest_match(alo, ahi, blo, bhi)], with no junk declared. *)
Definition find_longest_match (alo ahi blo bhi : nat) : block :=
  extend_right ahi ahi bhi (extend_left ahi alo blo (scan alo ahi blo bhi)).

(** The sum of the sizes of the blocks [get_matching_blocks] collects
    from the window: the longest match, then what lies to its left and
    to its right.  Each round shortens the window of [a]. *)
Fixpoint matches (fuel alo ahi blo bhi : nat) : nat :=
  match fuel with
  | 0 => 0
  | S fuel' =>
      let '(i, j, k) := find_longest_match alo ahi blo bhi in
      if k =? 0 then 0
      else
        k
        + (if (alo <? i) && (blo <? j) then matches fuel' alo i blo j else 0)
        + (if (i + k <? ahi) && (j + k <? bhi)
           then matches fuel' (i + k) ahi (j + k) bhi else 0)
  end.

(** [ratio()]: [2.0 * matches / (len(a) + len(b))], and 1.0 for two
    empty sequences. *)
Definition ratio_of : Q :=
  let total := length a + length b in
  if total =? 0 then 1%Q
  else Qmake (Z.of_nat (2 * matches (S (length a)) 0 (length a) 0 (length b)))
             (Pos.of_nat total).
End Matcher.

(** [SequenceMatcher(None, a, b).ratio()] *)
Definition ratio (a b : string) : Q :=
  ratio_of (list_ascii_of_string a) (list_ascii_of_string b).

End Difflib.

(** ** search.py *)

(** The two keys of [st.session_state] the search touches. *)
Record session_state : Type := SessionState {
  selected_movie : option string;
  search_text : string
}.

Module Search.

(** [str(n)] *)
Definition str_of_nat (n : nat) : string :=
  NilEmpty.string_of_uint (Nat.to_uint n).

Definition no_movie_found : string := "🎬 No movie found! Try another title.".

Definition scored : Type := (movie_row * Q)%type.

(** What [sort_values('similarity', ascending=False)] promises with the
    default algorithm: the same rows, in descending order of the key.  The
    order among rows of equal key is not promised. *)
Definition sorts_descending (sort : list scored -> list scored) : Prop :=
  forall l,
    Permutation (sort l) l /\
    StronglySorted (fun p q => (snd q <= snd p)%Q) (sort l).

(** What a stable sort adds to the promise: rows of equal key keep the
    order they had.  [handle_search] leaves [kind] to its default and so
    does not ask pandas for it. *)
Definition keeps_ties (sort : list scored -> list scored) : Prop :=
  forall l q,
    filter (fun p => Qeq_bool (snd p) q) (sort l)
    = filter (fun p => Qeq_bool (snd p) q) l.

(** A sort that keeps the promise, and rows of equal key in their order. *)
Definition sort_keeping_ties (l : list scored) : list scored :=
  Py.sorted_reverse snd Qle_bool l.

(** A candidate row with its ['similarity'] column:
    [SequenceMatcher(None, search_input.lower(), x.lower()).ratio()] *)
Definition score_for (search_input : string) (r : movie_row) : scored :=
  (r, Difflib.ratio (Py.lower search_input) (Py.lower (title r))).

Section Collaborators.
(** Python's [re] on the patterns outside the fragment of [Re.parse]. *)
Variable compile_other : string -> result (string -> bool).
(** pandas' [sort_values('similarity', ascending=False)]. *)
Variable sort_values_desc : list scored -> list scored.

Definition select (movie_title search_input : string) : session_state :=
  {| selected_movie := Some movie_title; search_text := search_input |}.

(** [handle_search], given the text the input box returns: the new
    session state and the Streamlit calls made. *)
Definition handle_search (movies_df : DataFrame) (search_input : string)
    (st : session_state) : result (session_state * list st_call) :=
  if String.eqb search_input EmptyString then Ok (st, [])
  else
    let exact_match := filter (Pandas.title_eq_lower search_input) movies_df in
    match exact_match with
    | row :: _ => Ok (select (title row) search_input, [])
    | [] =>
        (found <- Re.compile_ignorecase compile_other search_input ;;
         let search_results := filter (fun r => found (title r)) movies_df in
         match search_results with
         | _ :: _ =>
             let with_similarity :=
               map (score_for search_input) search_results in
             let sorted := sort_values_desc with_similarity in
             let calls :=
               if 1 <? length sorted
               then [st_caption ("Found " ++ str_of_nat (length sorted)
                                 ++ " results")%string]
               else [] in
             row <- Py.getitem sorted 0 ;;
             Ok (select (title (fst row)) search_input, calls)
         | [] =>
             if Py.not_blank search_input
             then Ok (st, [st_warning no_movie_found])
             else Ok (st, [])
         end)%result
    end.
End Collaborators.

(** A title equals the text, or contains it, up to case. *)
Definition exact_ci (text : string) (r : movie_row) : bool :=
  String.eqb (Py.lower (title r)) (Py.lower text).

Definition substring_ci (text : string) (r : movie_row) : bool :=
  Py.contains (Py.lower text) (Py.lower (title r)).

End Search.

(** ** ai_chatbot.py: validation of the chat service's answer *)

Module Chatbot.

(** [k in v] for a string [k] *)
Definition contains_key (k : string) (v : json) : result bool :=
  match v with
  | JDict kv => Ok (PyJson.has_key k kv)
  | JList l =>
      Ok (existsb (fun x => match x with
                            | JStr s => String.eqb s k
                            | _ => false
                            end) l)
  | JStr s => Ok (Py.contains k s)
  | _ => Raise TypeError
  end.

(** [d[k] = v] on a dict that has the key [k] or not *)
Fixpoint dict_set (k : string) (v : json) (kv : list (string * json))
  : list (string * json) :=
  match kv with
  | [] => [(k, v)]
  | (k', v') :: kv' =>
      if String.eqb k k' then (k', v) :: kv' else (k', v') :: dict_set k v kv'
  end.

Definition setitem (d : json) (k : string) (v : json) : result json :=
  match d with
  | JDict kv => Ok (JDict (dict_set k v kv))
  | _ => Raise TypeError
  end.

Definition validated_entry (r : movie_row) (reason : json) : json :=
  JDict [ ("title"%string, JStr (title r));
          ("movie_id"%string, JInt (movie_id r));
          ("reason"%string, reason) ].

Section Catalogue.
Variable movies_df : DataFrame.

(** One round of the loop of [validate_movie_ids]: what is appended to
    [validated]. *)
Definition validate_entry (movie : json) : result (list json) :=
  (title_v <- PyJson.get movie "title" (JStr "") ;;
   title_l <- PyJson.lower title_v ;;
   let matched :=
     filter (fun r => String.eqb (Py.lower (title r)) title_l) movies_df in
   match matched with
   | row :: _ =>
       reason <- PyJson.get movie "reason" (JStr "") ;;
       Ok [validated_entry row reason]
   | [] => Ok []
   end)%result.

(** [validate_movie_ids] *)
Definition validate_movie_ids (parsed_response : json) : result json :=
  (present <- contains_key "database_movies" parsed_response ;;
   if (present : bool) then
     movies_v <- PyJson.getitem parsed_response "database_movies" ;;
     movies <- PyJson.iter movies_v ;;
     validated <- mapM validate_entry movies ;;
     setitem parsed_response "database_movies" (JList (concat validated))
   else Ok parsed_response)%result.

(** The answer returned when the text holds no JSON object, or when
    anything fails. *)
Definition plain_answer (response_text : string) : json :=
  JDict [ ("message"%string, JStr response_text);
          ("database_movies"%string, JList []);
          ("external_movies"%string, JList []) ].

Section Parsers.
(** [re.search(r'\{.*\}', text, re.DOTALL)]: the matched group. *)
Variable search_braces : string -> option string.
(** [json.loads] *)
Variable json_loads : string -> result json.

(** The [try] block of [parse_response] *)
Definition parse_response_try (response_text : string) : result json :=
  match search_braces response_text with
  | Some group =>
      (parsed <- json_loads group ;; validate_movie_ids parsed)%result
  | None => Ok (plain_answer response_text)
  end.

Definition parse_response (response_text : string) : json :=
  match parse_response_try response_text with
  | Ok r => r
  | Raise _ => plain_answer response_text
  end.
End Parsers.

(** The title of a response entry, when it is text. *)
Definition entry_title (movie : json) (t : string) : Prop :=
  PyJson.get movie "title" (JStr "") = Ok (JStr t).

End Catalogue.

End Chatbot.

(** ** Sample catalogues *)

Module Samples.
Import Sklearn.
Local Open Scope R_scope.

(** The movie database service out of reach. *)
Definition offline (_ : request) : response := ConnectionFailed.

(** The movie database service answering every request with its error
    body. *)
Definition not_found_body : json :=
  JDict [ ("success"%string, JBool false);
          ("status_code"%string, JInt 34);
          ("status_message"%string,
           JStr "The resource you requested could not be found.") ].

Definition unknown_ids (_ : request) : response := BodyJson not_found_body.

(** Two entries with the same tag text, and a third one sharing no term
    with them.  The vocabulary is (action, romance); each row holds one
    term, so its normalized TF-IDF vector is a unit vector. *)
Definition twins_df : DataFrame :=
  [ MovieRow 11 "Alpha" "action";
    MovieRow 12 "Beta" "action";
    MovieRow 13 "Gamma" "romance" ].

Definition twins_matrix : matrix := [ [1; 0]; [1; 0]; [0; 1] ].

(** A catalogue of two entries with the same tag text. *)
Definition pair_df : DataFrame :=
  [ MovieRow 21 "First" "space";
    MovieRow 22 "Second" "space" ].

Definition pair_matrix : matrix := [ [1]; [1] ].

(** Vocabulary (dream, space). *)
Definition inception_df : DataFrame :=
  [ MovieRow 27205 "Inception" "dream";
    MovieRow 157336 "Interstellar" "space" ].

Definition inception_matrix : matrix := [ [1; 0]; [0; 1] ].

(** Tag texts "dream" and "the": the second holds only a stop word, no term
    of the vocabulary (dream), and its row is all zero. *)
Definition blank_matrix : matrix := [ [1]; [0] ].

(** An engine that refuses every pattern outside the fragment of
    [Re.parse]; the sample searches below stay inside the fragment. *)
Definition refuse_other (_ : string) : result (string -> bool) :=
  Raise ReError.

Definition nothing_selected : session_state :=
  {| selected_movie := None; search_text := "" |}.

(** Two titles of one length that both contain "man". *)
Definition heroes_df : DataFrame :=
  [ MovieRow 1924 "Superman" "hero krypton reporter";
    MovieRow 314 "Catwoman" "hero cat cosmetics" ].

(** A title with a dot, and a title the pattern "e.t" also matches. *)
Definition dotted_df : DataFrame :=
  [ MovieRow 601 "E.T. the Extra-Terrestrial" "alien boy bicycle";
    MovieRow 1266 "Street Kings" "police corruption detective" ].


(** An answer of the chat service: one title of [inception_df] in capital
    letters with a made-up id, and one title the catalogue does not hold. *)
Definition chat_answer : json :=
  JDict [ ("message"%string, JStr "Two films about dreams.");
          ("database_movies"%string,
           JList [ JDict [ ("title"%string, JStr "INCEPTION");
                           ("movie_id"%string, JInt 1);
                           ("reason"%string, JStr "dreams within dreams") ];
                   JDict [ ("title"%string, JStr "Dreamcatcher Returns");
                           ("movie_id"%string, JInt 2);
                           ("reason"%string, JStr "more dreams") ] ]);
          ("external_movies"%string, JList []) ].

(** Parsers that find [chat_answer] in whatever text they receive. *)
Definition whole_text (text : string) : option string := Some text.


End Samples.
(** ** The scores in binary64 *)

(** scikit-learn computes the scores on IEEE 754 binary64 numbers and
    rounds to nearest, ties to even, after every operation.  [Binary64]
    repeats the computation of [Sklearn] and the ranking of [Utils] on
    these numbers, as the Standard Library specifies them ([SpecFloat]),
    with the order of operations of the sparse routines. *)
Module Binary64.

Definition prec : Z := 53.
Definition emax : Z := 1024.

Abbreviation float := spec_float.
Definition vector : Type := list float.
Definition matrix : Type := list vector.

Definition zero : float := S754_zero false.
Definition of_Z (n : Z) : float := binary_normalize prec emax n 0 false.
Definition add : float -> float -> float := SFadd prec emax.
Definition mul : float -> float -> float := SFmul prec emax.
Definition div : float -> float -> float := SFdiv prec emax.
Definition sqrt : float -> float := SFsqrt prec emax.

Definition is_nan (x : float) : bool :=
  match x with
  | S754_nan => true
  | _ => false
  end.

(** One entry of the sparse product [X * Y.T]: the sum starts at zero and
    takes the products in column order. *)
Definition dot (x y : vector) : float :=
  fold_left (fun sum ab => add sum (mul (fst ab) (snd ab))) (combine x y) zero.

(** [normalize(X)] for one row: the squares are summed, a row whose sum is
    zero is left as it is, and the entries of any other row are divided by
    the square root of the sum. *)
Definition normalize (x : vector) : vector :=
  let sum := dot x x in
  if SFeqb sum zero then x else map (fun a => div a (sqrt sum)) x.

Definition cos_sim (x y : vector) : float := dot (normalize x) (normalize y).

(** [cosine_similarity(x, Y).flatten()] for a single row [x] *)
Definition cosine_similarity (x : vector) (Y : matrix) : list float :=
  map (cos_sim x) Y.

Definition compute_similarity_for_movie (movie_index : nat)
    (tfidf_matrix : matrix) : result (list float) :=
  (movie_vector <- Py.getitem tfidf_matrix movie_index ;;
   Ok (cosine_similarity movie_vector tfidf_matrix))%result.

(** The ranked (row, score) pairs [recommend] keeps:
    [sorted(list(enumerate(scores)), reverse=True, key=lambda x: x[1])[1:top_n+1]] *)
Definition ranking (similarity_scores : list float) : list (nat * float) :=
  Py.sorted_reverse snd SFleb (Py.enumerate similarity_scores).

Definition distances (similarity_scores : list float) (top_n : Z)
  : list (nat * float) :=
  Py.slice 1 (top_n + 1) (ranking similarity_scores).

(** [p] stands before [q] in a ranking: a higher score first, and for equal
    scores the lower row first. *)
Definition ranks_before (p q : nat * float) : Prop :=
  SFltb (snd q) (snd p) = true \/
  (SFeqb (snd p) (snd q) = true /\ (fst p < fst q)%nat).

(** The TF-IDF row of a tag text of two terms of equal weight, as
    [TfidfVectorizer] normalizes it: 0x1.6a09e667f3bccp-1 twice, the
    binary64 quotient of 1 by the square root of 2. *)
Definition two_terms_row : vector := normalize [of_Z 1; of_Z 1].

(** Two entries that both carry the tag text "space robot". *)
Definition robots_matrix : matrix := [two_terms_row; two_terms_row].

(** The binary64 number after 1: 1 + 2^-52, printed 1.0000000000000002. *)
Definition above_one : float := S754_finite false 4503599627370497 (-52).

(** Unit rows over the vocabulary (action, romance), as [Samples.twins_matrix]. *)
Definition twins_matrix : matrix :=
  [ [of_Z 1; zero]; [of_Z 1; zero]; [zero; of_Z 1] ].

(** The scores of its second row against every row. *)
Definition second_row_scores : list float :=
  cosine_similarity [of_Z 1; zero] twins_matrix.

End Binary64.


(** ** utils.py: the star rating *)

Module Display.

(** The double quote, for the HTML attributes. *)
Definition dq : string := String (ascii_of_nat 34) EmptyString.

(** [s * n]: empty when [n] is not positive. *)
Definition str_mul (s : string) (n : Z) : string :=
  String.concat EmptyString (repeat s (Z.to_nat n)).

(** [int(q)]: the integer part, rounding towards zero. *)
Definition int_of (q : Q) : Z := Z.quot (Qnum q) (Zpos (Qden q)).

Definition full_stars (rating : Q) : Z := int_of (rating / 2).

Definition half_star (rating : Q) : Z :=
  if Qle_bool (1 # 2) (rating / 2 - inject_Z (full_stars rating)) then 1%Z
  else 0%Z.

Definition empty_stars (rating : Q) : Z :=
  (5 - full_stars rating - half_star rating)%Z.

Definition stars (rating : Q) : string :=
  (str_mul "⭐" (full_stars rating)
   ++ str_mul "✨" (half_star rating)
   ++ str_mul "☆" (empty_stars rating))%string.


(** Commas between groups of three digits, on the digits in reverse. *)
Fixpoint group3_rev (l : list ascii) : list ascii :=
  match l with
  | a :: b :: c :: ((_ :: _) as rest) =>
      a :: b :: c :: ","%char :: group3_rev rest
  | _ => l
  end.

(** [f"{n:,}"] *)
Definition format_thousands (n : Z) : string :=
  let digits :=
    list_ascii_of_string (NilZero.string_of_uint (N.to_uint (Z.abs_N n))) in
  let grouped := string_of_list_ascii (rev (group3_rev (rev digits))) in
  if (n <? 0)%Z then ("-" ++ grouped)%string else grouped.

(** [display_stars(rating, vote_count)], for a number [rating] and a
    [vote_count] that is an integer or [None]. *)
Definition display_stars (rating : Q) (vote_count : option Z) : string :=
  let span := ("<span class=" ++ dq ++ "star-rating" ++ dq ++ ">"
               ++ stars rating ++ "</span>")%string in
  match vote_count with
  | Some n =>
      if (n =? 0)%Z then span
      else (span ++ " <span style=" ++ dq ++ "color: #999; font-size: 12px;"
            ++ dq ++ ">(" ++ format_thousands n ++ " votes)</span>")%string
  | None => span
  end.

End Display.

(** ** utils.py: the genre filters *)

Module Genres.

Section Engine.
Variable compile_other : string -> result (string -> bool).

(** [movies_df['tags'].str.contains(genre, case=False, na=False)] *)
Definition tags_mask (genre : string) : result (movie_row -> bool) :=
  (found <- Re.compile_ignorecase compile_other genre ;;
   Ok (fun r => found (tags r)))%result.

(** [filter_movies_by_genre] *)
Definition filter_movies_by_genre (movies_df : DataFrame) (genre : string)
  : result DataFrame :=
  (mask <- tags_mask genre ;; Ok (filter mask movies_df))%result.

(** [get_genre_movie_count] *)
Definition get_genre_movie_count (movies_df : DataFrame) (genre : string)
  : result nat :=
  (mask <- tags_mask genre ;; Ok (length (filter mask movies_df)))%result.

End Engine.

(** The tag text contains the genre name, up to case. *)
Definition tagged (genre : string) (r : movie_row) : bool :=
  Py.contains (Py.lower genre) (Py.lower (tags r)).

End Genres.

(** ** ai_chatbot.py: the catalogue search behind the chat *)

Record search_hit : Type := SearchHit {
  hit_title : string;
  hit_movie_id : Z;
  hit_genres : string;
  hit_rating : json;
  hit_year : json
}.

Module ChatSearch.

(** [drop_duplicates(subset=['movie_id'])]: of the rows that share an id the
    first one stays. *)
Fixpoint drop_duplicates (seen : list Z) (rows : DataFrame) : DataFrame :=
  match rows with
  | [] => []
  | r :: rows' =>
      if existsb (Z.eqb (movie_id r)) seen then drop_duplicates seen rows'
      else r :: drop_duplicates (movie_id r :: seen) rows'
  end.

(** [df.head(n)]: the first [n] rows, or all but the last [-n] rows when [n]
    is negative. *)
Definition head {A : Type} (n : Z) (l : list A) : list A :=
  if (0 <=? n)%Z then firstn (Z.to_nat n) l
  else firstn (length l - Z.to_nat (- n)) l.

(** [', '.join(items)] *)
Fixpoint join_names (items : list json) : result string :=
  match items with
  | [] => Ok EmptyString
  | JStr s :: items' =>
      match items' with
      | [] => Ok s
      | _ => (rest <- join_names items' ;; Ok (s ++ ", " ++ rest)%string)%result
      end
  | _ :: _ => Raise TypeError
  end.

(** [v != 'Unknown'] *)
Definition is_not_unknown (v : json) : bool :=
  match v with
  | JStr s => negb (String.eqb s "Unknown")
  | _ => true
  end.

(** [df['title'].str.lower().str.contains(query_lower, na=False,
    regex=False)], and the same on the tags *)
Definition title_has (query_lower : string) (r : movie_row) : bool :=
  Py.contains query_lower (Py.lower (title r)).

Definition tags_have (query_lower : string) (r : movie_row) : bool :=
  Py.contains query_lower (Py.lower (tags r)).

Definition all_matches (movies_df : DataFrame) (query : string) : DataFrame :=
  let query_lower := Py.lower query in
  let title_matches := filter (title_has query_lower) movies_df in
  let tag_matches := filter (tags_have query_lower) movies_df in
  drop_duplicates [] (title_matches ++ tag_matches).

Section World.
Variable requests_get : request -> response.

(** One round of the loop of [search_database] *)
Definition hit_of (movie : movie_row) : result search_hit :=
  let d := Utils.fetch_movie_details requests_get (movie_id movie) in
  (genres_ <-
     match genres d with
     | [] => Ok "N/A"%string
     | names => join_names names
     end ;;
   year_ <-
     (if is_not_unknown (release_date d)
      then PyJson.slice_to 4 (release_date d)
      else Ok (JStr "N/A")) ;;
   Ok {| hit_title := title movie;
         hit_movie_id := movie_id movie;
         hit_genres := genres_;
         hit_rating := rating d;
         hit_year := year_ |})%result.

(** [MovieChatbot.search_database] *)
Definition search_database (movies_df : DataFrame) (query : string) (limit : Z)
  : result (list search_hit) :=
  mapM hit_of (head limit (all_matches movies_df query)).

End World.

End ChatSearch.

(** ** ai_chatbot.py: the poster of a film outside the catalogue *)

(** The search request: the title, and the year when it is given. *)
Inductive search_request : Type :=
| SearchMovie (query : string) (year : option json).

Record external_movie : Type := ExternalMovie {
  ext_poster_url : string;
  ext_rating : json;
  ext_release_date : json;
  ext_overview : json;
  ext_tmdb_id : json
}.

Module ExternalPoster.

Definition no_poster : string :=
  "https://via.placeholder.com/500x750/141414/e50914?text=No+Poster".

Definition error_poster : string :=
  "https://via.placeholder.com/500x750/141414/e50914?text=Error".

Definition nothing_found : external_movie :=
  {| ext_poster_url := no_poster;
     ext_rating := JInt 0;
     ext_release_date := JStr "Unknown";
     ext_overview := JStr "No description available";
     ext_tmdb_id := JNull |}.

Definition fetch_error : external_movie :=
  {| ext_poster_url := error_poster;
     ext_rating := JInt 0;
     ext_release_date := JStr "Unknown";
     ext_overview := JStr "Error fetching data";
     ext_tmdb_id := JNull |}.

(** [v[0]] *)
Definition first_item (v : json) : result json :=
  match v with
  | JList (x :: _) => Ok x
  | JList [] => Raise IndexError
  | JStr (String c _) => Ok (JStr (String c EmptyString))
  | JStr EmptyString => Raise IndexError
  | JDict _ => Raise KeyError
  | _ => Raise TypeError
  end.

Section World.
Variable requests_get_search : search_request -> response.
(** [str(v)] for a value that is not a string. *)
Variable str_other : json -> string.

(** [f"{v}"] *)
Definition fstr (v : json) : string :=
  match v with
  | JStr s => s
  | _ => str_other v
  end.

(** The [try] block of [search_external_movie_poster] *)
Definition search_external_movie_poster_try (movie_title : string) (year : json)
  : result external_movie :=
  let params_year := if PyJson.truthy year then Some year else None in
  (data <- Utils.response_json
             (requests_get_search (SearchMovie movie_title params_year)) ;;
   results <- PyJson.get data "results" JNull ;;
   if PyJson.truthy results then
     results' <- PyJson.getitem data "results" ;;
     movie <- first_item results' ;;
     poster_path <- PyJson.get movie "poster_path" JNull ;;
     rating_ <- PyJson.get movie "vote_average" (JInt 0) ;;
     release_date_ <- PyJson.get movie "release_date" (JStr "Unknown") ;;
     overview_ <- PyJson.get movie "overview" (JStr "No description available") ;;
     id_ <- PyJson.get movie "id" JNull ;;
     Ok {| ext_poster_url :=
             if PyJson.truthy poster_path
             then ("http://image.tmdb.org/t/p/w500" ++ fstr poster_path)%string
             else no_poster;
           ext_rating := rating_;
           ext_release_date := release_date_;
           ext_overview := overview_;
           ext_tmdb_id := id_ |}
   else Ok nothing_found)%result.

Definition search_external_movie_poster (movie_title : string) (year : json)
  : external_movie :=
  match search_external_movie_poster_try movie_title year with
  | Ok r => r
  | Raise _ => fetch_error
  end.

End World.

End ExternalPoster.

(** ** app.py: the [selected] query parameter of a clickable poster *)

(** The keys of [st.session_state] that the handling reads or writes. *)
Record app_state : Type := AppState {
  app_selected_movie : option string;
  app_search_text : string;
  rec_batch : Z;
  back_clicked : bool
}.

Module App.

Section Int.
(** [int(text)]: [None] stands for [ValueError]. *)
Variable py_int : string -> option Z.

(** The handling of the query parameters at the top of the page;
    [query_selected] is [query_params["selected"]] when the key is there. *)
Definition handle_query_param (movies_df : DataFrame)
    (query_selected : option string) (st : app_state)
  : app_state * list st_call :=
  let '(st1, calls) :=
    match query_selected with
    | Some movie_id_param =>
        if back_clicked st then (st, [])
        else
          match py_int movie_id_param with
          | None =>
              (st, [st_warning ("Invalid movie ID: " ++ movie_id_param)%string])
          | Some id =>
              match filter (fun r => (movie_id r =? id)%Z) movies_df with
              | row :: _ =>
                  ({| app_selected_movie := Some (title row);
                      app_search_text := EmptyString;
                      rec_batch := 1;
                      back_clicked := back_clicked st |}, [])
              | [] => (st, [])
              end
          end
    | None => (st, [])
    end in
  (if back_clicked st1
   then {| app_selected_movie := app_selected_movie st1;
           app_search_text := app_search_text st1;
           rec_batch := rec_batch st1;
           back_clicked := false |}
   else st1,
   calls).

End Int.

End App.

(** ** More samples *)

Module MoreSamples.
Import Samples.

(** The service answering every request with a poster path. *)
Definition with_poster (_ : request) : response :=
  BodyJson (JDict [ ("poster_path"%string, JStr "/inception.jpg") ]).

(** A title with regex special characters. *)
Definition summer_df : DataFrame :=
  [ MovieRow 19913 "(500) Days of Summer" "romance";
    MovieRow 27205 "Inception" "dream" ].

(** A catalogue whose tag texts name genres. *)
Definition genre_df : DataFrame :=
  [ MovieRow 1 "One" "Action hero";
    MovieRow 2 "Two" "romance";
    MovieRow 3 "Three" "fast action" ].

(** An answer of the chat service whose second entry has a number for
    title. *)
Definition malformed_answer : list (string * json) :=
  [ ("message"%string, JStr "Here you are.");
    ("database_movies"%string,
     JList [ JDict [ ("title"%string, JStr "Inception") ];
             JDict [ ("title"%string, JInt 2010) ] ]) ].

Definition loads_malformed_answer (_ : string) : result json :=
  Ok (JDict malformed_answer).

(** The items of [Samples.chat_answer]. *)
Definition chat_answer_items : list (string * json) :=
  match chat_answer with
  | JDict kv => kv
  | _ => []
  end.

(** [Samples.chat_answer] after validation against [inception_df]. *)
Definition validated_chat_answer : list (string * json) :=
  [ ("message"%string, JStr "Two films about dreams.");
    ("database_movies"%string,
     JList [ Chatbot.validated_entry (MovieRow 27205 "Inception" "dream")
               (JStr "dreams within dreams") ]);
    ("external_movies"%string, JList []) ].

(** An [int] that reads the ids of [twins_df]. *)
Definition int_of_twins (text : string) : option Z :=
  if String.eqb text "11" then Some 11%Z
  else if String.eqb text "12" then Some 12%Z
  else if String.eqb text "13" then Some 13%Z
  else None.

Definition fresh_page : app_state :=
  {| app_selected_movie := None;
     app_search_text := EmptyString;
     rec_batch := 1;
     back_clicked := false |}.

(** The search service out of reach, and a [str] that is never needed. *)
Definition search_offline (_ : search_request) : response := ConnectionFailed.

(** An answer of the search service with two results. *)
Definition arrival_first : list (string * json) :=
  [ ("id"%string, JInt 329865);
    ("poster_path"%string, JStr "/arrival.jpg");
    ("release_date"%string, JStr "2016-11-10");
    ("vote_average"%string, JFloat 7.6) ].

Definition arrival_second : json :=
  JDict [ ("id"%string, JInt 1061656);
          ("poster_path"%string, JStr "/another-arrival.jpg") ].

Definition arrival_body : list (string * json) :=
  [ ("page"%string, JInt 1);
    ("results"%string, JList [JDict arrival_first; arrival_second]) ].

Definition search_answers (_ : search_request) : response :=
  BodyJson (JDict arrival_body).

Definition str_unused (_ : json) : string := EmptyString.

End MoreSamples.

(** * Properties *)

(** ** Cosine similarity *)

Section CosineFacts.
Import Sklearn.
Local Open Scope R_scope.

Lemma dot_self_nonneg (x : vector) : 0 <= dot x x.
Proof.
  induction x as [|a x IH]; simpl; [lra|].
  pose proof (Rle_0_sqr a) as Ha. unfold Rsqr in Ha. lra.
Qed.

Lemma dot_nonneg (x y : vector) : nonneg x -> nonneg y -> 0 <= dot x y.
Proof.
  intros Hx. revert y.
  induction Hx as [|a x Ha Hx IH]; intros y Hy; simpl; [lra|].
  destruct Hy as [|b y Hb Hy]; [lra|].
  specialize (IH y Hy).
  pose proof (Rmult_le_pos a b Ha Hb). lra.
Qed.

Lemma cauchy_schwarz (x y : vector) :
  dot x y * dot x y <= dot x x * dot y y.
Proof.
  revert y.
  induction x as [|a x IH]; intros [|b y]; simpl; try lra.
  - specialize (IH y).
    pose proof (dot_self_nonneg x) as HX.
    pose proof (dot_self_nonneg y) as HY.
    set (S := dot x y) in *. set (X := dot x x) in *. set (Y := dot y y) in *.
    (* 2abS <= a^2 Y + b^2 X, by cases on the sign of the middle term *)
    assert (Hmid : 2 * (a * b) * S <= a * a * Y + b * b * X).
    { destruct (Rle_dec (2 * (a * b) * S) 0) as [Hn|Hp].
      - pose proof (Rle_0_sqr a) as Ha. pose proof (Rle_0_sqr b) as Hb.
        unfold Rsqr in Ha, Hb.
        pose proof (Rmult_le_pos _ _ Ha HY).
        pose proof (Rmult_le_pos _ _ Hb HX). lra.
      - apply Rnot_le_lt in Hp.
        assert (Hsq : (2 * (a * b) * S) * (2 * (a * b) * S)
                      <= (a * a * Y + b * b * X) * (a * a * Y + b * b * X)).
        { assert (H1 : (2 * (a * b) * S) * (2 * (a * b) * S)
                       = 4 * ((a * a) * (b * b)) * (S * S)) by ring.
          assert (H2 : 4 * ((a * a) * (b * b)) * (S * S)
                       <= 4 * ((a * a) * (b * b)) * (X * Y)).
          { apply Rmult_le_compat_l; [|exact IH].
            pose proof (Rle_0_sqr (a * b)) as Hab. unfold Rsqr in Hab.
            replace (a * a * (b * b)) with (a * b * (a * b)) by ring. lra. }
          assert (H3 : 0 <= (a * a * Y - b * b * X) * (a * a * Y - b * b * X)).
          { pose proof (Rle_0_sqr (a * a * Y - b * b * X)) as H.
            unfold Rsqr in H. exact H. }
          nra. }
        assert (Hpos : 0 <= a * a * Y + b * b * X).
        { pose proof (Rle_0_sqr a) as Ha. pose proof (Rle_0_sqr b) as Hb.
          unfold Rsqr in Ha, Hb.
          pose proof (Rmult_le_pos _ _ Ha HY).
          pose proof (Rmult_le_pos _ _ Hb HX). lra. }
        apply Rsqr_incr_0_var; [|exact Hpos].
        unfold Rsqr. exact Hsq. }
    nra.
Qed.

Lemma dot_zero_l (x y : vector) : dot x x = 0 -> dot x y = 0.
Proof.
  revert y. induction x as [|a x IH]; intros y H; simpl in *; [reflexivity|].
  destruct y as [|b y]; [reflexivity|].
  pose proof (dot_self_nonneg x) as HX.
  pose proof (Rle_0_sqr a) as Ha. unfold Rsqr in Ha.
  assert (a * a = 0) by lra.
  assert (dot x x = 0) by lra.
  assert (a = 0) by (apply Rsqr_0_uniq; exact H0).
  rewrite (IH y H1). subst a. lra.
Qed.

Lemma dot_comm (x y : vector) : dot x y = dot y x.
Proof.
  revert y. induction x as [|a x IH]; intros [|b y]; simpl; try reflexivity.
  rewrite (IH y). ring.
Qed.

Lemma dot_scale_l (c : R) (x y : vector) :
  dot (map (fun a => a / c) x) y = dot x y / c.
Proof.
  revert y. induction x as [|a x IH]; intros [|b y]; simpl;
    try (unfold Rdiv; ring).
  rewrite IH. unfold Rdiv. ring.
Qed.

Lemma dot_scale_r (c : R) (x y : vector) :
  dot x (map (fun a => a / c) y) = dot x y / c.
Proof.
  rewrite dot_comm, dot_scale_l, dot_comm. reflexivity.
Qed.

Lemma norm_nonneg (x : vector) : 0 <= norm x.
Proof. apply sqrt_pos. Qed.

Lemma norm_zero_iff (x : vector) : norm x = 0 <-> dot x x = 0.
Proof.
  unfold norm. split; intros H.
  - apply sqrt_eq_0; [apply dot_self_nonneg | exact H].
  - rewrite H. apply sqrt_0.
Qed.

Lemma norm_sqr (x : vector) : norm x * norm x = dot x x.
Proof. apply sqrt_sqrt, dot_self_nonneg. Qed.

(** The three cases of the similarity of two rows. *)
Lemma cos_sim_zero_l (x y : vector) : dot x x = 0 -> cos_sim x y = 0.
Proof.
  intros H. unfold cos_sim, normalize.
  destruct (Req_dec_T (norm x) 0) as [_|Hn].
  - apply dot_zero_l, H.
  - exfalso. apply Hn, norm_zero_iff, H.
Qed.

Lemma cos_sim_zero_r (x y : vector) : dot y y = 0 -> cos_sim x y = 0.
Proof.
  intros H. unfold cos_sim. rewrite dot_comm.
  unfold normalize at 1.
  destruct (Req_dec_T (norm y) 0) as [_|Hn].
  - apply dot_zero_l, H.
  - exfalso. apply Hn, norm_zero_iff, H.
Qed.

Lemma cos_sim_quotient (x y : vector) :
  dot x x <> 0 -> dot y y <> 0 ->
  cos_sim x y = dot x y / (norm x * norm y).
Proof.
  intros Hx Hy. unfold cos_sim, normalize.
  destruct (Req_dec_T (norm x) 0) as [E|Nx];
    [exfalso; apply Hx, norm_zero_iff, E|].
  destruct (Req_dec_T (norm y) 0) as [E|Ny];
    [exfalso; apply Hy, norm_zero_iff, E|].
  rewrite dot_scale_l, dot_scale_r. field. split; assumption.
Qed.

Lemma cos_sim_self (x : vector) : dot x x <> 0 -> cos_sim x x = 1.
Proof.
  intros Hx. rewrite cos_sim_quotient by assumption.
  rewrite norm_sqr. field. exact Hx.
Qed.

Lemma cos_sim_le_1 (x y : vector) : cos_sim x y <= 1.
Proof.
  destruct (Req_dec_T (dot x x) 0) as [Zx|Nx];
    [rewrite cos_sim_zero_l by assumption; lra|].
  destruct (Req_dec_T (dot y y) 0) as [Zy|Ny];
    [rewrite cos_sim_zero_r by assumption; lra|].
  rewrite cos_sim_quotient by assumption.
  pose proof (norm_nonneg x) as Hx. pose proof (norm_nonneg y) as Hy.
  assert (norm x <> 0) by (intros E; apply Nx, norm_zero_iff, E).
  assert (norm y <> 0) by (intros E; apply Ny, norm_zero_iff, E).
  assert (Hp : 0 < norm x * norm y) by (apply Rmult_lt_0_compat; lra).
  apply Rmult_le_reg_r with (r := norm x * norm y); [exact Hp|].
  unfold Rdiv. rewrite Rmult_assoc, Rinv_l by lra. rewrite Rmult_1_r, Rmult_1_l.
  apply Rsqr_incr_0_var; [|lra].
  unfold Rsqr.
  replace (norm x * norm y * (norm x * norm y))
    with ((norm x * norm x) * (norm y * norm y)) by ring.
  rewrite !norm_sqr. apply cauchy_schwarz.
Qed.

Lemma cos_sim_ge_0 (x y : vector) : nonneg x -> nonneg y -> 0 <= cos_sim x y.
Proof.
  intros Px Py.
  destruct (Req_dec_T (dot x x) 0) as [Zx|Nx];
    [rewrite cos_sim_zero_l by assumption; lra|].
  destruct (Req_dec_T (dot y y) 0) as [Zy|Ny];
    [rewrite cos_sim_zero_r by assumption; lra|].
  rewrite cos_sim_quotient by assumption.
  pose proof (norm_nonneg x) as Hx. pose proof (norm_nonneg y) as Hy.
  assert (norm x <> 0) by (intros E; apply Nx, norm_zero_iff, E).
  assert (norm y <> 0) by (intros E; apply Ny, norm_zero_iff, E).
  assert (Hp : 0 < norm x * norm y) by (apply Rmult_lt_0_compat; lra).
  apply Rmult_le_reg_r with (r := norm x * norm y); [exact Hp|].
  unfold Rdiv. rewrite Rmult_assoc, Rinv_l by lra. rewrite Rmult_1_r, Rmult_0_l.
  apply dot_nonneg; assumption.
Qed.

End CosineFacts.

(** ** Python lists: enumeration, slices, the stable descending sort *)

Section ListFacts.
Context {A : Type}.



Lemma enumerate_length (l : list A) : length (Py.enumerate l) = length l.
Proof.
  unfold Py.enumerate. rewrite length_combine, length_seq. apply Nat.min_id.
Qed.



Lemma enumerate_from_In (s : nat) (l : list A) (i : nat) (a : A) :
  In (i, a) (combine (seq s (length l)) l) <->
  (s <= i /\ nth_error l (i - s) = Some a).
Proof.
  revert s. induction l as [|b l IH]; intros s; simpl.
  - split; [tauto|]. intros [_ H]. destruct (i - s); discriminate.
  - rewrite IH. split.
    + intros [E | [Hle Hn]].
      * inversion E; subst. rewrite Nat.sub_diag. split; [lia | reflexivity].
      * split; [lia|]. replace (i - s) with (S (i - S s)) by lia. exact Hn.
    + intros [Hle Hn]. destruct (Nat.eq_dec s i) as [->|Hne].
      * left. rewrite Nat.sub_diag in Hn. simpl in Hn. now inversion Hn.
      * right. split; [lia|].
        replace (i - s) with (S (i - S s)) in Hn by lia. exact Hn.
Qed.

Lemma enumerate_In (l : list A) (i : nat) (a : A) :
  In (i, a) (Py.enumerate l) <-> nth_error l i = Some a.
Proof.
  unfold Py.enumerate. rewrite enumerate_from_In, Nat.sub_0_r.
  split; [tauto | intros H; split; [lia | exact H]].
Qed.

Lemma enumerate_from_sorted (s : nat) (l : list A) :
  StronglySorted (fun p q : nat * A => fst p < fst q)
                 (combine (seq s (length l)) l).
Proof.
  revert s. induction l as [|a l IH]; intros s; simpl; constructor.
  - apply IH.
  - apply Forall_forall. intros [i b] Hin.
    apply enumerate_from_In in Hin. simpl. lia.
Qed.

Lemma In_firstn (n : nat) (l : list A) (a : A) :
  In a (firstn n l) -> In a l.
Proof.
  revert l. induction n as [|n IH]; intros [|b l]; simpl; try tauto.
  intros [E|H]; [left; exact E | right; now apply IH].
Qed.

Lemma In_skipn (n : nat) (l : list A) (a : A) :
  In a (skipn n l) -> In a l.
Proof.
  revert l. induction n as [|n IH]; intros [|b l]; simpl; try tauto.
  intros H. right. now apply IH.
Qed.

Lemma slice_incl (start stop : Z) (l : list A) (a : A) :
  In a (Py.slice start stop l) -> In a l.
Proof.
  unfold Py.slice. intros H.
  apply In_firstn in H. eapply In_skipn, H.
Qed.

Lemma slice_tail_length (top_n : Z) (l : list A) :
  (0 <= top_n)%Z ->
  length (Py.slice 1 (top_n + 1) l) = Nat.min (Z.to_nat top_n) (length l - 1).
Proof.
  intros Hn. unfold Py.slice, Py.slice_index.
  rewrite length_firstn, length_skipn.
  destruct (Z.ltb_spec 1 0); [lia|].
  destruct (Z.ltb_spec (top_n + 1) 0); lia.
Qed.

Lemma slice_tail (top_n : Z) (l : list A) :
  (0 <= top_n)%Z ->
  Py.slice 1 (top_n + 1) l = firstn (Z.to_nat top_n) (tl l).
Proof.
  intros Hn. unfold Py.slice, Py.slice_index.
  destruct (Z.ltb_spec 1 0); [lia|].
  destruct (Z.ltb_spec (top_n + 1) 0); [lia|].
  destruct l as [|a l].
  - simpl. now rewrite !firstn_nil.
  - replace (Z.to_nat (Z.min 1 (Z.of_nat (length (a :: l))))) with 1%nat
      by (simpl length; lia).
    simpl skipn. simpl tl.
    destruct (Z.le_gt_cases (top_n + 1) (Z.of_nat (length (a :: l)))) as [Hle|Hgt].
    + f_equal. simpl length in *. lia.
    + rewrite !firstn_all2; [reflexivity | simpl length in *; lia
                             | simpl length in *; lia].
Qed.

Lemma StronglySorted_skipn (R : A -> A -> Prop) (n : nat) (l : list A) :
  StronglySorted R l -> StronglySorted R (skipn n l).
Proof.
  revert l. induction n as [|n IH]; intros l H; [exact H|].
  destruct l as [|a l]; [exact H|]. simpl. apply IH.
  now inversion H.
Qed.

Lemma StronglySorted_firstn (R : A -> A -> Prop) (n : nat) (l : list A) :
  StronglySorted R l -> StronglySorted R (firstn n l).
Proof.
  revert l. induction n as [|n IH]; intros l H; [constructor|].
  destruct l as [|a l]; [constructor|]. simpl.
  inversion H as [|? ? Hs Hf]; subst. constructor; [now apply IH|].
  apply Forall_forall. intros b Hb. apply In_firstn in Hb.
  rewrite Forall_forall in Hf. now apply Hf.
Qed.

Lemma StronglySorted_slice (R : A -> A -> Prop) (start stop : Z) (l : list A) :
  StronglySorted R l -> StronglySorted R (Py.slice start stop l).
Proof.
  intros H. unfold Py.slice.
  now apply StronglySorted_firstn, StronglySorted_skipn.
Qed.

Section SortFacts.
Context {K : Type} (key : A -> K) (leb : K -> K -> bool).

Lemma insert_desc_perm (x : A) (l : list A) :
  Permutation (Py.insert_desc key leb x l) (x :: l).
Proof.
  induction l as [|y l IH]; simpl; [reflexivity|].
  destruct (leb (key y) (key x)); [reflexivity|].
  rewrite IH. apply perm_swap.
Qed.

Lemma sorted_reverse_perm (l : list A) :
  Permutation (Py.sorted_reverse key leb l) l.
Proof.
  induction l as [|x l IH]; simpl; [reflexivity|].
  rewrite insert_desc_perm. now constructor.
Qed.

Lemma sorted_reverse_length (l : list A) :
  length (Py.sorted_reverse key leb l) = length l.
Proof. apply Permutation_length, sorted_reverse_perm. Qed.
End SortFacts.

End ListFacts.

(** ** The ranking of [recommend] *)

Section RankingFacts.
Import Sklearn Utils.
Local Open Scope R_scope.

Lemma Rleb_true (a b : R) : Rleb a b = true <-> a <= b.
Proof. unfold Rleb. destruct (Rle_dec a b); split; auto; discriminate. Qed.

Lemma Rleb_false (a b : R) : Rleb a b = false <-> b < a.
Proof.
  unfold Rleb. destruct (Rle_dec a b); split; intros; try discriminate; lra.
Qed.

Lemma insert_desc_ranked (x : nat * R) (l : list (nat * R)) :
  StronglySorted ranks_before l ->
  Forall (fun q => (fst x < fst q)%nat) l ->
  StronglySorted ranks_before (Py.insert_desc snd Rleb x l).
Proof.
  induction l as [|y l IH]; intros Hs Hf; simpl.
  - repeat constructor.
  - inversion Hs as [|? ? Hs' Hy]; subst.
    inversion Hf as [|? ? Hxy Hf']; subst.
    destruct (Rleb (snd y) (snd x)) eqn:E.
    + apply Rleb_true in E. constructor; [exact Hs|].
      constructor.
      * unfold ranks_before. destruct E as [E|E]; [left; exact E | right; auto].
      * rewrite Forall_forall in *. intros z Hz.
        specialize (Hy z Hz). specialize (Hf' z Hz).
        unfold ranks_before in *.
        destruct Hy as [Hy|[Hy _]]; [left; lra|].
        destruct E as [E|E]; [left; lra | right; split; [congruence | exact Hf']].
    + apply Rleb_false in E. constructor; [now apply IH|].
      apply Forall_forall. intros z Hz.
      apply (Permutation_in _ (insert_desc_perm snd Rleb x l)) in Hz.
      destruct Hz as [<-|Hz]; [left; exact E|].
      rewrite Forall_forall in Hy. now apply Hy.
Qed.

Lemma sorted_reverse_ranked (l : list (nat * R)) :
  StronglySorted (fun p q : nat * R => (fst p < fst q)%nat) l ->
  StronglySorted ranks_before (Py.sorted_reverse snd Rleb l).
Proof.
  induction l as [|x l IH]; intros Hs; simpl; [constructor|].
  inversion Hs as [|? ? Hs' Hx]; subst.
  apply insert_desc_ranked; [now apply IH|].
  apply Forall_forall. intros q Hq.
  apply (Permutation_in _ (sorted_reverse_perm snd Rleb l)) in Hq.
  rewrite Forall_forall in Hx. now apply Hx.
Qed.

Lemma distances_ranked (scores : list R) (top_n : Z) :
  StronglySorted ranks_before (distances scores top_n).
Proof.
  unfold distances. apply StronglySorted_slice, sorted_reverse_ranked.
  apply enumerate_from_sorted.
Qed.

Lemma distances_In (scores : list R) (top_n : Z) (i : nat) (s : R) :
  In (i, s) (distances scores top_n) -> nth_error scores i = Some s.
Proof.
  unfold distances. intros H. apply slice_incl in H.
  apply (Permutation_in _ (sorted_reverse_perm snd Rleb _)) in H.
  now apply enumerate_In.
Qed.

Lemma distances_length (scores : list R) (top_n : Z) :
  (0 <= top_n)%Z ->
  length (distances scores top_n)
  = Nat.min (Z.to_nat top_n) (length scores - 1).
Proof.
  intros H. unfold distances.
  now rewrite slice_tail_length, sorted_reverse_length, enumerate_length.
Qed.

End RankingFacts.

(** ** The order of binary64 numbers *)

Section Binary64Order.

Lemma compare_cont_Eq (a b : positive) :
  PosDef.Pos.compare_cont Eq a b = Pos.compare a b.
Proof. reflexivity. Qed.

Ltac cmp_cases :=
  repeat match goal with
  | |- context [PosDef.Pos.compare_cont Eq ?a ?b] =>
      change (PosDef.Pos.compare_cont Eq a b) with (Pos.compare a b)
  | H : context [PosDef.Pos.compare_cont Eq ?a ?b] |- _ =>
      change (PosDef.Pos.compare_cont Eq a b) with (Pos.compare a b) in H
  end;
  repeat match goal with
  | H : context [Z.compare ?a ?b] |- _ =>
      destruct (Z.compare_spec a b); try subst
  | |- context [Z.compare ?a ?b] =>
      destruct (Z.compare_spec a b); try subst
  | H : context [Pos.compare ?a ?b] |- _ =>
      destruct (Pos.compare_spec a b); try subst
  | |- context [Pos.compare ?a ?b] =>
      destruct (Pos.compare_spec a b); try subst
  end;
  cbn [CompOpp] in *; try congruence; try lia.

(** Only a NaN is unordered. *)
Lemma SFcompare_None (x y : spec_float) :
  SFcompare x y = None <->
  Binary64.is_nan x = true \/ Binary64.is_nan y = true.
Proof.
  destruct x as [| [] | | [] ? ?], y as [| [] | | [] ? ?]; simpl;
    split; intros H; try discriminate; auto;
      destruct H; discriminate.
Qed.

Lemma SFcompare_antisym (x y : spec_float) (c : comparison) :
  SFcompare x y = Some c -> SFcompare y x = Some (CompOpp c).
Proof.
  destruct x as [[]| [] | | [] ? ?], y as [[]| [] | | [] ? ?]; simpl;
    intros H; inversion H; clear H; subst; try reflexivity; f_equal;
    cmp_cases.
Qed.

Lemma SFcompare_Lt_trans (x y z : spec_float) :
  SFcompare x y = Some Lt -> SFcompare y z = Some Lt -> SFcompare x z = Some Lt.
Proof.
  destruct x as [[]| [] | | [] ? ?], y as [[]| [] | | [] ? ?],
           z as [[]| [] | | [] ? ?]; simpl;
    intros H1 H2; try discriminate; try reflexivity;
    inversion H1; inversion H2; clear H1 H2; f_equal; cmp_cases.
Qed.

Lemma SFcompare_Eq_l (x y z : spec_float) (c : comparison) :
  SFcompare x y = Some Eq -> SFcompare y z = Some c -> SFcompare x z = Some c.
Proof.
  destruct x as [[]| [] | | [] ? ?], y as [[]| [] | | [] ? ?],
           z as [[]| [] | | [] ? ?]; simpl;
    intros H1 H2; try discriminate; try exact H2;
    injection H1 as H1; injection H2 as H2; subst c; f_equal; cmp_cases.
Qed.

Lemma SFleb_false_ltb (x y : spec_float) :
  Binary64.is_nan x = false -> Binary64.is_nan y = false ->
  SFleb x y = false -> SFltb y x = true.
Proof.
  intros Hx Hy. unfold SFleb, SFltb.
  destruct (SFcompare x y) as [c|] eqn:E.
  - rewrite (@SFcompare_antisym _ _ _ E). now destruct c.
  - apply SFcompare_None in E. destruct E; congruence.
Qed.

Lemma SFleb_ltb_or_eqb (x y : spec_float) :
  SFleb x y = true -> SFltb x y = true \/ SFeqb y x = true.
Proof.
  unfold SFleb, SFltb, SFeqb.
  destruct (SFcompare x y) as [c|] eqn:E; [|discriminate].
  rewrite (@SFcompare_antisym _ _ _ E). destruct c; auto; discriminate.
Qed.

Lemma SFltb_leb (x y : spec_float) : SFltb x y = true -> SFleb x y = true.
Proof. unfold SFleb, SFltb. now destruct (SFcompare x y) as [[]|]. Qed.

Lemma SFeqb_leb (x y : spec_float) : SFeqb x y = true -> SFleb y x = true.
Proof.
  unfold SFleb, SFeqb.
  destruct (SFcompare x y) as [[]|] eqn:E; try discriminate.
  now rewrite (@SFcompare_antisym _ _ _ E).
Qed.

Lemma SFltb_not_eqb (x y : spec_float) :
  SFltb x y = true -> SFeqb y x = true -> False.
Proof.
  unfold SFltb, SFeqb.
  destruct (SFcompare x y) as [[]|] eqn:E; try discriminate.
  rewrite (@SFcompare_antisym _ _ _ E). discriminate.
Qed.

Lemma SFltb_leb_trans (x y z : spec_float) :
  SFltb x y = true -> SFleb y z = true -> SFltb x z = true.
Proof.
  unfold SFleb, SFltb.
  destruct (SFcompare x y) as [[]|] eqn:E1; try discriminate.
  destruct (SFcompare y z) as [[]|] eqn:E2; try discriminate; intros _ _.
  - apply SFcompare_antisym in E2. simpl in E2.
    apply SFcompare_antisym in E1. simpl in E1.
    pose proof (@SFcompare_Eq_l _ _ _ _ E2 E1) as H.
    apply SFcompare_antisym in H. simpl in H. now rewrite H.
  - now rewrite (@SFcompare_Lt_trans _ _ _ E1 E2).
Qed.

Lemma SFeqb_ltb_l (x y z : spec_float) :
  SFeqb x y = true -> SFltb x z = true -> SFltb y z = true.
Proof.
  unfold SFeqb, SFltb.
  destruct (SFcompare x y) as [[]|] eqn:E1; try discriminate.
  destruct (SFcompare x z) as [[]|] eqn:E2; try discriminate; intros _ _.
  apply SFcompare_antisym in E1. simpl in E1.
  now rewrite (@SFcompare_Eq_l _ _ _ _ E1 E2).
Qed.

Lemma SFeqb_trans (x y z : spec_float) :
  SFeqb x y = true -> SFeqb y z = true -> SFeqb x z = true.
Proof.
  unfold SFeqb.
  destruct (SFcompare x y) as [[]|] eqn:E1; try discriminate.
  destruct (SFcompare y z) as [[]|] eqn:E2; try discriminate; intros _ _.
  now rewrite (@SFcompare_Eq_l _ _ _ _ E1 E2).
Qed.

Lemma SFeqb_sym (x y : spec_float) : SFeqb x y = true -> SFeqb y x = true.
Proof.
  unfold SFeqb. destruct (SFcompare x y) as [[]|] eqn:E; try discriminate.
  now rewrite (@SFcompare_antisym _ _ _ E).
Qed.

End Binary64Order.

(** ** The ranking on binary64 scores *)

Section Binary64Ranking.

Local Abbreviation number := (fun p : nat * Binary64.float =>
                                Binary64.is_nan (snd p) = false).

Lemma insert_desc_ranked64 (x : nat * Binary64.float)
    (l : list (nat * Binary64.float)) :
  number x -> Forall number l ->
  StronglySorted Binary64.ranks_before l ->
  Forall (fun q => (fst x < fst q)%nat) l ->
  StronglySorted Binary64.ranks_before (Py.insert_desc snd SFleb x l).
Proof.
  intros Hx. induction l as [|y l IH]; intros Hn Hs Hf; simpl.
  - repeat constructor.
  - inversion Hs as [|? ? Hs' Hy]; subst.
    inversion Hf as [|? ? Hxy Hf']; subst.
    inversion Hn as [|? ? Hny Hn']; subst.
    destruct (SFleb (snd y) (snd x)) eqn:E.
    + constructor; [exact Hs|]. constructor.
      * unfold Binary64.ranks_before.
        destruct (SFleb_ltb_or_eqb _ _ E) as [H|H]; [now left | right; auto].
      * rewrite Forall_forall in *. intros z Hz.
        specialize (Hy z Hz). specialize (Hf' z Hz).
        unfold Binary64.ranks_before in *.
        destruct Hy as [Hy|[Hy _]].
        -- left. eapply SFltb_leb_trans; eassumption.
        -- destruct (SFleb_ltb_or_eqb _ _ E) as [H|H].
           ++ left. eapply SFeqb_ltb_l; [exact Hy | exact H].
           ++ right. split; [|exact Hf'].
              eapply SFeqb_trans; eassumption.
    + constructor; [now apply IH|].
      apply Forall_forall. intros z Hz.
      apply (Permutation_in _ (insert_desc_perm snd SFleb x l)) in Hz.
      destruct Hz as [<-|Hz].
      * left. now apply SFleb_false_ltb.
      * rewrite Forall_forall in Hy. now apply Hy.
Qed.

Lemma sorted_reverse_ranked64 (l : list (nat * Binary64.float)) :
  Forall number l ->
  StronglySorted (fun p q : nat * Binary64.float => (fst p < fst q)%nat) l ->
  StronglySorted Binary64.ranks_before (Py.sorted_reverse snd SFleb l).
Proof.
  induction l as [|x l IH]; intros Hn Hs; simpl; [constructor|].
  inversion Hs as [|? ? Hs' Hx]; subst.
  inversion Hn as [|? ? Hnx Hn']; subst.
  apply insert_desc_ranked64; [exact Hnx| |now apply IH|].
  - apply Forall_forall. intros q Hq.
    apply (Permutation_in _ (sorted_reverse_perm snd SFleb l)) in Hq.
    rewrite Forall_forall in Hn'. now apply Hn'.
  - apply Forall_forall. intros q Hq.
    apply (Permutation_in _ (sorted_reverse_perm snd SFleb l)) in Hq.
    rewrite Forall_forall in Hx. now apply Hx.
Qed.

Lemma ranking_ranked64 (scores : list Binary64.float) :
  Forall (fun s => Binary64.is_nan s = false) scores ->
  StronglySorted Binary64.ranks_before (Binary64.ranking scores).
Proof.
  intros Hn. unfold Binary64.ranking. apply sorted_reverse_ranked64.
  - apply Forall_forall. intros [k s] Hk. simpl.
    apply enumerate_In in Hk. rewrite Forall_forall in Hn.
    eapply Hn, nth_error_In, Hk.
  - apply enumerate_from_sorted.
Qed.

End Binary64Ranking.

(** ** Row selection by a mask *)

Section MaskFacts.

Lemma index_where_from (mask : movie_row -> bool) (s : nat) (df : DataFrame) :
  map fst (filter (fun p => mask (snd p)) (combine (seq s (length df)) df))
  = map (fun k => s + k)
        (map fst (filter (fun p => mask (snd p)) (combine (seq 0 (length df)) df))).
Proof.
  revert s. induction df as [|r df IH]; intros s; simpl; [reflexivity|].
  destruct (mask r); simpl; rewrite (IH (S s)), (IH 1).
  - f_equal; [lia|]. rewrite !map_map. apply map_ext. intros k. lia.
  - rewrite !map_map. apply map_ext. intros k. lia.
Qed.

Lemma index_where_cons (mask : movie_row -> bool) (r : movie_row) (df : DataFrame) :
  Pandas.index_where mask (r :: df)
  = if mask r then 0 :: map S (Pandas.index_where mask df)
    else map S (Pandas.index_where mask df).
Proof.
  unfold Pandas.index_where, Py.enumerate. simpl.
  destruct (mask r); simpl; rewrite (index_where_from mask 1 df); reflexivity.
Qed.

(** No row passes the mask: [.index[0]] raises [IndexError]. *)
Lemma first_index_none (mask : movie_row -> bool) (df : DataFrame) :
  Forall (fun r => mask r = false) df <->
  Py.getitem (Pandas.index_where mask df) 0 = Raise IndexError.
Proof.
  induction df as [|r df IH].
  - split; [reflexivity | constructor].
  - rewrite index_where_cons. split.
    + intros H. inversion H as [|? ? Hr Hdf]; subst. rewrite Hr.
      apply IH in Hdf. unfold Py.getitem in *.
      destruct (Pandas.index_where mask df); [reflexivity | discriminate].
    + destruct (mask r) eqn:E; [discriminate|].
      intros H. constructor; [exact E|]. apply IH.
      unfold Py.getitem in *.
      destruct (Pandas.index_where mask df); [reflexivity | discriminate].
Qed.

Lemma getitem_map_S (l : list nat) (i : nat) :
  Py.getitem (map S l) 0 = Ok i <->
  exists k, i = S k /\ Py.getitem l 0 = Ok k.
Proof.
  unfold Py.getitem. destruct l as [|k l]; simpl.
  - split; [discriminate | intros [k [_ H]]; discriminate].
  - split.
    + intros H. inversion H. now exists k.
    + intros [k' [-> H]]. now inversion H.
Qed.

(** Some row passes: [.index[0]] is the first such row. *)
Lemma first_index_some (mask : movie_row -> bool) (df : DataFrame) (i : nat) :
  Py.getitem (Pandas.index_where mask df) 0 = Ok i <->
  (exists r, nth_error df i = Some r /\ mask r = true) /\
  (forall j r, j < i -> nth_error df j = Some r -> mask r = false).
Proof.
  revert i. induction df as [|r df IH]; intros i.
  - split; [discriminate|]. intros [[r [H _]] _]. destruct i; discriminate.
  - rewrite index_where_cons. destruct (mask r) eqn:E.
    + split.
      * intros H. inversion H; subst. split; [exists r; auto|]. lia.
      * intros [_ Hmin]. destruct i as [|i]; [reflexivity|].
        specialize (Hmin 0 r ltac:(lia) eq_refl). congruence.
    + split.
      * intros H. apply getitem_map_S in H. destruct H as [k [-> Hk]].
        apply IH in Hk. destruct Hk as [Hex Hmin]. split; [exact Hex|].
        intros [|j] r' Hj Hn; simpl in Hn; [congruence|].
        apply (Hmin j); [lia | exact Hn].
      * intros [[r' [Hn Hm]] Hmin]. destruct i as [|i]; simpl in Hn; [congruence|].
        apply getitem_map_S. exists i. split; [reflexivity|].
        apply IH. split; [exists r'; auto|].
        intros j r'' Hj Hnj. apply (Hmin (S j)); [lia | exact Hnj].
Qed.

Lemma first_index_total (mask : movie_row -> bool) (df : DataFrame) :
  Py.getitem (Pandas.index_where mask df) 0 = Raise IndexError \/
  exists i, Py.getitem (Pandas.index_where mask df) 0 = Ok i.
Proof.
  unfold Py.getitem. destruct (Pandas.index_where mask df); simpl; eauto.
Qed.

End MaskFacts.

(** ** [recommend] *)

Section RecommendFacts.
Import Sklearn Utils.
Variable requests_get : request -> response.

Local Abbreviation fetch_p := (fetch_poster requests_get).
Local Abbreviation fetch_d := (fetch_movie_details requests_get).

Lemma rows_of_exists (df : DataFrame) (ds : list (nat * R)) :
  Forall (fun p => fst p < length df) ds -> exists rows, rows_of df ds rows.
Proof.
  induction 1 as [|p ds Hp _ [rows IH]].
  - exists []. constructor.
  - destruct (nth_error df (fst p)) as [r|] eqn:E.
    + exists (r :: rows). constructor; assumption.
    + apply nth_error_None in E. lia.
Qed.

Lemma movie_ids_ok (df : DataFrame) (ds : list (nat * R)) (rows : list movie_row) :
  rows_of df ds rows ->
  mapM (fun p => bind (Pandas.iloc df (fst p)) (fun row => Ok (movie_id row))) ds
  = Ok (map movie_id rows).
Proof.
  induction 1 as [|p r ds rows Hp _ IH]; simpl; [reflexivity|].
  unfold Pandas.iloc, Py.getitem at 1. rewrite Hp. simpl.
  unfold Pandas.iloc in IH. now rewrite IH.
Qed.

Lemma movie_ids_raise (df : DataFrame) (ds : list (nat * R)) (e : exn) :
  mapM (fun p => bind (Pandas.iloc df (fst p)) (fun row => Ok (movie_id row))) ds
  = Raise e -> e = IndexError.
Proof.
  induction ds as [|p ds IH]; simpl; [discriminate|].
  unfold Pandas.iloc, Py.getitem at 1.
  destruct (nth_error df (fst p)); simpl.
  - destruct (mapM _ ds); [discriminate|].
    intros H. inversion H; subst. now apply IH.
  - intros H. now inversion H.
Qed.

Lemma recommend_loop_ok (df : DataFrame) (ds : list (nat * R))
      (rows : list movie_row) :
  rows_of df ds rows ->
  forall (pre : list Z) (a1 a2 : list string) (a3 : list json) (a4 : list Z),
    let ids := pre ++ map movie_id rows in
    recommend_loop df (map fetch_p ids) (map fetch_d ids) ids
      (combine (seq (length pre) (length ds)) ds) (a1, a2, a3, a4)
    = Ok (a1 ++ map title rows,
          a2 ++ map fetch_p (map movie_id rows),
          a3 ++ map (fun id => rating (fetch_d id)) (map movie_id rows),
          a4 ++ map movie_id rows).
Proof.
  induction 1 as [|[idx score] r ds rows Hp _ IH]; intros pre a1 a2 a3 a4 ids.
  - simpl. now rewrite !app_nil_r.
  - subst ids. cbn [map length seq combine recommend_loop].
    simpl in Hp. unfold Pandas.iloc, Py.getitem. rewrite Hp. cbn [bind].
    rewrite !nth_error_map, nth_error_app2 by lia.
    rewrite Nat.sub_diag. cbn [nth_error option_map bind].
    specialize (IH (pre ++ [movie_id r])
                   (a1 ++ [title r]) (a2 ++ [fetch_p (movie_id r)])
                   (a3 ++ [rating (fetch_d (movie_id r))])
                   (a4 ++ [movie_id r])).
    cbn zeta in IH. rewrite length_app in IH. simpl length in IH.
    rewrite Nat.add_1_r in IH. rewrite <- !app_assoc in IH. simpl app in IH.
    unfold Pandas.iloc, Py.getitem in IH. exact IH.
Qed.

(** The loop adds one element to each of the four lists per round, and
    only an index out of range stops it. *)
Lemma recommend_loop_lengths (df : DataFrame) (ps : list string)
      (dl : list details) (ids : list Z) (todo : list (nat * (nat * R))) :
  forall a1 a2 a3 a4 r1 r2 r3 r4,
    recommend_loop df ps dl ids todo (a1, a2, a3, a4) = Ok (r1, r2, r3, r4) ->
    length a1 = length a2 -> length a2 = length a3 -> length a3 = length a4 ->
    length r1 = length r2 /\ length r2 = length r3 /\ length r3 = length r4.
Proof.
  induction todo as [|[i [idx score]] todo IH]; intros a1 a2 a3 a4 r1 r2 r3 r4 H.
  - simpl in H. inversion H; subst. auto.
  - simpl in H.
    destruct (Pandas.iloc df idx); simpl in H; [|discriminate].
    destruct (Py.getitem ps i); simpl in H; [|discriminate].
    destruct (Py.getitem dl i); simpl in H; [|discriminate].
    destruct (Py.getitem ids i); simpl in H; [|discriminate].
    intros E1 E2 E3. eapply IH; [exact H| | |]; rewrite !length_app; simpl; lia.
Qed.

Lemma recommend_loop_raise (df : DataFrame) (ps : list string)
      (dl : list details) (ids : list Z) (todo : list (nat * (nat * R))) :
  forall acc e,
    recommend_loop df ps dl ids todo acc = Raise e -> e = IndexError.
Proof.
  induction todo as [|[i [idx score]] todo IH]; intros [[[a1 a2] a3] a4] e H.
  - discriminate.
  - simpl in H. unfold Pandas.iloc, Py.getitem in H.
    destruct (nth_error df idx); simpl in H; [|now inversion H].
    destruct (nth_error ps i); simpl in H; [|now inversion H].
    destruct (nth_error dl i); simpl in H; [|now inversion H].
    destruct (nth_error ids i); simpl in H; [|now inversion H].
    eapply IH, H.
Qed.

Lemma cosine_similarity_length (v : vector) (m : matrix) :
  length (cosine_similarity v m) = length m.
Proof. apply length_map. Qed.

(** What [recommend] returns once the title is found: the rows of the
    ranking, with the poster and the rating fetched for each. *)
Lemma recommend_try_found (movie : string) (df : DataFrame) (m : matrix)
      (top_n : Z) (i : nat) (v : vector) :
  Py.getitem (Pandas.index_where (Pandas.title_eq movie) df) 0 = Ok i ->
  nth_error m i = Some v ->
  length m = length df ->
  exists rows,
    rows_of df (distances (cosine_similarity v m) top_n) rows /\
    recommend_try requests_get movie df m top_n
    = Ok (map title rows,
          map fetch_p (map movie_id rows),
          map (fun id => rating (fetch_d id)) (map movie_id rows),
          map movie_id rows).
Proof.
  intros Hi Hv Hlen.
  assert (Hex : exists rows,
             rows_of df (distances (cosine_similarity v m) top_n) rows).
  { apply rows_of_exists, Forall_forall. intros [k s] Hk. simpl.
    apply distances_In in Hk.
    assert (k < length (cosine_similarity v m))
      by (apply nth_error_Some; congruence).
    rewrite cosine_similarity_length in *. lia. }
  destruct Hex as [rows Hrows].
  exists rows. split; [exact Hrows|].
  unfold recommend_try. rewrite Hi. cbn [bind].
  unfold compute_similarity_for_movie, Py.getitem at 1. rewrite Hv. cbn [bind].
  rewrite (movie_ids_ok Hrows). cbn [bind].
  unfold fetch_multiple_details, fetch_multiple_posters, Py.enumerate.
  pose proof (recommend_loop_ok Hrows [] [] [] [] []) as L.
  cbn zeta in L. simpl app in L. simpl length in L. exact L.
Qed.

Lemma recommend_try_raise (movie : string) (df : DataFrame) (m : matrix)
      (top_n : Z) (e : exn) :
  recommend_try requests_get movie df m top_n = Raise e -> e = IndexError.
Proof.
  unfold recommend_try, compute_similarity_for_movie.
  destruct (Py.getitem (Pandas.index_where _ df) 0) as [i|e0] eqn:Ei; cbn [bind].
  - unfold Py.getitem at 1.
    destruct (nth_error m i) as [v|]; cbn [bind]; [|intros H; now inversion H].
    destruct (mapM _ _) as [ids|e1] eqn:Em; cbn [bind].
    + apply recommend_loop_raise.
    + intros H. inversion H; subst. eapply movie_ids_raise, Em.
  - intros H. inversion H; subst.
    unfold Py.getitem in Ei. destruct (Pandas.index_where _ df); [|discriminate].
    simpl in Ei. now inversion Ei.
Qed.

Lemma recommend_try_lengths (movie : string) (df : DataFrame) (m : matrix)
      (top_n : Z) r1 r2 r3 r4 :
  recommend_try requests_get movie df m top_n = Ok (r1, r2, r3, r4) ->
  length r1 = length r2 /\ length r2 = length r3 /\ length r3 = length r4.
Proof.
  unfold recommend_try.
  destruct (Py.getitem (Pandas.index_where _ df) 0); cbn [bind]; [|discriminate].
  destruct (compute_similarity_for_movie _ m); cbn [bind]; [|discriminate].
  destruct (mapM _ _); cbn [bind]; [|discriminate].
  intros H. eapply recommend_loop_lengths; [exact H| | |]; reflexivity.
Qed.

End RecommendFacts.

(** ** Evaluation on concrete catalogues *)

Section Evaluation.
Import Sklearn Utils.
Local Open Scope R_scope.

Lemma cos_sim_orthogonal (x y : vector) : dot x y = 0 -> cos_sim x y = 0.
Proof.
  intros H.
  destruct (Req_dec_T (dot x x) 0) as [Zx|Nx];
    [now apply cos_sim_zero_l|].
  destruct (Req_dec_T (dot y y) 0) as [Zy|Ny];
    [now apply cos_sim_zero_r|].
  rewrite cos_sim_quotient by assumption. rewrite H.
  unfold Rdiv. apply Rmult_0_l.
Qed.

End Evaluation.

Ltac Rleb_eval :=
  repeat match goal with
    | |- context [Utils.Rleb ?a ?b] =>
        first [ rewrite (proj2 (Rleb_true a b)) by lra
              | rewrite (proj2 (Rleb_false a b)) by lra ]
    end.

(** Computes a ranking whose scores are numerals. *)
Ltac distances_eval :=
  unfold Utils.distances, Py.enumerate, Py.sorted_reverse;
  cbn [length seq combine fold_right];
  repeat (cbn [Py.insert_desc snd]; Rleb_eval);
  rewrite slice_tail by lia; reflexivity.

(** Computes the scores of a row against a matrix of numerals. *)
Ltac cos_sim_eval :=
  unfold Sklearn.cosine_similarity; cbn [map];
  repeat match goal with
    | |- context [Sklearn.cos_sim ?x ?y] =>
        first [ rewrite (@cos_sim_self x) by (simpl; lra)
              | rewrite (@cos_sim_orthogonal x y) by (simpl; lra)
              | rewrite (@cos_sim_zero_l x y) by (simpl; lra) ]
    end.

Section SampleRankings.
Import Sklearn Utils Samples.
Local Open Scope R_scope.

Lemma twins_scores :
  cosine_similarity [1; 0] twins_matrix = [1; 1; 0].
Proof. unfold twins_matrix. cos_sim_eval. reflexivity. Qed.

Lemma twins_distances : distances [1; 1; 0] 12 = [(1%nat, 1); (2%nat, 0)].
Proof. distances_eval. Qed.

Lemma pair_scores : cosine_similarity [1] pair_matrix = [1; 1].
Proof. unfold pair_matrix. cos_sim_eval. reflexivity. Qed.

Lemma pair_distances : distances [1; 1] 12 = [(1%nat, 1)].
Proof. distances_eval. Qed.

Lemma inception_scores :
  cosine_similarity [1; 0] inception_matrix = [1; 0].
Proof. unfold inception_matrix. cos_sim_eval. reflexivity. Qed.

Lemma inception_distances : distances [1; 0] 12 = [(1%nat, 0)].
Proof. distances_eval. Qed.

End SampleRankings.

(** Decomposes [rows_of] over a ranking that is an explicit list. *)
Ltac rows_of_inv H :=
  repeat match type of H with
    | Utils.rows_of _ _ _ => unfold Utils.rows_of in H
    | Forall2 _ (_ :: _) _ =>
        let r := fresh "r" in let rs := fresh "rs" in
        let Hr := fresh "Hr" in let Hrs := fresh "Hrs" in
        inversion H as [|? r ? rs Hr Hrs]; subst; clear H; rename Hrs into H;
        cbn in Hr; inversion Hr; subst; clear Hr
    | Forall2 _ [] _ => inversion H; subst; clear H
    end.

Section SampleRecommendations.
Import Sklearn Utils Samples.
Local Open Scope R_scope.

(** C1 (failing input): in a catalogue where "Alpha" and "Beta" carry the
    same tag text, the recommendations for "Beta" start with "Beta" itself;
    the row dropped from the head of the ranking is "Alpha". *)
Theorem recommend_lists_query_after_twin :
  recommend offline "Beta" twins_df twins_matrix 12
  = ((["Beta"; "Gamma"]%string,
      [placeholder_poster; placeholder_poster],
      [JInt 0; JInt 0],
      [12; 13]%Z), [])
  /\ recommended_rows "Beta" twins_df twins_matrix 12 = Ok [1; 2]%nat.
Proof.
  split.
  - unfold recommend.
    destruct (@recommend_try_found offline "Beta" twins_df twins_matrix 12
                1%nat [1; 0] eq_refl eq_refl eq_refl) as [rows [Hrows ->]].
    rewrite twins_scores, twins_distances in Hrows.
    rows_of_inv Hrows. reflexivity.
  - unfold recommended_rows.
    replace (Py.getitem (Pandas.index_where (Pandas.title_eq "Beta") twins_df) 0)
      with (@Ok nat 1%nat) by reflexivity.
    cbn [bind]. unfold compute_similarity_for_movie.
    replace (Py.getitem twins_matrix 1) with (@Ok vector [1; 0]) by reflexivity.
    cbn [bind]. now rewrite twins_scores, twins_distances.
Qed.

(** A catalogue of two entries with the same tag text, smaller than
    [top_n + 1]: asked for "Second", [recommend] returns "Second" itself
    and leaves out "First", the only other entry. *)
Lemma recommend_small_catalogue_returns_query :
  recommend offline "Second" pair_df pair_matrix 12
  = ((["Second"]%string, [placeholder_poster], [JInt 0], [22]%Z), []).
Proof.
  unfold recommend.
  destruct (@recommend_try_found offline "Second" pair_df pair_matrix 12
              1%nat [1] eq_refl eq_refl eq_refl) as [rows [Hrows ->]].
  rewrite pair_scores, pair_distances in Hrows.
  rows_of_inv Hrows. reflexivity.
Qed.

(** C2 (counterexample): the catalogue holds exactly one entry whose title
    is "inception" up to case, yet [recommend] finds nothing for
    "inception"; it does for "Inception". *)
Lemma recommend_is_case_sensitive :
  filter (Pandas.title_eq_lower "inception") inception_df
  = [MovieRow 27205 "Inception" "dream"]
  /\ recommend offline "inception" inception_df inception_matrix 12
     = (([], [], [], []),
        [st_error "Movie 'inception' not found in database"])
  /\ recommend offline "Inception" inception_df inception_matrix 12
     = ((["Interstellar"]%string, [placeholder_poster], [JInt 0], [157336]%Z), []).
Proof.
  split; [reflexivity|]. split; [reflexivity|].
  unfold recommend.
  destruct (@recommend_try_found offline "Inception" inception_df
              inception_matrix 12 0%nat [1; 0] eq_refl eq_refl eq_refl)
    as [rows [Hrows ->]].
  rewrite inception_scores, inception_distances in Hrows.
  rows_of_inv Hrows. reflexivity.
Qed.

End SampleRecommendations.

(** ** The claims about [recommend] and its ranking *)

Section RecommendClaims.
Import Sklearn Utils.
Local Open Scope R_scope.

Lemma StronglySorted_nth {A : Type} (Rel : A -> A -> Prop) (l : list A) :
  StronglySorted Rel l ->
  forall a b p q, (a < b)%nat ->
    nth_error l a = Some p -> nth_error l b = Some q -> Rel p q.
Proof.
  induction 1 as [|x l Hs IH Hx]; intros a b p q Hab Ha Hb.
  - destruct a; discriminate.
  - destruct b as [|b]; [lia|]. simpl in Hb.
    destruct a as [|a]; simpl in Ha.
    + inversion Ha; subst. rewrite Forall_forall in Hx.
      eapply Hx, nth_error_In, Hb.
    + eapply (IH a b); [lia | exact Ha | exact Hb].
Qed.

Lemma dot_self_zero_iff (v : vector) :
  dot v v = 0 <-> Forall (fun a => a = 0) v.
Proof.
  induction v as [|a v IH]; simpl.
  - split; [constructor | reflexivity].
  - pose proof (dot_self_nonneg v) as Hv.
    pose proof (Rle_0_sqr a) as Ha. unfold Rsqr in Ha. split.
    + intros H. assert (Ea : a * a = 0) by lra. assert (Ev : dot v v = 0) by lra.
      constructor; [apply Rsqr_0_uniq; exact Ea | now apply IH].
    + intros H. inversion H as [|? ? Ea Hv']; subst.
      apply IH in Hv'. rewrite Hv'. lra.
Qed.

Lemma dot_self_nonzero_iff (v : vector) :
  dot v v <> 0 <-> Exists (fun a => a <> 0) v.
Proof.
  rewrite dot_self_zero_iff. split.
  - intros H. induction v as [|a v IH].
    + exfalso. apply H. constructor.
    + destruct (Req_dec_T a 0) as [->|Na]; [|now left].
      right. apply IH. intros Hv. apply H. now constructor.
  - intros Hex Hall. rewrite Exists_exists in Hex. rewrite Forall_forall in Hall.
    destruct Hex as [a [Hin Hne]]. now apply Hne, Hall.
Qed.

(** C4 (amended): the ranking of the binary64 scores of a similarity query,
    none of them a NaN, is a rearrangement of the (row, score) pairs in
    descending order of score, pairs of equal score standing in ascending
    order of row; [recommend] keeps its positions 1 to [top_n].  The ranking
    is a function of the scores, so equal inputs give the same ordering.
    The bound on the scores holds of the exact cosines only: for a matrix
    without negative weight every kept exact score lies in [0, 1], while
    the rounded score of two equal rows can be the number after 1. *)
Theorem ranking_descending_stable
    (scores : list Binary64.float) (top_n : Z)
    (m : matrix) (movie_index : nat) (exact_scores : list R) :
  (Forall (fun s => Binary64.is_nan s = false) scores ->
   Permutation (Binary64.ranking scores) (Py.enumerate scores)
   /\ Binary64.distances scores top_n
      = Py.slice 1 (top_n + 1) (Binary64.ranking scores)
   /\ (forall a b p q, (a < b)%nat ->
         nth_error (Binary64.ranking scores) a = Some p ->
         nth_error (Binary64.ranking scores) b = Some q ->
         SFleb (snd q) (snd p) = true /\
         (SFeqb (snd p) (snd q) = true -> (fst p < fst q)%nat))
   /\ (forall a b p q, (a < b)%nat ->
         nth_error (Binary64.distances scores top_n) a = Some p ->
         nth_error (Binary64.distances scores top_n) b = Some q ->
         SFleb (snd q) (snd p) = true /\
         (SFeqb (snd p) (snd q) = true -> (fst p < fst q)%nat)))
  /\ (Forall nonneg m ->
      compute_similarity_for_movie movie_index m = Ok exact_scores ->
      Forall (fun p => 0 <= snd p <= 1) (distances exact_scores top_n)).
Proof.
  split.
  - intros Hn. split; [apply sorted_reverse_perm|]. split; [reflexivity|].
    assert (Hord : forall p q, Binary64.ranks_before p q ->
              SFleb (snd q) (snd p) = true /\
              (SFeqb (snd p) (snd q) = true -> (fst p < fst q)%nat)).
    { intros p q [H|[H Hi]].
      - split; [now apply SFltb_leb|].
        intros E. exfalso. exact (SFltb_not_eqb _ _ H E).
      - split; [now apply SFeqb_leb | intros _; exact Hi]. }
    split; intros a b p q Hab Ha Hb; apply Hord.
    + exact (StronglySorted_nth (ranking_ranked64 Hn) Hab Ha Hb).
    + refine (StronglySorted_nth _ Hab Ha Hb).
      apply StronglySorted_slice, ranking_ranked64, Hn.
  - intros Hm Hs.
    unfold compute_similarity_for_movie, Py.getitem in Hs.
    destruct (nth_error m movie_index) as [v|] eqn:Ev; [|discriminate].
    simpl in Hs. inversion Hs; subst exact_scores. clear Hs.
    apply Forall_forall. intros [k s] Hk. simpl.
    apply distances_In in Hk. unfold cosine_similarity in Hk.
    rewrite nth_error_map in Hk.
    destruct (nth_error m k) as [w|] eqn:Ew; [|discriminate].
    simpl in Hk. inversion Hk; subst s.
    rewrite Forall_forall in Hm. split.
    + apply cos_sim_ge_0; apply Hm; eapply nth_error_In; eassumption.
    + apply cos_sim_le_1.
Qed.

(** C7 (amended): the similarity of a catalogue row with itself is 1 when
    the row has a non-zero weight, and 0 when the row is all zero. *)
Theorem self_similarity_one_unless_zero_row
    (m : matrix) (movie_index : nat) (v : vector) :
  nth_error m movie_index = Some v ->
  exists scores,
    compute_similarity_for_movie movie_index m = Ok scores /\
    (Exists (fun a => a <> 0) v -> nth_error scores movie_index = Some 1) /\
    (Forall (fun a => a = 0) v -> nth_error scores movie_index = Some 0).
Proof.
  intros Hv. exists (cosine_similarity v m).
  unfold compute_similarity_for_movie, Py.getitem. rewrite Hv. simpl.
  split; [reflexivity|].
  unfold cosine_similarity. rewrite nth_error_map, Hv. simpl. split; intros H.
  - now rewrite cos_sim_self by (apply dot_self_nonzero_iff, H).
  - now rewrite cos_sim_zero_l by (apply dot_self_zero_iff, H).
Qed.

Variable requests_get : request -> response.

(** C10: [recommend] returns four lists of one length, whatever its
    arguments; when its body fails, and so when no title equals the
    argument, the four lists are empty. *)
Theorem recommend_four_lists_no_exception
    (movie : string) (df : DataFrame) (m : matrix) (top_n : Z) :
  (let '(titles, posters, ratings, ids) :=
     fst (recommend requests_get movie df m top_n) in
   length titles = length posters /\
   length posters = length ratings /\
   length ratings = length ids)
  /\ (forall e, recommend_try requests_get movie df m top_n = Raise e ->
        fst (recommend requests_get movie df m top_n) = ([], [], [], []))
  /\ (Forall (fun r => title r <> movie) df ->
        fst (recommend requests_get movie df m top_n) = ([], [], [], [])).
Proof.
  assert (Hraise : forall e,
             recommend_try requests_get movie df m top_n = Raise e ->
             fst (recommend requests_get movie df m top_n) = ([], [], [], [])).
  { intros e He. unfold recommend. rewrite He. now destruct e. }
  split; [|split].
  - unfold recommend.
    destruct (recommend_try requests_get movie df m top_n)
      as [[[[r1 r2] r3] r4]|e] eqn:E.
    + simpl. eapply recommend_try_lengths, E.
    + destruct e; simpl; auto.
  - exact Hraise.
  - intros Hno.
    assert (Hmask : Forall (fun r => Pandas.title_eq movie r = false) df).
    { eapply Forall_impl; [|exact Hno]. intros r Hr.
      unfold Pandas.title_eq. now apply String.eqb_neq. }
    apply first_index_none in Hmask.
    apply (Hraise IndexError). unfold recommend_try. now rewrite Hmask.
Qed.

(** C2 (amended): [recommend] looks the title up by exact equality.  When
    no title of the catalogue equals the argument it returns four empty
    lists and reports the title through [st.error]; when some does, it
    returns the recommendations of the first such row, with no error
    reported. *)
Theorem recommend_exact_title
    (movie : string) (df : DataFrame) (m : matrix) (top_n : Z) :
  length m = length df ->
  (Forall (fun r => title r <> movie) df ->
     recommend requests_get movie df m top_n
     = (([], [], [], []),
        [st_error ("Movie '" ++ movie ++ "' not found in database")%string]))
  /\ (forall i r v,
        nth_error df i = Some r -> title r = movie ->
        (forall j r', (j < i)%nat -> nth_error df j = Some r' -> title r' <> movie) ->
        nth_error m i = Some v ->
        exists rows,
          rows_of df (distances (cosine_similarity v m) top_n) rows /\
          recommend requests_get movie df m top_n
          = ((map title rows,
              map (fetch_poster requests_get) (map movie_id rows),
              map (fun id => rating (fetch_movie_details requests_get id))
                  (map movie_id rows),
              map movie_id rows), [])).
Proof.
  intros Hlen. split.
  - intros Hno.
    assert (Hmask : Forall (fun r => Pandas.title_eq movie r = false) df).
    { eapply Forall_impl; [|exact Hno]. intros r Hr.
      unfold Pandas.title_eq. now apply String.eqb_neq. }
    apply first_index_none in Hmask.
    unfold recommend, recommend_try. now rewrite Hmask.
  - intros i r v Hr Ht Hmin Hv.
    assert (Hi : Py.getitem (Pandas.index_where (Pandas.title_eq movie) df) 0 = Ok i).
    { apply first_index_some. split.
      - exists r. split; [exact Hr|]. unfold Pandas.title_eq.
        now apply String.eqb_eq.
      - intros j r' Hj Hr'. unfold Pandas.title_eq.
        apply String.eqb_neq. eapply Hmin; eassumption. }
    destruct (@recommend_try_found requests_get movie df m top_n i v Hi Hv Hlen)
      as [rows [Hrows E]].
    exists rows. split; [exact Hrows|].
    unfold recommend. now rewrite E.
Qed.

(** C3 (amended): for a title that some catalogue entry bears, a matrix with
    one row per entry and [top_n >= 0], [recommend] reports no error and
    returns [top_n] results when the catalogue has at least [top_n + 1]
    entries, and one result per entry but one when it has fewer. *)
Theorem recommend_result_count
    (movie : string) (df : DataFrame) (m : matrix) (top_n : Z) :
  length m = length df ->
  (0 <= top_n)%Z ->
  Exists (fun r => title r = movie) df ->
  exists titles posters ratings ids,
    recommend requests_get movie df m top_n
    = ((titles, posters, ratings, ids), []) /\
    length titles = Nat.min (Z.to_nat top_n) (length df - 1) /\
    ((Z.to_nat top_n + 1 <= length df)%nat -> length titles = Z.to_nat top_n) /\
    ((length df < Z.to_nat top_n + 1)%nat ->
     length titles = (length df - 1)%nat).
Proof.
  intros Hlen Hn Hex.
  destruct (first_index_total (Pandas.title_eq movie) df) as [Hnone|[i Hi]].
  { apply first_index_none in Hnone. rewrite Exists_exists in Hex.
    rewrite Forall_forall in Hnone. destruct Hex as [r [Hr Ht]].
    specialize (Hnone r Hr). unfold Pandas.title_eq in Hnone.
    apply String.eqb_neq in Hnone. contradiction. }
  assert (Hv : exists v, nth_error m i = Some v).
  { apply first_index_some in Hi. destruct Hi as [[r [Hr _]] _].
    assert (Hlt : (i < length m)%nat)
      by (rewrite Hlen; apply nth_error_Some; congruence).
    apply nth_error_Some in Hlt.
    destruct (nth_error m i) as [v|]; [now exists v | congruence]. }
  destruct Hv as [v Hv].
  destruct (@recommend_try_found requests_get movie df m top_n i v Hi Hv Hlen)
    as [rows [Hrows E]].
  unfold recommend. rewrite E. do 4 eexists. split; [reflexivity|].
  assert (Hcount : length (map title rows)
                   = Nat.min (Z.to_nat top_n) (length df - 1)).
  { rewrite length_map. unfold rows_of in Hrows.
    rewrite <- (Forall2_length Hrows).
    rewrite distances_length by exact Hn.
    now rewrite cosine_similarity_length, Hlen. }
  split; [exact Hcount|]. split; intros H; rewrite Hcount; lia.
Qed.



End RecommendClaims.

(** ** Instances of the claims about [recommend] *)

Section RecommendWitnesses.
Import Sklearn Utils Samples.
Local Open Scope R_scope.

Lemma twins_similarity :
  compute_similarity_for_movie 1 twins_matrix = Ok [1; 1; 0].
Proof.
  unfold compute_similarity_for_movie.
  replace (Py.getitem twins_matrix 1) with (@Ok vector [1; 0]) by reflexivity.
  cbn [bind]. now rewrite twins_scores.
Qed.

Lemma ranking_descending_stable_witness :
  (Permutation (Binary64.ranking Binary64.second_row_scores)
               (Py.enumerate Binary64.second_row_scores)
   /\ Binary64.distances Binary64.second_row_scores 12
      = Py.slice 1 (12 + 1) (Binary64.ranking Binary64.second_row_scores)
   /\ (forall a b p q, (a < b)%nat ->
         nth_error (Binary64.ranking Binary64.second_row_scores) a = Some p ->
         nth_error (Binary64.ranking Binary64.second_row_scores) b = Some q ->
         SFleb (snd q) (snd p) = true /\
         (SFeqb (snd p) (snd q) = true -> (fst p < fst q)%nat))
   /\ (forall a b p q, (a < b)%nat ->
         nth_error (Binary64.distances Binary64.second_row_scores 12) a
         = Some p ->
         nth_error (Binary64.distances Binary64.second_row_scores 12) b
         = Some q ->
         SFleb (snd q) (snd p) = true /\
         (SFeqb (snd p) (snd q) = true -> (fst p < fst q)%nat)))
  /\ Forall (fun p => 0 <= snd p <= 1) (distances [1; 1; 0] 12).
Proof.
  destruct (@ranking_descending_stable Binary64.second_row_scores
              12 twins_matrix 1%nat [1; 1; 0]) as [H64 Hexact].
  split.
  - apply H64. vm_compute. repeat constructor.
  - apply Hexact.
    + unfold twins_matrix, nonneg. repeat constructor; lra.
    + exact twins_similarity.
Defined.

(** C4 (counterexample): two entries carry the tag text "space robot";
    their TF-IDF rows are equal, and the binary64 score of one against the
    other is 1.0000000000000002, the number after 1.  It is the score the
    ranking keeps. *)
Lemma rounded_score_exceeds_one :
  Binary64.compute_similarity_for_movie 0 Binary64.robots_matrix
  = Ok [Binary64.above_one; Binary64.above_one]
  /\ Binary64.distances [Binary64.above_one; Binary64.above_one] 12
     = [(1%nat, Binary64.above_one)]
  /\ SFltb (Binary64.of_Z 1) Binary64.above_one = true
  /\ SFleb Binary64.above_one (Binary64.of_Z 1) = false.
Proof.
  repeat split; vm_compute; reflexivity.
Qed.

Lemma self_similarity_one_unless_zero_row_witness :
  exists scores,
    compute_similarity_for_movie 1 twins_matrix = Ok scores /\
    (Exists (fun a => a <> 0) [1; 0] -> nth_error scores 1 = Some 1) /\
    (Forall (fun a => a = 0) [1; 0] -> nth_error scores 1 = Some 0).
Proof.
  apply (@self_similarity_one_unless_zero_row twins_matrix 1%nat [1; 0]).
  reflexivity.
Defined.

(** C7 (counterexample): the second row of [blank_matrix] is all zero, and
    its similarity with itself is 0. *)
Lemma zero_row_self_similarity :
  compute_similarity_for_movie 1 blank_matrix = Ok [0; 0]
  /\ nth_error [0; 0] 1 = Some 0
  /\ 0 <> 1.
Proof.
  split; [|split; [reflexivity | lra]].
  unfold compute_similarity_for_movie.
  replace (Py.getitem blank_matrix 1) with (@Ok vector [0]) by reflexivity.
  cbn [bind]. unfold blank_matrix. cos_sim_eval. reflexivity.
Qed.

Lemma recommend_four_lists_no_exception_witness :
  fst (recommend offline "Nobody" twins_df twins_matrix 12) = ([], [], [], []).
Proof.
  apply (recommend_four_lists_no_exception offline "Nobody" twins_df twins_matrix 12).
  unfold twins_df. repeat constructor; discriminate.
Defined.

(** C3 (counterexample): [inception_df] holds "Inception" and one other
    entry.  Asked for "INCEPTION", [recommend] reports an error and returns
    no result: not one when [top_n + 1 = 2] is the size of the catalogue,
    and not the other entry when [top_n = 12]. *)
Lemma case_variant_title_gets_no_result :
  length inception_df = 2%nat
  /\ filter (Pandas.title_eq_lower "INCEPTION") inception_df
     = [MovieRow 27205 "Inception" "dream"]
  /\ recommend offline "INCEPTION" inception_df inception_matrix 1
     = (([], [], [], []),
        [st_error "Movie 'INCEPTION' not found in database"])
  /\ recommend offline "INCEPTION" inception_df inception_matrix 12
     = (([], [], [], []),
        [st_error "Movie 'INCEPTION' not found in database"]).
Proof. repeat split; reflexivity. Qed.

Lemma recommend_result_count_witness :
  exists titles posters ratings ids,
    recommend offline "Beta" twins_df twins_matrix 2
    = ((titles, posters, ratings, ids), []) /\
    length titles = Nat.min (Z.to_nat 2) (length twins_df - 1) /\
    ((Z.to_nat 2 + 1 <= length twins_df)%nat -> length titles = Z.to_nat 2) /\
    ((length twins_df < Z.to_nat 2 + 1)%nat ->
     length titles = (length twins_df - 1)%nat).
Proof.
  apply (@recommend_result_count offline "Beta" twins_df twins_matrix 2).
  - reflexivity.
  - lia.
  - right. left. reflexivity.
Defined.

Lemma recommend_exact_title_witness :
  exists rows,
    rows_of inception_df
      (distances (cosine_similarity [1; 0] inception_matrix) 12) rows /\
    recommend offline "Inception" inception_df inception_matrix 12
    = ((map title rows,
        map (fetch_poster offline) (map movie_id rows),
        map (fun id => rating (fetch_movie_details offline id)) (map movie_id rows),
        map movie_id rows), []).
Proof.
  destruct (@recommend_exact_title offline "Inception" inception_df
              inception_matrix 12 eq_refl) as [_ H].
  apply (H 0%nat (MovieRow 27205 "Inception" "dream") [1; 0]);
    [reflexivity | reflexivity | intros j r' Hj; lia | reflexivity].
Defined.

End RecommendWitnesses.

(** ** Patterns without special characters *)

Section PlainPatterns.

Lemma parse_plain (pat : string) :
  Re.plain pat = true ->
  Re.parse pat = Some (map Re.Lit (list_ascii_of_string pat)).
Proof.
  induction pat as [|c pat IH]; simpl; [reflexivity|].
  intros H. apply andb_true_iff in H. destruct H as [Hc Hp].
  apply negb_true_iff in Hc.
  assert (Hdot : Ascii.eqb c "."%char = false).
  { destruct (Ascii.eqb c ".") eqn:E; [|reflexivity].
    apply Ascii.eqb_eq in E. subst c. discriminate. }
  rewrite Hdot, Hc, (IH Hp). reflexivity.
Qed.

Lemma match_here_lit (pat s : string) :
  Re.match_here (map Re.Lit (list_ascii_of_string pat)) s
  = Py.startswith (Py.lower pat) (Py.lower s).
Proof.
  revert s. induction pat as [|c pat IH]; intros s; simpl.
  - reflexivity.
  - destruct s as [|d s]; simpl; [reflexivity|]. now rewrite IH.
Qed.

Lemma search_lit (pat s : string) :
  Re.search (map Re.Lit (list_ascii_of_string pat)) s
  = Py.contains (Py.lower pat) (Py.lower s).
Proof.
  induction s as [|d s IH].
  - cbn [Re.search Py.lower Py.contains]. now rewrite match_here_lit.
  - cbn [Re.search Py.lower Py.contains]. now rewrite match_here_lit, IH.
Qed.

(** On a pattern without special characters, [str.contains(pat,
    case=False)] is the substring test up to case. *)
Lemma compile_plain (other : string -> result (string -> bool)) (pat : string) :
  Re.plain pat = true ->
  exists found,
    Re.compile_ignorecase other pat = Ok found /\
    forall r, found (title r) = Search.substring_ci pat r.
Proof.
  intros H. unfold Re.compile_ignorecase. rewrite (parse_plain pat H).
  eexists. split; [reflexivity|]. intros r. apply search_lit.
Qed.




End PlainPatterns.

(** ** Descending sorts *)

Section DescendingSorts.
Import Search.
Local Open Scope Q_scope.

Variable leb : Q -> Q -> bool.
Hypothesis leb_true : forall a b, leb a b = true -> a <= b.
Hypothesis leb_false : forall a b, leb a b = false -> b <= a.

Lemma insert_desc_descending (x : scored) (l : list scored) :
  StronglySorted (fun p q => snd q <= snd p) l ->
  StronglySorted (fun p q => snd q <= snd p) (Py.insert_desc snd leb x l).
Proof.
  induction l as [|y l IH]; intros Hs; simpl.
  - repeat constructor.
  - inversion Hs as [|? ? Hs' Hy]; subst.
    destruct (leb (snd y) (snd x)) eqn:E.
    + apply leb_true in E. constructor; [exact Hs|].
      constructor; [exact E|].
      rewrite Forall_forall in *. intros z Hz.
      eapply Qle_trans; [apply Hy, Hz | exact E].
    + apply leb_false in E. constructor; [now apply IH|].
      apply Forall_forall. intros z Hz.
      apply (Permutation_in _ (insert_desc_perm snd leb x l)) in Hz.
      destruct Hz as [<-|Hz]; [exact E|].
      rewrite Forall_forall in Hy. now apply Hy.
Qed.

Lemma sorted_reverse_descending :
  sorts_descending (Py.sorted_reverse snd leb).
Proof.
  intros l. split; [apply sorted_reverse_perm|].
  induction l as [|x l IH]; simpl; [constructor|].
  now apply insert_desc_descending.
Qed.

End DescendingSorts.

Lemma sort_keeping_ties_descending :
  Search.sorts_descending Search.sort_keeping_ties.
Proof.
  apply sorted_reverse_descending.
  - intros a b H. now apply Qle_bool_iff.
  - intros a b H. apply Qlt_le_weak, Qnot_le_lt. intros Hle.
    apply Qle_bool_iff in Hle. congruence.
Qed.

Lemma insert_desc_keeps_ties (q : Q) (x : Search.scored)
    (l : list Search.scored) :
  filter (fun p => Qeq_bool (snd p) q) (Py.insert_desc snd Qle_bool x l)
  = filter (fun p => Qeq_bool (snd p) q) (x :: l).
Proof.
  induction l as [|y l IH]; [reflexivity|].
  cbn [Py.insert_desc].
  destruct (Qle_bool (snd y) (snd x)) eqn:E; [reflexivity|].
  cbn [filter] in *. rewrite IH.
  destruct (Qeq_bool (snd x) q) eqn:Ex; [|reflexivity].
  destruct (Qeq_bool (snd y) q) eqn:Ey; [|reflexivity].
  exfalso. apply Qeq_bool_iff in Ex. apply Qeq_bool_iff in Ey.
  assert (Hle : (snd y <= snd x)%Q) by (rewrite Ex, Ey; apply Qle_refl).
  apply Qle_bool_iff in Hle. congruence.
Qed.

Lemma sort_keeping_ties_keeps_ties :
  Search.keeps_ties Search.sort_keeping_ties.
Proof.
  intros l q. unfold Search.sort_keeping_ties.
  induction l as [|x l IH]; [reflexivity|].
  cbn [Py.sorted_reverse fold_right].
  change (fold_right (Py.insert_desc snd Qle_bool) [] l)
    with (Py.sorted_reverse snd Qle_bool l).
  rewrite insert_desc_keeps_ties. cbn [filter]. now rewrite IH.
Qed.

(** ** [handle_search] *)

Section SearchFacts.
Import Search.

Lemma filter_nil_iff {A : Type} (p : A -> bool) (l : list A) :
  filter p l = [] <-> Forall (fun a => p a = false) l.
Proof.
  induction l as [|a l IH]; simpl.
  - split; [constructor | reflexivity].
  - destruct (p a) eqn:E.
    + split; [discriminate|]. intros H. inversion H; congruence.
    + rewrite IH. split; [now constructor | intros H; now inversion H].
Qed.

Lemma filter_head_in {A : Type} (p : A -> bool) (l : list A) (a : A) (t : list A) :
  filter p l = a :: t -> In a l /\ p a = true.
Proof.
  intros H. apply filter_In. rewrite H. now left.
Qed.

(** The first element a filter keeps, and what stands before it. *)
Lemma filter_cons_split {A : Type} (p : A -> bool) (l : list A) (a : A)
    (t : list A) :
  filter p l = a :: t ->
  exists before after,
    l = before ++ a :: after /\
    Forall (fun b => p b = false) before /\
    filter p after = t.
Proof.
  induction l as [|x l IH]; simpl; [discriminate|].
  destruct (p x) eqn:E; intros H.
  - inversion H; subst. exists [], l. repeat split. constructor.
  - destruct (IH H) as [before [after [-> [Hb Ha]]]].
    exists (x :: before), after. repeat split; [now constructor | exact Ha].
Qed.

Lemma map_eq_split {A B : Type} (f : A -> B) (l : list A)
    (l1 : list B) (b : B) (l2 : list B) :
  map f l = l1 ++ b :: l2 ->
  exists k1 a k2, l = k1 ++ a :: k2 /\ map f k1 = l1 /\ f a = b /\ map f k2 = l2.
Proof.
  revert l. induction l1 as [|c l1 IH]; intros [|x l] H; simpl in H;
    try discriminate.
  - inversion H; subst. now exists [], x, l.
  - inversion H as [[Hc Ht]]. destruct (IH l Ht) as [k1 [a [k2 [-> [<- [<- <-]]]]]].
    now exists (x :: k1), a, k2.
Qed.

Lemma filter_eq_split {A : Type} (p : A -> bool) (l l1 : list A) (a : A)
    (l2 : list A) :
  filter p l = l1 ++ a :: l2 ->
  exists before after,
    l = before ++ a :: after /\ filter p before = l1.
Proof.
  revert l. induction l1 as [|c l1 IH]; intros l H.
  - destruct (@filter_cons_split _ p l _ _ H) as [before [after [-> [Hb _]]]].
    exists before, after. split; [reflexivity|].
    now apply filter_nil_iff.
  - simpl in H.
    destruct (@filter_cons_split _ p l _ _ H) as [before [after [-> [Hb Ha]]]].
    destruct (IH _ Ha) as [b2 [a2 [-> Hf]]].
    exists (before ++ c :: b2), a2. split.
    + now rewrite <- app_assoc.
    + rewrite filter_app. apply filter_nil_iff in Hb. rewrite Hb. simpl.
      assert (Hc : p c = true).
      { assert (Hin : In c (filter p (before ++ c :: b2 ++ a :: a2)))
          by (rewrite H; now left).
        now apply filter_In in Hin. }
      now rewrite Hc, Hf.
Qed.

Variable compile_other : string -> result (string -> bool).
Variable sort_values_desc : list scored -> list scored.
Hypothesis sort_ok : sorts_descending sort_values_desc.

Local Abbreviation search := (handle_search compile_other sort_values_desc).

(** The branches of [handle_search] on a text without special
    characters. *)
Lemma handle_search_plain (df : DataFrame) (input : string) (st : session_state) :
  Re.plain input = true ->
  search df input st
  = if String.eqb input EmptyString then Ok (st, [])
    else match filter (exact_ci input) df with
         | row :: _ => Ok (select (title row) input, [])
         | [] =>
             match filter (substring_ci input) df with
             | c :: cs =>
                 let sorted := sort_values_desc (map (score_for input) (c :: cs)) in
                 bind (Py.getitem sorted 0)
                   (fun row =>
                      Ok (select (title (fst row)) input,
                          if 1 <? length sorted
                          then [st_caption ("Found " ++ str_of_nat (length sorted)
                                            ++ " results")%string]
                          else []))
             | [] =>
                 if Py.not_blank input
                 then Ok (st, [st_warning no_movie_found])
                 else Ok (st, [])
             end
         end.
Proof.
  intros Hp. unfold handle_search.
  destruct (String.eqb input EmptyString); [reflexivity|].
  change (filter (Pandas.title_eq_lower input) df)
    with (filter (exact_ci input) df).
  destruct (filter (exact_ci input) df); [|reflexivity].
  destruct (compile_plain compile_other input Hp) as [found [-> Hf]].
  cbn [bind].
  rewrite (filter_ext (fun r => found (title r)) (substring_ci input) Hf).
  destruct (filter (substring_ci input) df); reflexivity.
Qed.

Lemma sorted_head (l : list scored) :
  l <> [] ->
  exists row rest,
    sort_values_desc l = row :: rest /\
    In row l /\
    forall p, In p l -> (snd p <= snd row)%Q.
Proof.
  intros Hne. destruct (sort_ok l) as [Hperm Hs].
  destruct (sort_values_desc l) as [|row rest] eqn:E.
  - apply Permutation_nil in Hperm. congruence.
  - exists row, rest. split; [reflexivity|]. split.
    + apply (Permutation_in _ Hperm). now left.
    + intros p Hp. apply (Permutation_in _ (Permutation_sym Hperm)) in Hp.
      destruct Hp as [<-|Hp]; [apply Qle_refl|].
      inversion Hs as [|? ? _ Hall]; subst.
      rewrite Forall_forall in Hall. now apply Hall.
Qed.

End SearchFacts.

Section SearchClaims.
Import Search.

Variable compile_other : string -> result (string -> bool).
Variable sort_values_desc : list scored -> list scored.
Hypothesis sort_ok : sorts_descending sort_values_desc.

Local Abbreviation search := (handle_search compile_other sort_values_desc).

(** C5 (amended): on a text without regex special characters the search
    never raises.  It warns "No movie found" exactly when the text is not
    blank and no title equals it or contains it, up to case; it then
    selects nothing.  On a blank text that matches nothing it selects
    nothing and says nothing. *)
Theorem no_match_warning_iff
    (df : DataFrame) (input : string) (st : session_state) :
  Re.plain input = true ->
  exists st' calls,
    search df input st = Ok (st', calls) /\
    (In (st_warning no_movie_found) calls <->
     Py.not_blank input = true /\
     Forall (fun r => exact_ci input r = false /\
                      substring_ci input r = false) df) /\
    (In (st_warning no_movie_found) calls ->
     st' = st /\ calls = [st_warning no_movie_found]) /\
    (Py.not_blank input = false ->
     Forall (fun r => exact_ci input r = false /\
                      substring_ci input r = false) df ->
     st' = st /\ calls = []).
Proof.
  intros Hp. rewrite (@handle_search_plain compile_other sort_values_desc df input st Hp).
  destruct (String.eqb input EmptyString) eqn:Eempty.
  { exists st, []. apply String.eqb_eq in Eempty. subst input.
    split; [reflexivity|]. split; [|split].
    - split; [intros [] | intros [H _]; discriminate].
    - intros [].
    - auto. }
  destruct (filter (exact_ci input) df) as [|row rest] eqn:Eexact.
  2:{ destruct (filter_head_in _ _ Eexact) as [Hin Hrow].
      assert (Hno : ~ Forall (fun r => exact_ci input r = false /\
                                       substring_ci input r = false) df).
      { intros Hall. rewrite Forall_forall in Hall.
        destruct (Hall row Hin). congruence. }
      exists (select (title row) input), []. split; [reflexivity|].
      split; [|split].
      - split; [intros [] | intros [_ H]; contradiction].
      - intros [].
      - intros _ H. contradiction. }
  destruct (filter (substring_ci input) df) as [|c cs] eqn:Esub.
  - apply filter_nil_iff in Eexact. apply filter_nil_iff in Esub.
    assert (Hall : Forall (fun r => exact_ci input r = false /\
                                    substring_ci input r = false) df).
    { rewrite Forall_forall in *. intros r Hr. split; auto. }
    destruct (Py.not_blank input) eqn:Eblank.
    + exists st, [st_warning no_movie_found]. split; [reflexivity|].
      split; [|split].
      * split; [intros _; split; [reflexivity | exact Hall] | intros _; now left].
      * intros _. split; reflexivity.
      * discriminate.
    + exists st, []. split; [reflexivity|]. split; [|split].
      * split; [intros [] | intros [H _]; discriminate].
      * intros [].
      * auto.
  - destruct (filter_head_in _ _ Esub) as [Hin Hc].
    assert (Hno : ~ Forall (fun r => exact_ci input r = false /\
                                     substring_ci input r = false) df).
    { intros Hall. rewrite Forall_forall in Hall.
      destruct (Hall c Hin). congruence. }
    destruct (sorted_head sort_ok (l := map (score_for input) (c :: cs)))
      as [row [rest [Es _]]]; [discriminate|].
    cbn zeta. rewrite Es. cbn [Py.getitem nth_error bind].
    eexists _, _. split; [reflexivity|]. split; [|split].
    + split; [|intros [_ H]; contradiction].
      destruct (1 <? length (row :: rest)); [|intros []].
      intros [H|[]]. discriminate.
    + destruct (1 <? length (row :: rest)); [|intros []].
      intros [H|[]]. discriminate.
    + intros _ H. contradiction.
Qed.

(** C6 (amended): on a non-empty text without regex special characters,
    when no title equals the text up to case and some title contains it up
    to case, the search selects one of the titles that contain it, and no
    title that contains it has a higher similarity ratio to the text.  When
    the sort keeps rows of equal key in their order, the selected row is
    the earliest of them in the catalogue: every candidate before it has a
    lower ratio. *)
Theorem substring_candidate_of_highest_ratio
    (df : DataFrame) (input : string) (st : session_state) :
  Re.plain input = true ->
  input <> EmptyString ->
  Forall (fun r => exact_ci input r = false) df ->
  Exists (fun r => substring_ci input r = true) df ->
  exists row calls,
    search df input st = Ok (select (title row) input, calls) /\
    In row df /\
    substring_ci input row = true /\
    (forall r, In r df -> substring_ci input r = true ->
       (Difflib.ratio (Py.lower input) (Py.lower (title r))
        <= Difflib.ratio (Py.lower input) (Py.lower (title row)))%Q) /\
    (keeps_ties sort_values_desc ->
     exists before after,
       df = before ++ row :: after /\
       forall r, In r before -> substring_ci input r = true ->
         (Difflib.ratio (Py.lower input) (Py.lower (title r))
          < Difflib.ratio (Py.lower input) (Py.lower (title row)))%Q).
Proof.
  intros Hp Hne Hexact Hsub.
  rewrite (@handle_search_plain compile_other sort_values_desc df input st Hp).
  apply String.eqb_neq in Hne. rewrite Hne.
  apply filter_nil_iff in Hexact. rewrite Hexact.
  destruct (filter (substring_ci input) df) as [|c cs] eqn:Esub.
  { apply filter_nil_iff in Esub. rewrite Exists_exists in Hsub.
    rewrite Forall_forall in Esub. destruct Hsub as [r [Hr Hs]].
    rewrite (Esub r Hr) in Hs. discriminate. }
  destruct (sorted_head sort_ok (l := map (score_for input) (c :: cs)))
    as [[row q] [rest [Es [Hin Hmax]]]]; [discriminate|].
  cbn zeta. rewrite Es. cbn [Py.getitem nth_error bind fst].
  exists row. eexists. split; [reflexivity|].
  apply in_map_iff in Hin. destruct Hin as [r0 [E0 Hin0]].
  unfold score_for in E0. inversion E0; subst r0. clear E0.
  rewrite <- Esub in Hin0. apply filter_In in Hin0.
  destruct Hin0 as [Hrow Hrs]. split; [exact Hrow|]. split; [exact Hrs|].
  assert (Hbest : forall r, In r df -> substring_ci input r = true ->
            (Difflib.ratio (Py.lower input) (Py.lower (title r)) <= q)%Q).
  { intros r Hr Hrsub.
    assert (Hc : In (score_for input r) (map (score_for input) (c :: cs))).
    { apply in_map. rewrite <- Esub. apply filter_In. now split. }
    apply Hmax in Hc. exact Hc. }
  split; [subst q; exact Hbest|].
  intros Hties.
  pose proof (Hties (map (score_for input) (c :: cs)) q) as Hk.
  rewrite Es in Hk. cbn [filter snd] in Hk.
  rewrite (proj2 (Qeq_bool_iff q q) (Qeq_refl q)) in Hk.
  symmetry in Hk.
  destruct (@filter_cons_split _ _ _ _ _ Hk) as [pre [post [El [Hpre _]]]].
  destruct (@map_eq_split _ _ _ _ _ _ _ El) as [k1 [a [k2 [Ec [E1 [Ea _]]]]]].
  unfold score_for in Ea. inversion Ea as [[Erow Eq]]. subst a.
  rewrite <- Esub in Ec.
  destruct (@filter_eq_split _ _ _ _ _ _ Ec) as [before [after [Edf Hbefore]]].
  exists before, after. split; [exact Edf|].
  intros r Hr Hrsub.
  assert (Hk1 : In r k1) by (rewrite <- Hbefore; apply filter_In; now split).
  assert (Hr' : In (score_for input r) pre) by (rewrite <- E1; now apply in_map).
  rewrite Forall_forall in Hpre. specialize (Hpre _ Hr'). cbn [score_for snd] in Hpre.
  assert (Hle : (Difflib.ratio (Py.lower input) (Py.lower (title r)) <= q)%Q).
  { apply Hbest; [|exact Hrsub]. rewrite Edf. apply in_or_app. now left. }
  rewrite Eq. apply Qle_lteq in Hle. destruct Hle as [Hlt|Heq]; [exact Hlt|].
  apply Qeq_bool_iff in Heq. congruence.
Qed.

End SearchClaims.

(** ** Sample searches *)

Section SampleSearches.
Import Search Samples.

(** C5 (counterexample): two spaces match no title of [inception_df] in
    any way, yet no warning is made; the empty text is contained in every
    title, yet nothing is selected. *)
Lemma blank_text_is_ignored_without_warning :
  Forall (fun r => exact_ci "  " r = false /\ substring_ci "  " r = false)
         inception_df
  /\ handle_search refuse_other sort_keeping_ties inception_df "  "
       nothing_selected
     = Ok (nothing_selected, [])
  /\ Forall (fun r => substring_ci "" r = true) inception_df
  /\ handle_search refuse_other sort_keeping_ties inception_df ""
       nothing_selected
     = Ok (nothing_selected, []).
Proof.
  repeat split; try reflexivity; repeat constructor.
Qed.

(** C6 (counterexample): the empty text equals no title of [inception_df]
    and is contained in every one of them, yet nothing is selected. *)
Lemma empty_text_selects_nothing :
  Forall (fun r => exact_ci "" r = false /\ substring_ci "" r = true)
         inception_df
  /\ handle_search refuse_other sort_keeping_ties inception_df ""
       nothing_selected
     = Ok (nothing_selected, []).
Proof.
  split; [repeat constructor | reflexivity].
Qed.

(** The text is handed to [str.contains] as a regular expression: "e.t"
    selects a title that does not contain it, ahead of the one that
    does. *)
Lemma dot_pattern_selects_other_title :
  handle_search refuse_other sort_keeping_ties dotted_df "e.t" nothing_selected
  = Ok (select "Street Kings" "e.t", [st_caption "Found 2 results"])
  /\ filter (substring_ci "e.t") dotted_df
     = [MovieRow 601 "E.T. the Extra-Terrestrial" "alien boy bicycle"].
Proof. split; reflexivity. Qed.

(** A text that is not a valid pattern makes the search raise. *)
Lemma bad_pattern_raises (other : string -> result (string -> bool))
      (sort : list scored -> list scored) (df : DataFrame)
      (input : string) (st : session_state) :
  input <> EmptyString ->
  Re.parse input = None ->
  other input = Raise ReError ->
  Forall (fun r => exact_ci input r = false) df ->
  handle_search other sort df input st = Raise ReError.
Proof.
  intros Hne Hparse Hother Hexact. unfold handle_search.
  apply String.eqb_neq in Hne. rewrite Hne.
  apply filter_nil_iff in Hexact.
  change (filter (Pandas.title_eq_lower input) df)
    with (filter (exact_ci input) df).
  rewrite Hexact. unfold Re.compile_ignorecase. now rewrite Hparse, Hother.
Qed.

Lemma no_match_warning_iff_witness :
  exists st' calls,
    handle_search refuse_other sort_keeping_ties inception_df "xyzzynotamovie"
      nothing_selected = Ok (st', calls) /\
    (In (st_warning no_movie_found) calls <->
     Py.not_blank "xyzzynotamovie" = true /\
     Forall (fun r => exact_ci "xyzzynotamovie" r = false /\
                      substring_ci "xyzzynotamovie" r = false) inception_df) /\
    (In (st_warning no_movie_found) calls ->
     st' = nothing_selected /\ calls = [st_warning no_movie_found]) /\
    (Py.not_blank "xyzzynotamovie" = false ->
     Forall (fun r => exact_ci "xyzzynotamovie" r = false /\
                      substring_ci "xyzzynotamovie" r = false) inception_df ->
     st' = nothing_selected /\ calls = []).
Proof.
  apply (@no_match_warning_iff refuse_other sort_keeping_ties
           sort_keeping_ties_descending inception_df "xyzzynotamovie"
           nothing_selected).
  reflexivity.
Defined.

Lemma substring_candidate_of_highest_ratio_witness :
  exists row calls,
    handle_search refuse_other sort_keeping_ties heroes_df "man"
      nothing_selected = Ok (select (title row) "man", calls) /\
    In row heroes_df /\
    substring_ci "man" row = true /\
    (forall r, In r heroes_df -> substring_ci "man" r = true ->
       (Difflib.ratio (Py.lower "man") (Py.lower (title r))
        <= Difflib.ratio (Py.lower "man") (Py.lower (title row)))%Q) /\
    exists before after,
      heroes_df = before ++ row :: after /\
      forall r, In r before -> substring_ci "man" r = true ->
        (Difflib.ratio (Py.lower "man") (Py.lower (title r))
         < Difflib.ratio (Py.lower "man") (Py.lower (title row)))%Q.
Proof.
  destruct (@substring_candidate_of_highest_ratio refuse_other
              sort_keeping_ties sort_keeping_ties_descending heroes_df "man"
              nothing_selected)
    as [row [calls [Hsel [Hin [Hsub [Hbest Hties]]]]]].
  - reflexivity.
  - discriminate.
  - repeat constructor.
  - left. reflexivity.
  - exists row, calls. repeat split; try assumption.
    apply Hties, sort_keeping_ties_keeps_ties.
Defined.

End SampleSearches.

(** ** Fetching from the movie database *)

Section FetchClaims.
Import Utils.
Variable requests_get : request -> response.

Lemma response_json_failure (r : response) :
  (forall data, r <> BodyJson data) -> exists e, response_json r = Raise e.
Proof.
  intros H. destruct r; simpl; eauto. exfalso. now apply (H data).
Qed.

(** C9: when the request fails (no connection, time-out, a body that is
    not JSON), when the body is JSON but not an object, and whenever the
    processing of the body raises, [fetch_movie_details] returns the
    default record and [fetch_poster] the placeholder URL; both are total
    functions, so no exception reaches the caller. *)
Theorem fetch_failures_give_defaults (id : Z) :
  let default :=
    {| rating := JInt 0;
       vote_count := JInt 0;
       overview := JStr "No description available.";
       runtime := JInt 0;
       release_date := JStr "Unknown";
       genres := [];
       videos := JList [];
       cast := [] |} in
  let placeholder := "https://via.placeholder.com/500x750?text=No+Image"%string in
  ((forall data, requests_get (GetMovieVideosCredits id) <> BodyJson data) ->
     fetch_movie_details requests_get id = default)
  /\ (forall data, requests_get (GetMovieVideosCredits id) = BodyJson data ->
        (forall kv, data <> JDict kv) ->
        fetch_movie_details requests_get id = default)
  /\ (forall e, fetch_movie_details_try requests_get id = Raise e ->
        fetch_movie_details requests_get id = default)
  /\ ((forall data, requests_get (GetMovie id) <> BodyJson data) ->
        fetch_poster requests_get id = placeholder)
  /\ (forall data, requests_get (GetMovie id) = BodyJson data ->
        (forall kv, data <> JDict kv) ->
        fetch_poster requests_get id = placeholder)
  /\ (forall e, fetch_poster_try requests_get id = Raise e ->
        fetch_poster requests_get id = placeholder).
Proof.
  cbn zeta. repeat split.
  - intros H. apply response_json_failure in H. destruct H as [e He].
    unfold fetch_movie_details, fetch_movie_details_try. now rewrite He.
  - intros data Hd Hnd.
    unfold fetch_movie_details, fetch_movie_details_try. rewrite Hd.
    destruct data; try reflexivity. exfalso. now apply (Hnd kv).
  - intros e He. unfold fetch_movie_details. now rewrite He.
  - intros H. apply response_json_failure in H. destruct H as [e He].
    unfold fetch_poster, fetch_poster_try. now rewrite He.
  - intros data Hd Hnd.
    unfold fetch_poster, fetch_poster_try. rewrite Hd.
    destruct data; try reflexivity. exfalso. now apply (Hnd kv).
  - intros e He. unfold fetch_poster. now rewrite He.
Qed.

End FetchClaims.

(** ** Validation of the chat service's answer *)

Section ChatbotClaims.
Import Chatbot.
Variable movies_df : DataFrame.

Lemma lookup_dict_set (k : string) (v : json) (kv : list (string * json)) :
  PyJson.lookup k (dict_set k v kv) = Some v.
Proof.
  induction kv as [|[k' v'] kv IH]; simpl.
  - now rewrite String.eqb_refl.
  - destruct (String.eqb k k') eqn:E; simpl; rewrite E; [reflexivity | exact IH].
Qed.

Lemma validate_entry_ok (movie : json) (out : list json) :
  validate_entry movies_df movie = Ok out ->
  exists t,
    entry_title movie t /\
    ((filter (Search.exact_ci t) movies_df = [] /\ out = []) \/
     (exists row reason,
        hd_error (filter (Search.exact_ci t) movies_df) = Some row /\
        PyJson.get movie "reason" (JStr "") = Ok reason /\
        out = [validated_entry row reason])).
Proof.
  unfold validate_entry, entry_title.
  destruct (PyJson.get movie "title" (JStr "")) as [title_v|] eqn:Et;
    cbn [bind]; [|discriminate].
  destruct title_v; cbn [PyJson.lower bind]; try discriminate.
  change (filter (fun r => String.eqb (Py.lower (title r)) (Py.lower s)) movies_df)
    with (filter (Search.exact_ci s) movies_df).
  intros H. exists s. split; [reflexivity|].
  destruct (filter (Search.exact_ci s) movies_df) as [|row rest].
  - left. inversion H. auto.
  - right. destruct (PyJson.get movie "reason" (JStr "")) as [reason|] eqn:Er;
      cbn [bind] in H; [|discriminate].
    exists row, reason. inversion H. auto.
Qed.



Variable search_braces : string -> option string.
Variable json_loads : string -> result json.


End ChatbotClaims.

Section FetchAndChatbotWitnesses.
Import Utils Chatbot Samples.

Lemma fetch_failures_give_defaults_witness :
  fetch_movie_details offline 27205 = default_details
  /\ fetch_poster offline 27205 = placeholder_poster.
Proof.
  pose proof (fetch_failures_give_defaults offline 27205) as H.
  cbn zeta in H. destruct H as [Hd [_ [_ [Hp _]]]]. split.
  - apply Hd. intros data. discriminate.
  - apply Hp. intros data. discriminate.
Defined.

(** The error body of the service has none of the fields read: the record
    built from it is the default one, and the poster is the placeholder. *)
Lemma error_body_gives_defaults :
  fetch_movie_details unknown_ids 27205 = default_details
  /\ fetch_poster unknown_ids 27205 = placeholder_poster.
Proof. split; reflexivity. Qed.


End FetchAndChatbotWitnesses.

(** * Further properties *)

(** ** The star rating *)

Section StarFacts.
Import Display.




Lemma string_length_append (s t : string) :
  String.length (s ++ t) = String.length s + String.length t.
Proof. induction s as [|c s IH]; simpl; [reflexivity | now rewrite IH]. Qed.

Lemma append_neq_self (s t : string) :
  t <> EmptyString -> (s ++ t)%string <> s.
Proof.
  intros Ht E. apply (f_equal String.length) in E.
  rewrite string_length_append in E.
  destruct t; [contradiction | simpl in E; lia].
Qed.

(** X3: The number of votes is shown unless it is missing or zero. *)
Theorem votes_shown_unless_zero (rating : Q) (vote_count : option Z) :
  display_stars rating vote_count = display_stars rating None <->
  vote_count = None \/ vote_count = Some 0%Z.
Proof.
  split.
  - destruct vote_count as [n|]; [|auto].
    unfold display_stars. destruct (Z.eqb_spec n 0) as [->|Hn]; [auto|].
    intros E. exfalso. revert E. apply append_neq_self. discriminate.
  - intros [->| ->]; reflexivity.
Qed.

End StarFacts.

(** ** The genre filters *)

Section GenreFacts.
Import Genres.
Variable compile_other : string -> result (string -> bool).

Lemma filter_idem {A : Type} (p : A -> bool) (l : list A) :
  filter p (filter p l) = filter p l.
Proof.
  induction l as [|a l IH]; simpl; [reflexivity|].
  destruct (p a) eqn:E; simpl; [rewrite E, IH; reflexivity | exact IH].
Qed.

Lemma filter_length_le {A : Type} (p : A -> bool) (l : list A) :
  length (filter p l) <= length l.
Proof.
  induction l as [|a l IH]; simpl; [lia|]. destruct (p a); simpl; lia.
Qed.

(** X4: For a genre name without regex special characters, the filter keeps
    exactly the rows whose tag text contains the name up to case, in the
    order of the catalogue, and the count is their number. *)
Theorem genre_filter_plain (movies_df : DataFrame) (genre : string) :
  Re.plain genre = true ->
  filter_movies_by_genre compile_other movies_df genre
  = Ok (filter (tagged genre) movies_df)
  /\ get_genre_movie_count compile_other movies_df genre
     = Ok (length (filter (tagged genre) movies_df)).
Proof.
  intros Hp.
  unfold filter_movies_by_genre, get_genre_movie_count, tags_mask,
    Re.compile_ignorecase.
  rewrite (parse_plain genre Hp). cbn [bind].
  assert (E : filter (fun r => Re.search (map Re.Lit (list_ascii_of_string genre))
                                         (tags r)) movies_df
              = filter (tagged genre) movies_df).
  { apply filter_ext. intros r. apply search_lit. }
  now rewrite E.
Qed.

(** X5: Whatever the genre text, the rows the filter returns pass the filter
    again unchanged, are rows of the catalogue, and their number is the
    count [get_genre_movie_count] gives; the two functions raise
    together. *)
Theorem genre_filter_idempotent (movies_df : DataFrame) (genre : string) :
  match filter_movies_by_genre compile_other movies_df genre with
  | Ok rows =>
      filter_movies_by_genre compile_other rows genre = Ok rows /\
      get_genre_movie_count compile_other movies_df genre = Ok (length rows) /\
      length rows <= length movies_df /\
      incl rows movies_df
  | Raise e =>
      get_genre_movie_count compile_other movies_df genre = Raise e
  end.
Proof.
  unfold filter_movies_by_genre, get_genre_movie_count.
  destruct (tags_mask compile_other genre) as [mask|e]; cbn [bind];
    [|reflexivity].
  split; [now rewrite filter_idem|]. split; [reflexivity|].
  split; [apply filter_length_le|].
  intros r Hr. apply filter_In in Hr. tauto.
Qed.

End GenreFacts.

(** ** More on the fetches *)

Section FetchFacts.
Import Utils.
Variable requests_get : request -> response.

Lemma mapM_length {A B : Type} (f : A -> result B) (l : list A) (l' : list B) :
  mapM f l = Ok l' -> length l' = length l.
Proof.
  revert l'. induction l as [|a l IH]; intros l' H; simpl in H.
  - now inversion H.
  - destruct (f a); [|discriminate].
    destruct (mapM f l) as [bs|]; [|discriminate].
    inversion H; subst. simpl. now rewrite (IH bs eq_refl).
Qed.

Lemma substring_length_le (m : nat) (s : string) :
  String.length (substring 0 m s) <= m.
Proof.
  revert s. induction m as [|m IH]; intros [|c s]; simpl; try lia.
  specialize (IH s). lia.
Qed.

Lemma list_ascii_length (s : string) :
  length (list_ascii_of_string s) = String.length s.
Proof. induction s as [|c s IH]; simpl; [reflexivity | now rewrite IH]. Qed.

Lemma names_of_slice_length (n : nat) (v sliced : json) (names : list json) :
  PyJson.slice_to n v = Ok sliced ->
  names_of sliced = Ok names ->
  length names <= n.
Proof.
  intros Hs Hn. unfold names_of in Hn.
  destruct (PyJson.iter sliced) as [items|] eqn:Ei; cbn [bind] in Hn;
    [|discriminate].
  apply mapM_length in Hn. rewrite Hn.
  destruct v; simpl in Hs; try discriminate; inversion Hs; subst sliced;
    simpl in Ei; inversion Ei; subst items.
  - rewrite length_map, list_ascii_length. apply substring_length_le.
  - apply length_firstn_le_n || (rewrite length_firstn; lia).
Qed.

(** X6: Whatever the service answers, the record of a film lists at most five
    cast members. *)
Theorem cast_at_most_five (id : Z) :
  length (cast (fetch_movie_details requests_get id)) <= 5.
Proof.
  unfold fetch_movie_details.
  destruct (fetch_movie_details_try requests_get id) as [d|e] eqn:E;
    [|simpl; lia].
  unfold fetch_movie_details_try in E.
  repeat match type of E with
    | bind ?m _ = Ok _ =>
        let H := fresh "H" in
        destruct m eqn:H; cbn [bind] in E; [|discriminate]
    end.
  inversion E; subst d. simpl.
  eapply names_of_slice_length; eassumption.
Qed.

(** X7: The poster URL is the image base followed by the [poster_path] of the
    answer when that is a non-empty text, and the placeholder in every
    other case. *)
Theorem fetch_poster_url (id : Z) :
  (forall kv s,
     requests_get (GetMovie id) = BodyJson (JDict kv) ->
     PyJson.lookup "poster_path" kv = Some (JStr s) ->
     s <> EmptyString ->
     fetch_poster requests_get id
     = ("http://image.tmdb.org/t/p/w500/" ++ s)%string)
  /\ (fetch_poster requests_get id = placeholder_poster \/
      exists kv s,
        requests_get (GetMovie id) = BodyJson (JDict kv) /\
        PyJson.lookup "poster_path" kv = Some (JStr s) /\
        s <> EmptyString /\
        fetch_poster requests_get id
        = ("http://image.tmdb.org/t/p/w500/" ++ s)%string).
Proof.
  split.
  - intros kv s Hr Hl Hs. unfold fetch_poster, fetch_poster_try.
    rewrite Hr. cbn [response_json bind PyJson.get]. rewrite Hl.
    cbn [bind PyJson.truthy]. apply String.eqb_neq in Hs. rewrite Hs. reflexivity.
  - unfold fetch_poster, fetch_poster_try.
    destruct (requests_get (GetMovie id)) as [| | |data] eqn:Hr; try (now left).
    destruct data; try (now left).
    cbn [response_json bind PyJson.get].
    destruct (PyJson.lookup "poster_path" kv) as [v|] eqn:Hl; try (now left).
    destruct v; cbn [bind PyJson.truthy PyJson.str_add];
      try (now left);
      try (match goal with |- context [if ?c then _ else _] => destruct c end;
           now left).
    destruct (String.eqb s EmptyString) eqn:Hs; [now left|].
    right. exists kv, s. apply String.eqb_neq in Hs. cbn [negb]. auto.
Qed.

End FetchFacts.

(** ** More on the ranking and on [recommend] *)

Section RankingMore.
Import Sklearn Utils.
Local Open Scope R_scope.

Lemma NoDup_firstn {A : Type} (n : nat) (l : list A) :
  NoDup l -> NoDup (firstn n l).
Proof.
  revert l. induction n as [|n IH]; intros [|a l] H; simpl; try constructor.
  - inversion H as [|? ? Hin Hl]; subst. intros Ha. apply Hin.
    eapply In_firstn, Ha.
  - inversion H; subst. now apply IH.
Qed.

Lemma NoDup_skipn {A : Type} (n : nat) (l : list A) :
  NoDup l -> NoDup (skipn n l).
Proof.
  revert l. induction n as [|n IH]; intros [|a l] H; simpl; try assumption.
  inversion H; subst. now apply IH.
Qed.

Lemma distances_rows_NoDup (scores : list R) (top_n : Z) :
  NoDup (map fst (distances scores top_n)).
Proof.
  unfold distances, Py.slice.
  rewrite <- firstn_map, <- skipn_map.
  apply NoDup_firstn, NoDup_skipn.
  apply (Permutation_NoDup
           (l := map fst (Py.enumerate scores))).
  - apply Permutation_map, Permutation_sym, sorted_reverse_perm.
  - unfold Py.enumerate.
    assert (E : forall s (l : list R),
               map fst (combine (seq s (length l)) l) = seq s (length l)).
    { intros s l. revert s. induction l as [|a l IH]; intros s; simpl;
        [reflexivity | now rewrite IH]. }
    rewrite E. apply seq_NoDup.
Qed.

(** X8: [recommend] never lists a catalogue row twice, and every row it lists
    is a row of the matrix. *)
Theorem recommended_rows_distinct
    (movie : string) (df : DataFrame) (m : matrix) (top_n : Z) (rows : list nat) :
  recommended_rows movie df m top_n = Ok rows ->
  NoDup rows /\ Forall (fun k => (k < length m)%nat) rows.
Proof.
  unfold recommended_rows, compute_similarity_for_movie.
  destruct (Py.getitem (Pandas.index_where _ df) 0) as [i|]; cbn [bind];
    [|discriminate].
  destruct (Py.getitem m i) as [v|]; cbn [bind]; [|discriminate].
  intros H. inversion H; subst rows. clear H. split.
  - apply distances_rows_NoDup.
  - apply Forall_forall. intros k Hk. apply in_map_iff in Hk.
    destruct Hk as [[k' s] [E Hin]]. simpl in E. subst k'.
    apply distances_In in Hin.
    assert (Hlt : (k < length (cosine_similarity v m))%nat)
      by (apply nth_error_Some; congruence).
    now rewrite cosine_similarity_length in Hlt.
Qed.

Lemma StronglySorted_app_inv {A : Type} (Rel : A -> A -> Prop) (l1 l2 : list A) :
  StronglySorted Rel (l1 ++ l2) ->
  forall x y, In x l1 -> In y l2 -> Rel x y.
Proof.
  induction l1 as [|a l1 IH]; intros Hs x y Hx Hy; [destruct Hx|].
  simpl in Hs. inversion Hs as [|? ? Hs' Ha]; subst.
  destruct Hx as [<-|Hx].
  - rewrite Forall_forall in Ha. apply Ha, in_or_app. now right.
  - now apply IH.
Qed.

(** X9: Of the rows left out of the ranking, at most one (the row dropped from
    its head) scores more than a row that is kept: the rows kept are the
    best of the others. *)
Theorem distances_keep_the_best (scores : list R) (top_n : Z) :
  (0 <= top_n)%Z ->
  forall p k1 s1 k2 s2,
    In p (distances scores top_n) ->
    nth_error scores k1 = Some s1 -> nth_error scores k2 = Some s2 ->
    ~ In k1 (map fst (distances scores top_n)) ->
    ~ In k2 (map fst (distances scores top_n)) ->
    snd p < s1 -> snd p < s2 ->
    k1 = k2.
Proof.
  intros Hn p k1 s1 k2 s2 Hp H1 H2 Hout1 Hout2 Hs1 Hs2.
  unfold distances in *. rewrite slice_tail in * by exact Hn.
  pose proof (sorted_reverse_perm snd Rleb (Py.enumerate scores)) as Hperm.
  pose proof (sorted_reverse_ranked (enumerate_from_sorted 0 scores)) as Hs.
  fold (Py.enumerate scores) in Hs.
  assert (Hmem : forall k s, nth_error scores k = Some s ->
                   In (k, s) (Py.sorted_reverse snd Rleb (Py.enumerate scores))).
  { intros k s H. apply (Permutation_in _ (Permutation_sym Hperm)).
    now apply enumerate_In. }
  apply Hmem in H1. apply Hmem in H2.
  destruct (Py.sorted_reverse snd Rleb (Py.enumerate scores)) as [|h t];
    [destruct H1|].
  simpl tl in *. inversion Hs as [|? ? Hst _]; subst.
  rewrite <- (firstn_skipn (Z.to_nat top_n) t) in Hst.
  assert (Hhead : forall k s,
             In (k, s) (h :: t) ->
             ~ In k (map fst (firstn (Z.to_nat top_n) t)) ->
             snd p < s -> h = (k, s)).
  { intros k s Hin Hout Hlt. destruct Hin as [E|Hin]; [exact E|].
    exfalso. rewrite <- (firstn_skipn (Z.to_nat top_n) t) in Hin.
    apply in_app_or in Hin. destruct Hin as [Hin|Hin].
    - apply Hout. apply in_map_iff. now exists (k, s).
    - pose proof (@StronglySorted_app_inv _ _ _ _ Hst p (k, s) Hp Hin) as Hr.
      unfold ranks_before in Hr. simpl in Hr. lra. }
  pose proof (Hhead k1 s1 H1 Hout1 Hs1) as E1.
  pose proof (Hhead k2 s2 H2 Hout2 Hs2) as E2.
  congruence.
Qed.

Lemma cos_sim_comm (x y : vector) : cos_sim x y = cos_sim y x.
Proof. unfold cos_sim. apply dot_comm. Qed.

(** X10: The similarity scores of a row are one per row of the matrix, and the
    score of row [j] for the query [i] is the score of row [i] for the
    query [j]; a position outside the matrix raises [IndexError]. *)
Theorem similarity_symmetric (m : matrix) (i j : nat) :
  ((i < length m)%nat -> (j < length m)%nat ->
   exists si sj,
     compute_similarity_for_movie i m = Ok si /\
     compute_similarity_for_movie j m = Ok sj /\
     length si = length m /\ length sj = length m /\
     nth_error si j = nth_error sj i)
  /\ ((length m <= i)%nat -> compute_similarity_for_movie i m = Raise IndexError).
Proof.
  split.
  - intros Hi Hj.
    destruct (nth_error m i) as [vi|] eqn:Ei;
      [|apply nth_error_None in Ei; lia].
    destruct (nth_error m j) as [vj|] eqn:Ej;
      [|apply nth_error_None in Ej; lia].
    exists (cosine_similarity vi m), (cosine_similarity vj m).
    unfold compute_similarity_for_movie, Py.getitem. rewrite Ei, Ej. cbn [bind].
    repeat split; try apply cosine_similarity_length.
    unfold cosine_similarity. rewrite !nth_error_map, Ei, Ej. simpl.
    now rewrite cos_sim_comm.
  - intros Hi. apply nth_error_None in Hi.
    unfold compute_similarity_for_movie, Py.getitem. now rewrite Hi.
Qed.

Variable requests_get : request -> response.

Lemma recommend_loop_count (df : DataFrame) (ps : list string)
      (dl : list details) (ids : list Z) (todo : list (nat * (nat * R))) :
  forall a1 a2 a3 a4 r1 r2 r3 r4,
    recommend_loop df ps dl ids todo (a1, a2, a3, a4) = Ok (r1, r2, r3, r4) ->
    length r1 = (length a1 + length todo)%nat.
Proof.
  induction todo as [|[i [idx score]] todo IH]; intros a1 a2 a3 a4 r1 r2 r3 r4 H.
  - simpl in H. inversion H; subst. simpl. lia.
  - simpl in H.
    destruct (Pandas.iloc df idx); simpl in H; [|discriminate].
    destruct (Py.getitem ps i); simpl in H; [|discriminate].
    destruct (Py.getitem dl i); simpl in H; [|discriminate].
    destruct (Py.getitem ids i); simpl in H; [|discriminate].
    apply IH in H. rewrite H, length_app. simpl. lia.
Qed.

(** X11: Whatever the arguments, a non-negative [top_n] bounds the number of
    recommendations. *)
Theorem recommend_at_most_top_n
    (movie : string) (df : DataFrame) (m : matrix) (top_n : Z) :
  (0 <= top_n)%Z ->
  let '(titles, _, _, _) := fst (recommend requests_get movie df m top_n) in
  (length titles <= Z.to_nat top_n)%nat.
Proof.
  intros Hn. unfold recommend.
  destruct (recommend_try requests_get movie df m top_n)
    as [[[[r1 r2] r3] r4]|e] eqn:E.
  2:{ destruct e; simpl; lia. }
  simpl. unfold recommend_try in E.
  destruct (Py.getitem (Pandas.index_where _ df) 0); cbn [bind] in E;
    [|discriminate].
  destruct (compute_similarity_for_movie _ m) as [scores|]; cbn [bind] in E;
    [|discriminate].
  destruct (mapM _ _); cbn [bind] in E; [|discriminate].
  apply recommend_loop_count in E. rewrite E. simpl.
  rewrite enumerate_length, distances_length by exact Hn. lia.
Qed.

(** The number of results for a title of the catalogue is the length of
    the ranking, and no error is reported. *)
Lemma recommend_found (movie : string) (df : DataFrame) (m : matrix) (top_n : Z) :
  length m = length df ->
  Exists (fun r => title r = movie) df ->
  exists titles posters ratings ids scores,
    recommend requests_get movie df m top_n = ((titles, posters, ratings, ids), [])
    /\ length scores = length df
    /\ length titles = length (distances scores top_n).
Proof.
  intros Hlen Hex.
  destruct (first_index_total (Pandas.title_eq movie) df) as [Hnone|[i Hi]].
  { apply first_index_none in Hnone. rewrite Exists_exists in Hex.
    rewrite Forall_forall in Hnone. destruct Hex as [r [Hr Ht]].
    specialize (Hnone r Hr). unfold Pandas.title_eq in Hnone.
    apply String.eqb_neq in Hnone. contradiction. }
  assert (Hv : exists v, nth_error m i = Some v).
  { apply first_index_some in Hi. destruct Hi as [[r [Hr _]] _].
    assert (Hlt : (i < length m)%nat)
      by (rewrite Hlen; apply nth_error_Some; congruence).
    apply nth_error_Some in Hlt.
    destruct (nth_error m i) as [v|]; [now exists v | congruence]. }
  destruct Hv as [v Hv].
  destruct (@recommend_try_found requests_get movie df m top_n i v Hi Hv Hlen)
    as [rows [Hrows E]].
  unfold recommend. rewrite E. do 4 eexists. exists (cosine_similarity v m).
  split; [reflexivity|]. split.
  - now rewrite cosine_similarity_length.
  - rewrite length_map. unfold rows_of in Hrows.
    symmetry. apply (Forall2_length Hrows).
Qed.

Lemma distances_length_negative (scores : list R) (top_n : Z) :
  (top_n < 0)%Z ->
  length (distances scores top_n)
  = if (top_n =? -1)%Z then 0%nat
    else Z.to_nat (Z.of_nat (length scores) + top_n).
Proof.
  intros Hn. unfold distances, Py.slice, Py.slice_index.
  rewrite length_firstn, length_skipn, sorted_reverse_length, enumerate_length.
  destruct (Z.ltb_spec 1 0); [lia|].
  destruct (Z.eqb_spec top_n (-1)) as [->|Hne].
  - simpl. lia.
  - destruct (Z.ltb_spec (top_n + 1) 0); lia.
Qed.

(** X12: A negative [top_n] is not refused.  For a title of the catalogue,
    [top_n = -1] gives no result, and [top_n <= -2] gives [n + top_n]
    results for a catalogue of [n] entries (none when that is negative);
    no error is reported. *)
Theorem recommend_negative_top_n
    (movie : string) (df : DataFrame) (m : matrix) (top_n : Z) :
  length m = length df ->
  Exists (fun r => title r = movie) df ->
  (top_n < 0)%Z ->
  exists titles posters ratings ids,
    recommend requests_get movie df m top_n = ((titles, posters, ratings, ids), [])
    /\ length titles
       = if (top_n =? -1)%Z then 0%nat
         else Z.to_nat (Z.of_nat (length df) + top_n).
Proof.
  intros Hlen Hex Hn.
  destruct (@recommend_found movie df m top_n Hlen Hex)
    as [titles [posters [ratings [ids [scores [E [Hs Hc]]]]]]].
  exists titles, posters, ratings, ids. split; [exact E|].
  now rewrite Hc, distances_length_negative, Hs by exact Hn.
Qed.

End RankingMore.

(** ** More on [handle_search] *)

Section SearchMore.
Import Search.
Variable compile_other : string -> result (string -> bool).
Variable sort_values_desc : list scored -> list scored.
Hypothesis sort_ok : sorts_descending sort_values_desc.

Local Abbreviation search := (handle_search compile_other sort_values_desc).

Lemma handle_search_selection
    (df : DataFrame) (input : string) (st st' : session_state)
    (calls : list st_call) :
  search df input st = Ok (st', calls) ->
  st' = st \/ exists r, In r df /\ st' = select (title r) input.
Proof.
  unfold handle_search.
  destruct (String.eqb input EmptyString);
    [intros H; inversion H; now left|].
  destruct (filter (Pandas.title_eq_lower input) df) as [|row rest] eqn:Eexact.
  2:{ intros H. inversion H; subst. right. exists row. split; [|reflexivity].
      now destruct (filter_head_in _ _ Eexact). }
  destruct (Re.compile_ignorecase compile_other input) as [found|];
    cbn [bind]; [|discriminate].
  destruct (filter (fun r => found (title r)) df) as [|c cs] eqn:Esub.
  { destruct (Py.not_blank input); intros H; inversion H; now left. }
  cbn zeta.
  destruct (sort_ok (map (score_for input) (c :: cs))) as [Hperm _].
  destruct (sort_values_desc (map (score_for input) (c :: cs)))
    as [|[row q] sorted] eqn:Es; cbn [Py.getitem nth_error bind];
    [discriminate|].
  intros H. inversion H; subst. right. exists row. split; [|reflexivity].
  assert (Hin : In (row, q) (map (score_for input) (c :: cs)))
    by (apply (Permutation_in _ Hperm); now left).
  apply in_map_iff in Hin. destruct Hin as [r0 [E0 Hin0]].
  unfold score_for in E0. inversion E0; subst r0.
  rewrite <- Esub in Hin0. apply filter_In in Hin0. tauto.
Qed.

(** X13: Whatever the text, also one with regex special characters, a search
    that returns either leaves the session state as it was or selects the
    title of a catalogue row, spelled as the catalogue spells it. *)
Theorem search_selects_catalogue_title
    (df : DataFrame) (input : string) (st st' : session_state)
    (calls : list st_call) :
  search df input st = Ok (st', calls) ->
  st' = st \/
  exists r, In r df /\
            selected_movie st' = Some (title r) /\ search_text st' = input.
Proof.
  intros H. destruct (handle_search_selection _ _ _ H) as [E|[r [Hr E]]].
  - now left.
  - right. exists r. subst st'. simpl. auto.
Qed.

Lemma filter_first {A : Type} (p : A -> bool) (l : list A) (i : nat) (a : A) :
  nth_error l i = Some a -> p a = true ->
  (forall j b, j < i -> nth_error l j = Some b -> p b = false) ->
  exists rest, filter p l = a :: rest.
Proof.
  revert i. induction l as [|x l IH]; intros i Hn Hp Hmin.
  - destruct i; discriminate.
  - destruct i as [|i]; simpl in Hn.
    + inversion Hn; subst x. simpl. rewrite Hp. eauto.
    + simpl. rewrite (Hmin 0 x ltac:(lia) eq_refl).
      apply (IH i Hn Hp). intros j b Hj Hb. apply (Hmin (S j)); [lia | exact Hb].
Qed.

End SearchMore.

Section SearchMoreGeneral.
Import Search.

(** X14: A text that equals a title up to case selects the first row bearing
    that title, before the text is ever used as a pattern: whatever the
    pattern engine and the sort do, also for a text with regex special
    characters, and nothing is displayed. *)
Theorem exact_title_selected_first
    (compile_other : string -> result (string -> bool))
    (sort_values_desc : list scored -> list scored)
    (df : DataFrame) (input : string) (st : session_state)
    (i : nat) (r : movie_row) :
  input <> EmptyString ->
  nth_error df i = Some r ->
  exact_ci input r = true ->
  (forall j r', j < i -> nth_error df j = Some r' -> exact_ci input r' = false) ->
  handle_search compile_other sort_values_desc df input st
  = Ok (select (title r) input, []).
Proof.
  intros Hne Hr He Hmin. unfold handle_search.
  apply String.eqb_neq in Hne. rewrite Hne.
  change (filter (Pandas.title_eq_lower input) df)
    with (filter (exact_ci input) df).
  destruct (filter_first (exact_ci input) df Hr He Hmin) as [rest ->].
  reflexivity.
Qed.

(** X15: What the search selects, [recommend] finds: after a search that
    changed the selection, [recommend] on the selected title reports no
    error. *)
Theorem search_then_recommend
    (compile_other : string -> result (string -> bool))
    (sort_values_desc : list scored -> list scored)
    (requests_get : request -> response)
    (df : DataFrame) (m : Sklearn.matrix) (top_n : Z)
    (input : string) (st st' : session_state) (calls : list st_call)
    (movie : string) :
  sorts_descending sort_values_desc ->
  length m = length df ->
  handle_search compile_other sort_values_desc df input st = Ok (st', calls) ->
  st' <> st ->
  selected_movie st' = Some movie ->
  snd (Utils.recommend requests_get movie df m top_n) = [].
Proof.
  intros Hsort Hlen Hs Hchanged Hsel.
  destruct (@handle_search_selection compile_other sort_values_desc Hsort
              df input st st' calls Hs) as [E|[r [Hr E]]];
    [contradiction|].
  subst st'. simpl in Hsel. inversion Hsel; subst movie.
  assert (Hex : Exists (fun r' => title r' = title r) df)
    by (apply Exists_exists; now exists r).
  destruct (@recommend_found requests_get (title r) df m top_n Hlen Hex)
    as [titles [posters [ratings [ids [scores [E _]]]]]].
  now rewrite E.
Qed.

End SearchMoreGeneral.

(** ** More on the validation of the chat answer *)

Section ValidationMore.
Import Chatbot.
Variable movies_df : DataFrame.

Lemma dict_set_keys (k : string) (v : json) (kv : list (string * json)) :
  PyJson.has_key k kv = true -> map fst (dict_set k v kv) = map fst kv.
Proof.
  unfold PyJson.has_key.
  induction kv as [|[k' v'] kv IH]; simpl; [discriminate|].
  destruct (String.eqb k k') eqn:E; simpl; [reflexivity|].
  intros H. now rewrite IH.
Qed.

Lemma lookup_dict_set_other (k k' : string) (v : json) (kv : list (string * json)) :
  k' <> k -> PyJson.lookup k' (dict_set k v kv) = PyJson.lookup k' kv.
Proof.
  intros Hne. induction kv as [|[k0 v0] kv IH]; simpl.
  - apply String.eqb_neq in Hne. now rewrite Hne.
  - destruct (String.eqb k k0) eqn:E; simpl.
    + apply String.eqb_eq in E. subst k0.
      apply String.eqb_neq in Hne. now rewrite Hne.
    + destruct (String.eqb k' k0); [reflexivity | exact IH].
Qed.

Lemma dict_set_twice (k : string) (v : json) (kv : list (string * json)) :
  dict_set k v (dict_set k v kv) = dict_set k v kv.
Proof.
  induction kv as [|[k0 v0] kv IH]; simpl.
  - now rewrite String.eqb_refl.
  - destruct (String.eqb k k0) eqn:E; simpl; rewrite E; [reflexivity|].
    now rewrite IH.
Qed.

(** X16: Validation rewrites [database_movies] and nothing else: the keys of the
    answer and their order stay, and so does the value of every other key
    ([message], [external_movies], which is not checked against
    anything). *)
Theorem validation_keeps_other_keys (kv out : list (string * json)) :
  validate_movie_ids movies_df (JDict kv) = Ok (JDict out) ->
  map fst out = map fst kv /\
  forall k, k <> "database_movies"%string ->
            PyJson.lookup k out = PyJson.lookup k kv.
Proof.
  unfold validate_movie_ids. cbn [contains_key bind].
  destruct (PyJson.has_key "database_movies" kv) eqn:Ek.
  - destruct (PyJson.getitem (JDict kv) "database_movies") as [movies_v|];
      cbn [bind]; [|discriminate].
    destruct (PyJson.iter movies_v) as [movies|]; cbn [bind]; [|discriminate].
    destruct (mapM (validate_entry movies_df) movies) as [outs|]; cbn [bind];
      [|discriminate].
    simpl. intros H. inversion H; subst out. split.
    + now apply dict_set_keys.
    + intros k Hk. now apply lookup_dict_set_other.
  - intros H. inversion H; subst out. auto.
Qed.

Lemma validate_validated_entry (t : string) (row : movie_row) (reason : json) :
  hd_error (filter (Search.exact_ci t) movies_df) = Some row ->
  validate_entry movies_df (validated_entry row reason)
  = Ok [validated_entry row reason].
Proof.
  intros Hrow. unfold validate_entry, validated_entry.
  cbn [PyJson.get PyJson.lookup String.eqb Ascii.eqb Bool.eqb bind PyJson.lower].
  simpl PyJson.lookup. cbn [bind PyJson.lower].
  destruct (filter (Search.exact_ci t) movies_df) as [|r rest] eqn:Ef;
    [discriminate|].
  simpl in Hrow. inversion Hrow; subst r.
  destruct (filter_head_in _ _ Ef) as [_ Hexact].
  unfold Search.exact_ci in Hexact. apply String.eqb_eq in Hexact.
  assert (E : filter (fun r => String.eqb (Py.lower (title r))
                                          (Py.lower (title row))) movies_df
              = filter (Search.exact_ci t) movies_df).
  { apply filter_ext. intros r. unfold Search.exact_ci. now rewrite Hexact. }
  rewrite E, Ef. reflexivity.
Qed.

Lemma validate_entries_again (movies : list json) (outs : list (list json)) :
  mapM (validate_entry movies_df) movies = Ok outs ->
  mapM (validate_entry movies_df) (concat outs)
  = Ok (map (fun e => [e]) (concat outs)).
Proof.
  revert outs. induction movies as [|movie movies IH]; intros outs H; simpl in H.
  - inversion H. reflexivity.
  - destruct (validate_entry movies_df movie) as [out|] eqn:E; [|discriminate].
    destruct (mapM (validate_entry movies_df) movies) as [outs'|]; [|discriminate].
    inversion H; subst outs. clear H. specialize (IH outs' eq_refl).
    apply validate_entry_ok in E. destruct E as [t [Ht [[Hnone ->]|Hsome]]].
    + exact IH.
    + destruct Hsome as [row [reason [Hrow [Hreason ->]]]].
      cbn [concat app map mapM].
      rewrite (validate_validated_entry t reason Hrow), IH. reflexivity.
Qed.

Lemma concat_singletons {A : Type} (l : list A) :
  concat (map (fun e => [e]) l) = l.
Proof. induction l as [|a l IH]; simpl; [reflexivity | now rewrite IH]. Qed.

(** X17: Validating a validated answer changes nothing. *)
Theorem validation_idempotent (parsed out : json) :
  validate_movie_ids movies_df parsed = Ok out ->
  validate_movie_ids movies_df out = Ok out.
Proof.
  unfold validate_movie_ids at 1.
  destruct (contains_key "database_movies" parsed) as [present|] eqn:Ec;
    cbn [bind]; [|discriminate].
  destruct present.
  2:{ intros H. inversion H; subst out. unfold validate_movie_ids.
      now rewrite Ec. }
  destruct (PyJson.getitem parsed "database_movies") as [movies_v|] eqn:Em;
    cbn [bind]; [|discriminate].
  destruct (PyJson.iter movies_v) as [movies|] eqn:Ei; cbn [bind];
    [|discriminate].
  destruct (mapM (validate_entry movies_df) movies) as [outs|] eqn:Ev;
    cbn [bind]; [|discriminate].
  destruct parsed; simpl; try discriminate.
  intros H. inversion H; subst out. clear H.
  unfold validate_movie_ids. cbn [contains_key bind].
  unfold PyJson.has_key, PyJson.getitem. rewrite lookup_dict_set.
  cbn [bind PyJson.iter].
  rewrite (validate_entries_again movies Ev). cbn [bind setitem].
  now rewrite concat_singletons, dict_set_twice.
Qed.

Lemma mapM_raises {A B : Type} (f : A -> result B) (l : list A) :
  Exists (fun a => exists e, f a = Raise e) l ->
  exists e, mapM f l = Raise e.
Proof.
  induction 1 as [a l [e Ha]|a l _ [e IH]]; simpl.
  - rewrite Ha. eauto.
  - destruct (f a); [|eauto]. rewrite IH. eauto.
Qed.

Variable search_braces : string -> option string.
Variable json_loads : string -> result json.

(** X18: One entry whose title is not text (or that is not an object) makes the
    whole answer fall back to the plain one: the text as the message, and
    no film at all, the well-formed entries included. *)
Theorem malformed_entry_discards_answer
    (response_text group : string) (kv : list (string * json))
    (movies : list json) :
  search_braces response_text = Some group ->
  json_loads group = Ok (JDict kv) ->
  PyJson.lookup "database_movies" kv = Some (JList movies) ->
  Exists (fun movie => forall t, ~ entry_title movie t) movies ->
  parse_response movies_df search_braces json_loads response_text
  = plain_answer response_text.
Proof.
  intros Hg Hl Hk Hbad.
  assert (Hraise : exists e, mapM (validate_entry movies_df) movies = Raise e).
  { apply mapM_raises. eapply Exists_impl; [|exact Hbad].
    intros movie Hno. unfold validate_entry.
    destruct (PyJson.get movie "title" (JStr "")) as [title_v|e] eqn:Et;
      cbn [bind]; [|eauto].
    destruct title_v; cbn [PyJson.lower bind]; eauto.
    exfalso. apply (Hno s). exact Et. }
  destruct Hraise as [e He].
  unfold parse_response, parse_response_try. rewrite Hg, Hl. cbn [bind].
  unfold validate_movie_ids. cbn [contains_key bind].
  unfold PyJson.has_key, PyJson.getitem. rewrite Hk. cbn [bind PyJson.iter].
  now rewrite He.
Qed.

End ValidationMore.

(** ** The catalogue search behind the chat *)

Section ChatSearchFacts.
Import ChatSearch.
Variable requests_get : request -> response.

Lemma mapM_Forall2 {A B : Type} (f : A -> result B) (l : list A) (l' : list B) :
  mapM f l = Ok l' -> Forall2 (fun a b => f a = Ok b) l l'.
Proof.
  revert l'. induction l as [|a l IH]; intros l' H; simpl in H.
  - inversion H. constructor.
  - destruct (f a) as [b|] eqn:E; [|discriminate].
    destruct (mapM f l) as [bs|]; [|discriminate].
    inversion H; subst. constructor; [exact E | now apply IH].
Qed.

Lemma drop_duplicates_spec (seen : list Z) (rows : DataFrame) :
  NoDup (map movie_id (drop_duplicates seen rows))
  /\ (forall r, In r (drop_duplicates seen rows) ->
                In r rows /\ ~ In (movie_id r) seen).
Proof.
  revert seen. induction rows as [|r rows IH]; intros seen; simpl.
  - split; [constructor | intros r []].
  - destruct (existsb (Z.eqb (movie_id r)) seen) eqn:E.
    + destruct (IH seen) as [Hnd Hin]. split; [exact Hnd|].
      intros r' Hr'. destruct (Hin r' Hr'). auto.
    + destruct (IH (movie_id r :: seen)) as [Hnd Hin]. split.
      * simpl. constructor; [|exact Hnd].
        intros Hmem. apply in_map_iff in Hmem. destruct Hmem as [r' [Eid Hr']].
        destruct (Hin r' Hr') as [_ Hnot]. apply Hnot. left. now symmetry.
      * intros r' [<-|Hr'].
        -- split; [now left|]. intros Hmem.
           assert (existsb (Z.eqb (movie_id r)) seen = true).
           { apply existsb_exists. exists (movie_id r). split; [exact Hmem|].
             apply Z.eqb_refl. }
           congruence.
        -- destruct (Hin r' Hr') as [Hrows Hnot]. split; [now right|].
           intros Hmem. apply Hnot. now right.
Qed.

Lemma head_incl {A : Type} (n : Z) (l : list A) (a : A) :
  In a (head n l) -> In a l.
Proof. unfold head. destruct (0 <=? n)%Z; apply In_firstn. Qed.

Lemma head_length {A : Type} (n : Z) (l : list A) :
  (0 <= n)%Z -> length (head n l) <= Z.to_nat n.
Proof.
  intros Hn. unfold head. destruct (Z.leb_spec 0 n); [|lia].
  rewrite length_firstn. lia.
Qed.

Lemma head_NoDup_ids (n : Z) (rows : DataFrame) :
  NoDup (map movie_id rows) -> NoDup (map movie_id (head n rows)).
Proof.
  intros H. unfold head. destruct (0 <=? n)%Z;
    rewrite <- firstn_map; now apply NoDup_firstn.
Qed.

Lemma hit_of_row (r : movie_row) (h : search_hit) :
  hit_of requests_get r = Ok h ->
  hit_title h = title r /\ hit_movie_id h = movie_id r.
Proof.
  unfold hit_of.
  destruct (match genres _ with [] => _ | _ => _ end); cbn [bind]; [|discriminate].
  destruct (if is_not_unknown _ then _ else _); cbn [bind]; [|discriminate].
  intros H. inversion H. auto.
Qed.

(** X19: When the search returns, it returns at most [limit] hits (for a
    non-negative [limit]), no two with the same [movie_id], and each hit is
    a catalogue row, under its own title and id, whose title or tag text
    contains the query up to case. *)
Theorem search_database_hits
    (df : DataFrame) (query : string) (limit : Z) (hits : list search_hit) :
  search_database requests_get df query limit = Ok hits ->
  ((0 <= limit)%Z -> length hits <= Z.to_nat limit)
  /\ NoDup (map hit_movie_id hits)
  /\ Forall (fun h => exists r,
               In r df /\
               hit_title h = title r /\ hit_movie_id h = movie_id r /\
               (title_has (Py.lower query) r = true \/
                tags_have (Py.lower query) r = true)) hits.
Proof.
  unfold search_database. intros H.
  pose proof (mapM_length _ _ H) as Hlen.
  apply mapM_Forall2 in H.
  assert (Hrows : Forall2 (fun r h => hit_title h = title r /\
                                      hit_movie_id h = movie_id r)
                          (head limit (all_matches df query)) hits).
  { eapply Forall2_impl; [|exact H]. intros r h. apply hit_of_row. }
  assert (Hids : map hit_movie_id hits
                 = map movie_id (head limit (all_matches df query))).
  { clear -Hrows. induction Hrows as [|r h rows hits [_ E] _ IH]; simpl;
      [reflexivity | now rewrite E, IH]. }
  split; [|split].
  - intros Hn. rewrite Hlen. now apply head_length.
  - rewrite Hids. apply head_NoDup_ids.
    unfold all_matches. apply drop_duplicates_spec.
  - assert (Hfrom : Forall (fun h => exists r,
                              In r (head limit (all_matches df query)) /\
                              hit_title h = title r /\
                              hit_movie_id h = movie_id r) hits).
    { clear -Hrows. induction Hrows as [|r h rows hits [Et Ei] _ IH].
      - constructor.
      - constructor.
        + exists r. split; [now left | auto].
        + eapply Forall_impl; [|exact IH].
          intros h' [r' [Hr' Hh']]. exists r'. split; [now right | exact Hh']. }
    eapply Forall_impl; [|exact Hfrom].
    intros h [r [Hr [Et Ei]]]. exists r.
    apply head_incl in Hr. unfold all_matches in Hr.
    apply drop_duplicates_spec in Hr. destruct Hr as [Hr _].
    apply in_app_or in Hr.
    destruct Hr as [Hr|Hr]; apply filter_In in Hr; destruct Hr as [Hdf Hm];
      repeat split; auto.
Qed.

(** X20: With the movie database service out of reach the search still answers:
    every hit carries the genres "N/A", the rating 0 and the year "N/A". *)
Theorem search_database_offline
    (df : DataFrame) (query : string) (limit : Z) :
  (forall req data, requests_get req <> BodyJson data) ->
  search_database requests_get df query limit
  = Ok (map (fun r => {| hit_title := title r;
                         hit_movie_id := movie_id r;
                         hit_genres := "N/A";
                         hit_rating := JInt 0;
                         hit_year := JStr "N/A" |})
            (head limit (all_matches df query))).
Proof.
  intros Hoff. unfold search_database.
  induction (head limit (all_matches df query)) as [|r rows IH]; simpl;
    [reflexivity|].
  rewrite IH.
  assert (Hd : Utils.fetch_movie_details requests_get (movie_id r)
               = Utils.default_details).
  { unfold Utils.fetch_movie_details, Utils.fetch_movie_details_try.
    destruct (response_json_failure (Hoff (GetMovieVideosCredits (movie_id r))))
      as [e He].
    now rewrite He. }
  unfold hit_of. rewrite Hd. reflexivity.
Qed.

End ChatSearchFacts.

(** ** The poster of a film outside the catalogue *)

Section ExternalPosterFacts.
Import ExternalPoster.
Variable requests_get_search : search_request -> response.
Variable str_other : json -> string.

Local Abbreviation lookup_poster :=
  (search_external_movie_poster requests_get_search str_other).

(** A field of a result, with the default [dict.get] falls back to. *)
Local Abbreviation field k default kv :=
  (match PyJson.lookup k kv with
   | Some v => v
   | None => default
   end).

(** X21: The lookup never raises.  A failed request, or a body that is not a
    JSON object, gives the error record; an answer whose [results] are
    missing, null or empty gives the "nothing found" record; an answer whose
    [results] are a list starting with an object gives the fields of that
    first result, with the image base in front of its poster path or the
    "no poster" placeholder; a first result that is no object, or [results]
    that are no list, give the error record.  So the poster URL is always
    one of the two placeholders or the image base followed by the poster
    path of the first result. *)
Theorem external_poster_outcomes (movie_title : string) (year : json) :
  let req :=
    SearchMovie movie_title (if PyJson.truthy year then Some year else None) in
  ((forall data, requests_get_search req <> BodyJson data) ->
     lookup_poster movie_title year = fetch_error)
  /\ (forall data, requests_get_search req = BodyJson data ->
        (forall kv, data <> JDict kv) ->
        lookup_poster movie_title year = fetch_error)
  /\ (forall kv, requests_get_search req = BodyJson (JDict kv) ->
        PyJson.truthy (field "results" JNull kv) = false ->
        lookup_poster movie_title year = nothing_found)
  /\ (forall kv movie rest,
        requests_get_search req = BodyJson (JDict kv) ->
        PyJson.lookup "results" kv = Some (JList (JDict movie :: rest)) ->
        lookup_poster movie_title year
        = {| ext_poster_url :=
               if PyJson.truthy (field "poster_path" JNull movie)
               then ("http://image.tmdb.org/t/p/w500"
                     ++ fstr str_other (field "poster_path" JNull movie))%string
               else no_poster;
             ext_rating := field "vote_average" (JInt 0) movie;
             ext_release_date := field "release_date" (JStr "Unknown") movie;
             ext_overview :=
               field "overview" (JStr "No description available") movie;
             ext_tmdb_id := field "id" JNull movie |})
  /\ (forall kv first rest,
        requests_get_search req = BodyJson (JDict kv) ->
        PyJson.lookup "results" kv = Some (JList (first :: rest)) ->
        (forall movie, first <> JDict movie) ->
        lookup_poster movie_title year = fetch_error)
  /\ (forall kv results,
        requests_get_search req = BodyJson (JDict kv) ->
        PyJson.lookup "results" kv = Some results ->
        PyJson.truthy results = true ->
        (forall l, results <> JList l) ->
        lookup_poster movie_title year = fetch_error)
  /\ (ext_poster_url (lookup_poster movie_title year) = error_poster \/
      ext_poster_url (lookup_poster movie_title year) = no_poster \/
      exists path,
        PyJson.truthy path = true /\
        ext_poster_url (lookup_poster movie_title year)
        = ("http://image.tmdb.org/t/p/w500" ++ fstr str_other path)%string).
Proof.
  cbn zeta. unfold search_external_movie_poster.
  split; [|split; [|split; [|split; [|split; [|split]]]]].
  - intros H. apply response_json_failure in H. destruct H as [e He].
    unfold search_external_movie_poster_try. now rewrite He.
  - intros data Hd Hnd. unfold search_external_movie_poster_try. rewrite Hd.
    destruct data; try reflexivity. exfalso. now apply (Hnd kv).
  - intros kv Hd Hfalsy. unfold search_external_movie_poster_try. rewrite Hd.
    cbn [Utils.response_json bind PyJson.get]. now rewrite Hfalsy.
  - intros kv movie rest Hd Hres.
    unfold search_external_movie_poster_try. rewrite Hd.
    cbn [Utils.response_json bind PyJson.get PyJson.getitem]. rewrite Hres.
    reflexivity.
  - intros kv first rest Hd Hres Hno.
    unfold search_external_movie_poster_try. rewrite Hd.
    cbn [Utils.response_json bind PyJson.get PyJson.getitem]. rewrite Hres.
    cbn [PyJson.truthy bind first_item].
    destruct first; try reflexivity. exfalso. now apply (Hno kv0).
  - intros kv results Hd Hres Htrue Hno.
    unfold search_external_movie_poster_try. rewrite Hd.
    cbn [Utils.response_json bind PyJson.get PyJson.getitem]. rewrite Hres, Htrue.
    cbn [bind].
    destruct results as [| | | |s|l|kv']; try reflexivity.
    + destruct s; reflexivity.
    + exfalso. now apply (Hno l).
  - destruct (search_external_movie_poster_try requests_get_search str_other
                movie_title year) as [r|e] eqn:E; [|now left].
    unfold search_external_movie_poster_try in E.
    destruct (Utils.response_json _) as [data|]; cbn [bind] in E; [|discriminate].
    destruct (PyJson.get data "results" JNull) as [results|]; cbn [bind] in E;
      [|discriminate].
    destruct (PyJson.truthy results).
    2:{ inversion E. right. now left. }
    repeat match type of E with
      | bind ?m _ = Ok _ =>
          let H := fresh "H" in
          destruct m eqn:H; cbn [bind] in E; [|discriminate]
      end.
    inversion E. simpl.
    match goal with |- context [PyJson.truthy ?p] =>
      destruct (PyJson.truthy p) eqn:Ep; [|right; now left];
      right; right; exists p; auto
    end.
Qed.

End ExternalPosterFacts.

(** ** The query row and invalid patterns *)

Section QueryAndPatterns.
Import Sklearn Utils Search.
Local Open Scope R_scope.


(** X23: the search has no handler for a text that is not a valid pattern:
    when the text is not empty, equals no title up to case, and the pattern
    compiler refuses it, [handle_search] raises [re.error]. *)
Theorem invalid_pattern_raises
    (compile_other : string -> result (string -> bool))
    (sort_values_desc : list scored -> list scored)
    (df : DataFrame) (input : string) (st : session_state) :
  input <> EmptyString ->
  Re.parse input = None ->
  compile_other input = Raise ReError ->
  Forall (fun r => exact_ci input r = false) df ->
  handle_search compile_other sort_values_desc df input st = Raise ReError.
Proof.
  intros Hne Hparse Hother Hexact. now apply bad_pattern_raises.
Qed.

End QueryAndPatterns.

(** ** The query parameter of a clickable poster *)

Section AppFacts.
Import Sklearn Utils App.
Variable py_int : string -> option Z.
Variable requests_get : request -> response.

(** The ids [recommend] returns are ids of catalogue rows. *)
Lemma recommend_ids_in_catalogue
    (movie : string) (df : DataFrame) (m : matrix) (top_n : Z) :
  length m = length df ->
  Exists (fun r => title r = movie) df ->
  forall id,
    In id (snd (fst (recommend requests_get movie df m top_n))) ->
    exists r, In r df /\ movie_id r = id.
Proof.
  intros Hlen Hex id.
  destruct (first_index_total (Pandas.title_eq movie) df) as [Hnone|[i Hi]].
  { apply first_index_none in Hnone. rewrite Exists_exists in Hex.
    rewrite Forall_forall in Hnone. destruct Hex as [r [Hr Ht]].
    specialize (Hnone r Hr). unfold Pandas.title_eq in Hnone.
    apply String.eqb_neq in Hnone. contradiction. }
  assert (Hv : exists v, nth_error m i = Some v).
  { apply first_index_some in Hi. destruct Hi as [[r [Hr _]] _].
    assert (Hlt : (i < length m)%nat)
      by (rewrite Hlen; apply nth_error_Some; congruence).
    apply nth_error_Some in Hlt.
    destruct (nth_error m i) as [v|]; [now exists v | congruence]. }
  destruct Hv as [v Hv].
  destruct (@recommend_try_found requests_get movie df m top_n i v Hi Hv Hlen)
    as [rows [Hrows E]].
  unfold recommend. rewrite E. simpl. intros Hid.
  apply in_map_iff in Hid. destruct Hid as [r [Er Hr]].
  exists r. split; [|exact Er].
  unfold rows_of in Hrows. clear -Hrows Hr.
  induction Hrows as [|p r' ds rows Hp _ IH]; [destruct Hr|].
  destruct Hr as [<-|Hr]; [eapply nth_error_In, Hp | now apply IH].
Qed.

(** X24: Clicking a recommended poster works: for every id [recommend]
    returns, the page opened with that id in [selected] selects the title
    of a catalogue row with that id, empties the search text, resets the
    batch, shows no warning, and [recommend] on the selected title reports
    no error. *)
Theorem click_recommended_poster
    (movie : string) (df : DataFrame) (m : matrix) (top_n top_n' : Z)
    (id : Z) (param : string) (st : app_state) :
  length m = length df ->
  Exists (fun r => title r = movie) df ->
  In id (snd (fst (recommend requests_get movie df m top_n))) ->
  py_int param = Some id ->
  back_clicked st = false ->
  exists r,
    In r df /\ movie_id r = id /\
    handle_query_param py_int df (Some param) st
    = ({| app_selected_movie := Some (title r);
          app_search_text := EmptyString;
          rec_batch := 1;
          back_clicked := false |}, []) /\
    snd (recommend requests_get (title r) df m top_n') = [].
Proof.
  intros Hlen Hex Hid Hint Hback.
  destruct (@recommend_ids_in_catalogue movie df m top_n Hlen Hex id Hid)
    as [r0 [Hr0 Eid]].
  unfold handle_query_param. rewrite Hback, Hint.
  destruct (filter (fun r => (movie_id r =? id)%Z) df) as [|r rest] eqn:Ef.
  { exfalso. apply filter_nil_iff in Ef. rewrite Forall_forall in Ef.
    specialize (Ef r0 Hr0). simpl in Ef. rewrite Eid, Z.eqb_refl in Ef.
    discriminate. }
  destruct (filter_head_in _ _ Ef) as [Hr Hm]. apply Z.eqb_eq in Hm.
  exists r. split; [exact Hr|]. split; [exact Hm|].
  split; [reflexivity|].
  assert (Hex' : Exists (fun r' => title r' = title r) df)
    by (apply Exists_exists; now exists r).
  destruct (@recommend_found requests_get (title r) df m top_n' Hlen Hex')
    as [titles [posters [ratings [ids [scores [E _]]]]]].
  now rewrite E.
Qed.

(** X25: Whatever the query parameter, the handling leaves [back_clicked]
    off, and the selection is either the one before or the title of a
    catalogue row; a text that is no integer only produces a warning. *)
Theorem query_param_invariants
    (df : DataFrame) (query_selected : option string) (st : app_state) :
  let '(st', calls) := handle_query_param py_int df query_selected st in
  back_clicked st' = false
  /\ (app_selected_movie st' = app_selected_movie st \/
      exists r, In r df /\ app_selected_movie st' = Some (title r))
  /\ (forall param, query_selected = Some param -> py_int param = None ->
        app_selected_movie st' = app_selected_movie st /\
        app_search_text st' = app_search_text st /\
        (back_clicked st = false ->
         calls = [st_warning ("Invalid movie ID: " ++ param)%string])).
Proof.
  unfold handle_query_param.
  destruct query_selected as [param|]; [|destruct (back_clicked st) eqn:Eb].
  2,3: cbn; rewrite ?Eb; cbn; (split; [auto|]); (split; [now left|]);
       intros p Hp; discriminate.
  destruct (back_clicked st) eqn:Eb.
  { cbn. rewrite ?Eb. cbn. split; [auto|]. split; [now left|].
    intros p Hp Hn. repeat split. discriminate. }
  destruct (py_int param) as [id|] eqn:Eint.
  - destruct (filter (fun r => (movie_id r =? id)%Z) df) as [|r rest] eqn:Ef.
    + cbn. rewrite ?Eb. cbn. split; [auto|]. split; [now left|].
      intros p Hp Hn. inversion Hp; subst p. congruence.
    + destruct (filter_head_in _ _ Ef) as [Hr _]. cbn. rewrite ?Eb. cbn.
      split; [auto|]. split; [right; exists r; auto|].
      intros p Hp Hn. inversion Hp; subst p. congruence.
  - cbn. rewrite ?Eb. cbn. split; [auto|]. split; [now left|].
    intros p Hp Hn. inversion Hp; subst p. repeat split.
Qed.

End AppFacts.

(** ** Instances of the further properties *)

Section MoreWitnesses.
Import Sklearn Utils Search Chatbot Samples MoreSamples.



Lemma genre_filter_plain_witness :
  Genres.filter_movies_by_genre refuse_other genre_df "Action"
  = Ok (filter (Genres.tagged "Action") genre_df)
  /\ Genres.get_genre_movie_count refuse_other genre_df "Action"
     = Ok (length (filter (Genres.tagged "Action") genre_df)).
Proof.
  apply (@genre_filter_plain refuse_other genre_df "Action"). reflexivity.
Defined.

Lemma fetch_poster_url_witness :
  fetch_poster with_poster 27205
  = "http://image.tmdb.org/t/p/w500//inception.jpg"%string.
Proof.
  destruct (fetch_poster_url with_poster 27205) as [H _].
  apply (H [("poster_path"%string, JStr "/inception.jpg")] "/inception.jpg"%string);
    [reflexivity | reflexivity | discriminate].
Defined.

Lemma twins_recommended_rows :
  recommended_rows "Beta" twins_df twins_matrix 12 = Ok [1; 2].
Proof.
  unfold recommended_rows.
  replace (Py.getitem (Pandas.index_where (Pandas.title_eq "Beta") twins_df) 0)
    with (@Ok nat 1) by reflexivity.
  cbn [bind]. rewrite twins_similarity. cbn [bind].
  now rewrite twins_distances.
Qed.

Lemma recommended_rows_distinct_witness :
  NoDup [1; 2] /\ Forall (fun k => k < length twins_matrix) [1; 2].
Proof.
  apply (@recommended_rows_distinct "Beta" twins_df twins_matrix 12 [1; 2]).
  exact twins_recommended_rows.
Defined.

Lemma distances_keep_the_best_witness : 0 = 0.
Proof.
  apply (@distances_keep_the_best [1; 0]%R 12 ltac:(lia)
           (1, 0%R) 0 1%R 0 1%R).
  - rewrite inception_distances. now left.
  - reflexivity.
  - reflexivity.
  - rewrite inception_distances. simpl. intros [H|[]]. discriminate.
  - rewrite inception_distances. simpl. intros [H|[]]. discriminate.
  - simpl. lra.
  - simpl. lra.
Defined.

Lemma similarity_symmetric_witness :
  exists si sj,
    compute_similarity_for_movie 0 twins_matrix = Ok si /\
    compute_similarity_for_movie 2 twins_matrix = Ok sj /\
    length si = length twins_matrix /\ length sj = length twins_matrix /\
    nth_error si 2 = nth_error sj 0.
Proof.
  destruct (similarity_symmetric twins_matrix 0 2) as [H _].
  apply H; simpl; lia.
Defined.

Lemma recommend_at_most_top_n_witness :
  let '(titles, _, _, _) :=
    fst (recommend offline "Beta" twins_df twins_matrix 1) in
  length titles <= Z.to_nat 1.
Proof.
  apply (@recommend_at_most_top_n offline "Beta" twins_df twins_matrix 1). lia.
Defined.

Lemma recommend_negative_top_n_witness :
  exists titles posters ratings ids,
    recommend offline "Beta" twins_df twins_matrix (-2)
    = ((titles, posters, ratings, ids), [])
    /\ length titles
       = if (-2 =? -1)%Z then 0
         else Z.to_nat (Z.of_nat (length twins_df) + -2).
Proof.
  apply (@recommend_negative_top_n offline "Beta" twins_df twins_matrix (-2)).
  - reflexivity.
  - right. left. reflexivity.
  - lia.
Defined.

Lemma search_selects_catalogue_title_witness :
  select "Inception" "incep" = nothing_selected \/
  exists r, In r inception_df /\
            selected_movie (select "Inception" "incep") = Some (title r) /\
            search_text (select "Inception" "incep") = "incep"%string.
Proof.
  apply (@search_selects_catalogue_title refuse_other sort_keeping_ties
           sort_keeping_ties_descending inception_df "incep" nothing_selected
           (select "Inception" "incep") []).
  reflexivity.
Defined.

Lemma exact_title_selected_first_witness :
  handle_search refuse_other sort_keeping_ties summer_df "(500) days of summer"
    nothing_selected
  = Ok (select "(500) Days of Summer" "(500) days of summer", []).
Proof.
  apply (@exact_title_selected_first refuse_other sort_keeping_ties summer_df
           "(500) days of summer" nothing_selected 0
           (MovieRow 19913 "(500) Days of Summer" "romance")).
  - discriminate.
  - reflexivity.
  - reflexivity.
  - intros j r' Hj. lia.
Defined.

Lemma search_then_recommend_witness :
  snd (recommend offline "Inception" inception_df inception_matrix 12) = [].
Proof.
  apply (@search_then_recommend refuse_other sort_keeping_ties offline
           inception_df inception_matrix 12 "incep" nothing_selected
           (select "Inception" "incep") [] "Inception").
  - exact sort_keeping_ties_descending.
  - reflexivity.
  - reflexivity.
  - discriminate.
  - reflexivity.
Defined.

Lemma chat_answer_validated :
  validate_movie_ids inception_df chat_answer = Ok (JDict validated_chat_answer).
Proof. reflexivity. Qed.

Lemma validation_keeps_other_keys_witness :
  map fst validated_chat_answer = map fst chat_answer_items
  /\ forall k, k <> "database_movies"%string ->
       PyJson.lookup k validated_chat_answer
       = PyJson.lookup k chat_answer_items.
Proof.
  apply (@validation_keeps_other_keys inception_df chat_answer_items
           validated_chat_answer).
  exact chat_answer_validated.
Defined.

Lemma validation_idempotent_witness :
  validate_movie_ids inception_df (JDict validated_chat_answer)
  = Ok (JDict validated_chat_answer).
Proof.
  apply (@validation_idempotent inception_df chat_answer).
  exact chat_answer_validated.
Defined.

Lemma malformed_entry_discards_answer_witness :
  parse_response inception_df whole_text loads_malformed_answer "{...}"
  = plain_answer "{...}".
Proof.
  apply (@malformed_entry_discards_answer inception_df whole_text
           loads_malformed_answer "{...}" "{...}" malformed_answer
           [ JDict [ ("title"%string, JStr "Inception") ];
             JDict [ ("title"%string, JInt 2010) ] ]).
  - reflexivity.
  - reflexivity.
  - reflexivity.
  - right. left. intros t H. discriminate.
Defined.

Lemma twins_action_hits :
  ChatSearch.search_database offline twins_df "Action" 15
  = Ok [ SearchHit "Alpha" 11 "N/A" (JInt 0) (JStr "N/A");
         SearchHit "Beta" 12 "N/A" (JInt 0) (JStr "N/A") ].
Proof. reflexivity. Qed.

Lemma search_database_hits_witness :
  ((0 <= 15)%Z -> 2 <= Z.to_nat 15)
  /\ NoDup [11; 12]%Z
  /\ Forall (fun h => exists r,
               In r twins_df /\
               hit_title h = title r /\ hit_movie_id h = movie_id r /\
               (ChatSearch.title_has (Py.lower "Action") r = true \/
                ChatSearch.tags_have (Py.lower "Action") r = true))
            [ SearchHit "Alpha" 11 "N/A" (JInt 0) (JStr "N/A");
              SearchHit "Beta" 12 "N/A" (JInt 0) (JStr "N/A") ].
Proof.
  apply (@search_database_hits offline twins_df "Action" 15
           [ SearchHit "Alpha" 11 "N/A" (JInt 0) (JStr "N/A");
             SearchHit "Beta" 12 "N/A" (JInt 0) (JStr "N/A") ]).
  exact twins_action_hits.
Defined.

Lemma search_database_offline_witness :
  ChatSearch.search_database offline twins_df "Action" 15
  = Ok (map (fun r => {| hit_title := title r;
                         hit_movie_id := movie_id r;
                         hit_genres := "N/A";
                         hit_rating := JInt 0;
                         hit_year := JStr "N/A" |})
            (ChatSearch.head 15 (ChatSearch.all_matches twins_df "Action"))).
Proof.
  apply (@search_database_offline offline twins_df "Action" 15).
  intros req data. discriminate.
Defined.

Lemma external_poster_outcomes_witness :
  ExternalPoster.search_external_movie_poster search_offline str_unused
    "Arrival" (JInt 2016)
  = ExternalPoster.fetch_error
  /\ ExternalPoster.search_external_movie_poster search_answers str_unused
       "Arrival" (JInt 2016)
     = {| ext_poster_url := "http://image.tmdb.org/t/p/w500/arrival.jpg";
          ext_rating := JFloat 7.6;
          ext_release_date := JStr "2016-11-10";
          ext_overview := JStr "No description available";
          ext_tmdb_id := JInt 329865 |}.
Proof.
  split.
  - destruct (@external_poster_outcomes search_offline str_unused
                "Arrival" (JInt 2016)) as [H _].
    apply H. intros data. discriminate.
  - destruct (@external_poster_outcomes search_answers str_unused
                "Arrival" (JInt 2016)) as [_ [_ [_ [H _]]]].
    rewrite (H arrival_body arrival_first [arrival_second] eq_refl eq_refl).
    reflexivity.
Defined.


Lemma invalid_pattern_raises_witness :
  handle_search refuse_other sort_keeping_ties inception_df "(" nothing_selected
  = Raise ReError.
Proof.
  apply (@invalid_pattern_raises refuse_other sort_keeping_ties inception_df
           "(" nothing_selected).
  - discriminate.
  - reflexivity.
  - reflexivity.
  - repeat constructor.
Defined.

Lemma twins_recommended_ids :
  snd (fst (recommend offline "Beta" twins_df twins_matrix 12)) = [12; 13]%Z.
Proof.
  unfold recommend.
  destruct (@recommend_try_found offline "Beta" twins_df twins_matrix 12
              1%nat [1; 0]%R eq_refl eq_refl eq_refl) as [rows [Hrows ->]].
  rewrite twins_scores, twins_distances in Hrows.
  rows_of_inv Hrows. reflexivity.
Qed.

Lemma click_recommended_poster_witness :
  exists r,
    In r twins_df /\ movie_id r = 13%Z /\
    App.handle_query_param int_of_twins twins_df (Some "13"%string) fresh_page
    = ({| app_selected_movie := Some (title r);
          app_search_text := EmptyString;
          rec_batch := 1;
          back_clicked := false |}, []) /\
    snd (recommend offline (title r) twins_df twins_matrix 18) = [].
Proof.
  apply (@click_recommended_poster int_of_twins offline "Beta"%string
           twins_df twins_matrix 12 18 13%Z "13"%string fresh_page).
  - reflexivity.
  - apply Exists_cons_tl, Exists_cons_hd. reflexivity.
  - rewrite twins_recommended_ids. simpl. auto.
  - reflexivity.
  - reflexivity.
Defined.

Lemma query_param_invariants_witness :
  let '(st', calls) :=
    App.handle_query_param int_of_twins twins_df (Some "abc"%string)
      fresh_page in
  app_selected_movie st' = None /\
  calls = [st_warning "Invalid movie ID: abc"].
Proof.
  pose proof (@query_param_invariants int_of_twins twins_df
                (Some "abc"%string) fresh_page) as H.
  destruct (App.handle_query_param int_of_twins twins_df (Some "abc"%string)
              fresh_page) as [st' calls].
  destruct H as [_ [_ H]].
  destruct (H "abc"%string eq_refl eq_refl) as [Hsel [_ Hcalls]].
  split; [exact Hsel | exact (Hcalls eq_refl)].
Defined.

End MoreWitnesses.
